(** * devops-autopilot: the generate / clean / validate / persist pipeline

    A shallow embedding of the Go sources

      - [services/terraform_service.go]: sanitizer, filename allocator, save,
        and the service calls that generate and validate;
      - package [utils]: the validator adapter and its diagnostic extraction;
      - [handlers/provision.go] and package [models]: the HTTP handlers;
      - the earlier file of package [handlers], which saves without
        validating.

    Go strings are byte strings and are embedded as [string]; Go [int] values
    as [Z]; a Go [error] as its message; a Go function returning [(T, error)]
    as a pair [T * option error], so that the zero value returned next to an
    error stays visible.  The file system, the generator back ends, the
    terraform binary and the JSON decoder are explicit arguments of the
    functions that use them.  Library functions ([strings.Fields],
    [strings.TrimSpace], [filepath.Join], [os.Stat], ...) are embedded by
    what they compute on byte strings. *)

From Stdlib Require Import ZArith Ascii String DecimalString DecimalZ Lia List Sorted.
From stdpp Require Import gmap strings list.

Open Scope Z_scope.

(** A Go [error] value, observed through [err.Error()]. *)
Definition error := string.

(** [fmt.Sprintf("%d", n)] *)
Definition itoa (n : Z) : string := NilZero.string_of_int (Z.to_int n).

(* ===================================================================== *)
(** ** Package [strings] of the Go library, on byte strings *)
(* ===================================================================== *)

Module Strings.

(** The table [asciiSpace] of package strings. *)
Definition asciiSpace (c : ascii) : bool :=
  match c with
  | "009" | "010" | "011" | "012" | "013" | " " => true
  | _ => false
  end%char.

(** The white space of [unicode.IsSpace] beyond ASCII, by UTF-8 encoding:
    U+0085 and U+00A0 take two bytes, U+1680, U+2000..U+200A, U+2028,
    U+2029, U+202F, U+205F and U+3000 take three. *)
Definition space2 (c d : ascii) : bool :=
  (N_of_ascii c =? 194)%N && ((N_of_ascii d =? 133) || (N_of_ascii d =? 160))%N.

Definition space3 (c d e : ascii) : bool :=
  let '(x, y, z) := (N_of_ascii c, N_of_ascii d, N_of_ascii e) in
  ((x =? 225) && (y =? 154) && (z =? 128)
   || (x =? 226) && (y =? 128)
      && ((128 <=? z) && (z <=? 138) || (z =? 168) || (z =? 169) || (z =? 175))
   || (x =? 226) && (y =? 129) && (z =? 159)
   || (x =? 227) && (y =? 128) && (z =? 128))%N.

(** What the rune-wise functions of the package see of a string: each
    white-space rune with its encoding, and every other byte on its own.
    A white-space encoding starts with an ASCII byte or a UTF-8 lead byte,
    never with a continuation byte, so it is always met at a rune boundary
    of Go's decoder and bytes of other runes can be kept one by one. *)
Inductive rune : Type :=
| Space (enc : string)
| Other (b : ascii).

Fixpoint runes (s : string) : list rune :=
  match s with
  | "" => []
  | String c r =>
      if asciiSpace c then Space (String c "") :: runes r
      else match r with
           | String d r1 =>
               if space2 c d then Space (String c (String d "")) :: runes r1
               else match r1 with
                    | String e r2 =>
                        if space3 c d e
                        then Space (String c (String d (String e ""))) :: runes r2
                        else Other c :: runes r
                    | "" => Other c :: runes r
                    end
           | "" => Other c :: runes r
           end
  end.

Definition rune_bytes (r : rune) : string :=
  match r with Space enc => enc | Other b => String b "" end.

Fixpoint bytes (rs : list rune) : string :=
  match rs with
  | [] => ""
  | r :: rs' => rune_bytes r +:+ bytes rs'
  end.

Definition isSpace (r : rune) : bool :=
  match r with Space _ => true | Other _ => false end.

Fixpoint dropWhile {A} (f : A → bool) (l : list A) : list A :=
  match l with
  | [] => []
  | x :: l' => if f x then dropWhile f l' else l
  end.

(** [strings.TrimSpace]: [TrimRightFunc(TrimLeftFunc(s, IsSpace), IsSpace)]. *)
Definition TrimSpace (s : string) : string :=
  bytes (rev (dropWhile isSpace (rev (dropWhile isSpace (runes s))))).

(** [strings.Fields]: the maximal runs of non-space runes, in order.
    [cur] is the field being read, empty between fields. *)
Fixpoint fields_go (cur : string) (rs : list rune) : list string :=
  match rs with
  | [] => if decide (cur = "") then [] else [cur]
  | Space _ :: rs' =>
      if decide (cur = "") then fields_go "" rs' else cur :: fields_go "" rs'
  | Other b :: rs' => fields_go (cur +:+ String b "") rs'
  end.

Definition Fields (s : string) : list string := fields_go "" (runes s).

(** [strings.Join(elems, sep)] *)
Definition Join (elems : list string) (sep : string) : string :=
  String.concat sep elems.

(** [strings.HasPrefix(s, prefix)] *)
Definition HasPrefix (s prefix : string) : bool := String.prefix prefix s.

(** [strings.Contains(s, substr)] *)
Fixpoint Contains (s substr : string) : bool :=
  String.prefix substr s
  || match s with
     | "" => false
     | String _ r => Contains r substr
     end.

(** [strings.Split(s, sep)] for a separator of one byte: never empty. *)
Fixpoint Split1 (s : string) (sep : ascii) : list string :=
  match s with
  | "" => [""]
  | String c r =>
      if decide (c = sep) then "" :: Split1 r sep
      else match Split1 r sep with
           | x :: xs => String c x :: xs
           | [] => [String c ""]
           end
  end.

(** [strings.ToLower] on a string of ASCII bytes. *)
Definition lower (c : ascii) : ascii :=
  let n := N_of_ascii c in
  if ((65 <=? n) && (n <=? 90))%N then ascii_of_N (n + 32) else c.

Fixpoint ToLower (s : string) : string :=
  match s with
  | "" => ""
  | String c r => String (lower c) (ToLower r)
  end.

End Strings.

(* ===================================================================== *)
(** ** Package [path/filepath] (Unix) *)
(* ===================================================================== *)

Module Filepath.

Definition rooted (path : string) : bool :=
  match path with
  | String "/" _ => true
  | _ => false
  end.

(** One path element met by [Clean], against the elements kept so far
    (innermost first): empty and [.] elements are dropped, [..] removes the
    element before it, or stays when there is nothing to remove and the
    path is not rooted. *)
Definition clean_step (rt : bool) (kept : list string) (elem : string)
  : list string :=
  if decide (elem = "") then kept
  else if decide (elem = ".") then kept
  else if decide (elem = "..") then
    match kept with
    | top :: below =>
        if decide (top = "..") then (if rt then kept else ".." :: kept)
        else below
    | [] => if rt then [] else [".."]
    end
  else elem :: kept.

Definition clean_elems (rt : bool) (elems : list string) : list string :=
  rev (fold_left (clean_step rt) elems []).

(** [filepath.Clean] *)
Definition Clean (path : string) : string :=
  if decide (path = "") then "."
  else
    let rt := rooted path in
    let body := Strings.Join (clean_elems rt (Strings.Split1 path "/")) "/" in
    if rt then "/" +:+ body
    else if decide (body = "") then "." else body.

(** [filepath.Join(a, b)]: the non-empty elements joined by [/], cleaned. *)
Definition Join (a b : string) : string :=
  if decide (a = "") then
    if decide (b = "") then "" else Clean b
  else Clean (a +:+ "/" +:+ b).

End Filepath.

(* ===================================================================== *)
(** ** Package [os]: the file system the service writes to *)
(* ===================================================================== *)

Module Os.

(** Reasons a system call fails, other than the absence of the file. *)
Inductive Fault : Type :=
| EACCES | EIO | ENOTDIR | EISDIR | ENOSPC | EROFS | ENAMETOOLONG | ELOOP.

Inductive Errno : Type :=
| ENOENT
| Failed (f : Fault).

Definition strerror (e : Errno) : string :=
  match e with
  | ENOENT => "no such file or directory"
  | Failed EACCES => "permission denied"
  | Failed EIO => "input/output error"
  | Failed ENOTDIR => "not a directory"
  | Failed EISDIR => "is a directory"
  | Failed ENOSPC => "no space left on device"
  | Failed EROFS => "read-only file system"
  | Failed ENAMETOOLONG => "file name too long"
  | Failed ELOOP => "too many levels of symbolic links"
  end.

(** [*fs.PathError] *)
Record PathError : Type := {
  Op : string;
  Path : string;
  Err : Errno;
}.

Definition Error (e : PathError) : error :=
  Op e +:+ " " +:+ Path e +:+ ": " +:+ strerror (Err e).

(** [os.IsNotExist(err)]; false on a nil error. *)
Definition IsNotExist (err : option PathError) : bool :=
  match err with
  | Some e => match Err e with ENOENT => true | Failed _ => false end
  | None => false
  end.

(** How a call of [os.WriteFile] fails: before the file is created, or
    after [written] bytes of the data. *)
Inductive WriteFault : Type :=
| OpenFails (f : Fault)
| WriteFails (written : nat) (f : Fault).

(** The state of the file system: the entries that exist, with their
    contents, and the faults that calls on a path run into. *)
Record State : Type := {
  files : gmap string string;
  stat_fault : string → option Fault;
  mkdir_fault : string → option Fault;
  write_fault : string → option WriteFault;
}.

Definition with_files (w : State) (fs : gmap string string) : State :=
  {| files := fs;
     stat_fault := stat_fault w;
     mkdir_fault := mkdir_fault w;
     write_fault := write_fault w |}.

(** [os.Stat(name)], of which the callers use the error only. *)
Definition Stat (w : State) (name : string) : option PathError :=
  match stat_fault w name with
  | Some f => Some {| Op := "stat"; Path := name; Err := Failed f |}
  | None =>
      match files w !! name with
      | Some _ => None
      | None => Some {| Op := "stat"; Path := name; Err := ENOENT |}
      end
  end.

(** [os.MkdirAll(path, perm)]; directories are not entries of [files]. *)
Definition MkdirAll (w : State) (path : string) : State * option PathError :=
  match mkdir_fault w path with
  | Some f => (w, Some {| Op := "mkdir"; Path := path; Err := Failed f |})
  | None => (w, None)
  end.

Fixpoint take_bytes (n : nat) (s : string) : string :=
  match n, s with
  | S n', String c r => String c (take_bytes n' r)
  | _, _ => ""
  end.

(** [os.WriteFile(name, data, perm)]: create or truncate, then write. *)
Definition WriteFile (w : State) (name data : string)
  : State * option PathError :=
  match write_fault w name with
  | Some (OpenFails f) =>
      (w, Some {| Op := "open"; Path := name; Err := Failed f |})
  | Some (WriteFails written f) =>
      (with_files w (<[name := take_bytes written data]> (files w)),
       Some {| Op := "write"; Path := name; Err := Failed f |})
  | None => (with_files w (<[name := data]> (files w)), None)
  end.

End Os.

(* ===================================================================== *)
(** ** Package [utils]: the terraform validator *)
(* ===================================================================== *)

Module Utils.

(** [TerraformValidationResult] *)
Record TerraformValidationResult : Type := {
  IsValid : bool;
  Errors : list string;
  Warnings : list string;
  Output : string;
  ExecTime : Z;
}.

(** [TerraformDiagnostic]; [Line] and [Column] are [Range.Start]. *)
Record TerraformDiagnostic : Type := {
  Severity : string;
  Summary : string;
  Detail : string;
  Filename : string;
  Line : Z;
  Column : Z;
}.

(** [TerraformValidateOutput] *)
Record TerraformValidateOutput : Type := {
  Valid : bool;
  ErrorCount : Z;
  Diagnostics : list TerraformDiagnostic;
}.

(** The two generator back ends, [GenerateTerraformCode] (OpenAI) and
    [GenerateTerraformCodeWithCopilot] (GitHub Models): remote calls, kept
    as the functions from resource and specs to text or error they are for
    their callers. *)
Record Generators : Type := {
  GenerateTerraformCode : string → string → string * option error;
  GenerateTerraformCodeWithCopilot : string → string → string * option error;
}.

(** What a validation call finds outside the program: the terraform binary
    and the temporary workspace. *)
Record Env : Type := {
  (** [exec.LookPath(file)], the error only *)
  LookPath : string → option error;
  (** [ioutil.TempDir("", "terraform_validate_*")] *)
  TempDir : string * option error;
  (** [ioutil.WriteFile(path, data, 0644)] in the workspace *)
  WriteTemp : string → string → option error;
  (** [cmd.CombinedOutput()] of [terraform <args>] run in a workspace whose
      [main.tf] holds the given code *)
  CombinedOutput : list string → string → string * option error;
  (** the reading [time.Since(startTime).Milliseconds()] of the call *)
  Milliseconds : Z;
}.

(** The marker [parseTerraformErrors] looks for: ["valid": false] with its
    double quotes. *)
Definition valid_false_marker : string :=
  String "034" ("valid" +:+ String "034" ": false").

Section Validator.

(** [json.Unmarshal] into a [TerraformValidateOutput]; [None] is an error. *)
Variable Unmarshal : string → option TerraformValidateOutput.
Variable env : Env.

Definition isTerraformInstalled : bool :=
  match LookPath env "terraform" with
  | None => true
  | Some _ => false
  end.

Definition createTempTerraformDir (terraformCode : string)
  : string * option error :=
  match TempDir env with
  | (_, Some err) => ("", Some ("failed to create temp dir: " +:+ err))
  | (tempDir, None) =>
      let mainTfPath := Filepath.Join tempDir "main.tf" in
      match WriteTemp env mainTfPath terraformCode with
      | Some err => ("", Some ("failed to write terraform file: " +:+ err))
      | None => (tempDir, None)
      end
  end.

Definition runTerraformInit (code : string) : string * option error :=
  match CombinedOutput env ["init"; "-no-color"] code with
  | (outputStr, Some err) =>
      (outputStr, Some ("terraform init failed: " +:+ err))
  | (outputStr, None) => (outputStr, None)
  end.

Definition runTerraformValidate (code : string) : string * option error :=
  match CombinedOutput env ["validate"; "-no-color"; "-json"] code with
  | (outputStr, Some err) =>
      (outputStr, Some ("terraform validate failed: " +:+ err))
  | (outputStr, None) => (outputStr, None)
  end.

(** The loop of [parseJSONErrors] over the diagnostics. *)
Fixpoint diagnostics_loop (errors : list string)
  (diagnostics : list TerraformDiagnostic) : list string :=
  match diagnostics with
  | [] => errors
  | diagnostic :: rest =>
      if decide (Severity diagnostic = "error") then
        let errorMsg :=
          "Line " +:+ itoa (Line diagnostic) +:+ ": "
          +:+ Summary diagnostic +:+ " - " +:+ Detail diagnostic in
        diagnostics_loop (errors ++ [errorMsg]) rest
      else diagnostics_loop errors rest
  end.

Definition parseJSONErrors (jsonOutput : string) : list string :=
  match Unmarshal jsonOutput with
  | None => ["Failed to parse validation output: " +:+ jsonOutput]
  | Some validateOutput =>
      let errors := diagnostics_loop [] (Diagnostics validateOutput) in
      if bool_decide (length errors = 0%nat) && negb (Valid validateOutput) then
        ["Validation failed with "
         +:+ itoa (ErrorCount validateOutput) +:+ " errors"]
      else errors
  end.

(** The loop of [parseTerraformErrors] over the lines. *)
Fixpoint lines_loop (errors : list string) (lines : list string)
  : list string :=
  match lines with
  | [] => errors
  | line :: rest =>
      let line := Strings.TrimSpace line in
      if negb (bool_decide (line = ""))
         && negb (Strings.HasPrefix line "terraform validate failed:")
      then lines_loop (errors ++ [line]) rest
      else lines_loop errors rest
  end.

Definition fallback_lines (errors : list string) (output : string)
  : list string :=
  let lines := Strings.Split1 output "010" in
  let errors := lines_loop errors lines in
  if decide (length errors = 0%nat) then [output] else errors.

Definition parseTerraformErrors (output : string) : list string :=
  if Strings.Contains output valid_false_marker then
    let errors := parseJSONErrors output in
    if decide (0 < length errors)%nat then errors
    else fallback_lines errors output
  else fallback_lines [] output.

(** [ValidateTerraformCode]; the result is a pointer, nil next to an
    error.  The workspace is known to the commands by the code it holds;
    its removal, deferred in the source, leaves no trace in the result. *)
Definition ValidateTerraformCode (terraformCode : string)
  : option TerraformValidationResult * option error :=
  if negb isTerraformInstalled then
    (Some {| IsValid := false;
             Errors := ["Terraform CLI is not installed or not available in PATH"];
             Warnings := [];
             Output := "";
             ExecTime := Milliseconds env |}, None)
  else
    match createTempTerraformDir terraformCode with
    | (_, Some err) =>
        (None, Some ("failed to create temporary directory: " +:+ err))
    | (_, None) =>
        match runTerraformInit terraformCode with
        | (initResult, Some err) =>
            (Some {| IsValid := false;
                     Errors := ["Terraform init failed: " +:+ err];
                     Warnings := [];
                     Output := initResult;
                     ExecTime := Milliseconds env |}, None)
        | (_, None) =>
            match runTerraformValidate terraformCode with
            | (validateResult, Some _) =>
                let errors := parseTerraformErrors validateResult in
                (Some {| IsValid := false;
                         Errors := errors;
                         Warnings := [];
                         Output := validateResult;
                         ExecTime := Milliseconds env |}, None)
            | (validateResult, None) =>
                (Some {| IsValid := true;
                         Errors := [];
                         Warnings := [];
                         Output := validateResult;
                         ExecTime := Milliseconds env |}, None)
            end
        end
    end.

End Validator.

End Utils.

(* ===================================================================== *)
(** ** Package [services]: [TerraformService] *)
(* ===================================================================== *)

Module Services.

(** [re1 = ^```(?:terraform|hcl)\n?], the text after a match at the start
    of [code]; the pattern is anchored, so there is no other match. *)
Fixpoint after_prefix (p s : string) : option string :=
  match p, s with
  | "", _ => Some s
  | String a p', String b s' =>
      if decide (a = b) then after_prefix p' s' else None
  | String _ _, "" => None
  end.

Definition after_newline (s : string) : string :=
  match s with
  | String "010" r => r
  | _ => s
  end.

Definition re1_match (code : string) : option string :=
  match after_prefix "```terraform" code with
  | Some rest => Some (after_newline rest)
  | None =>
      match after_prefix "```hcl" code with
      | Some rest => Some (after_newline rest)
      | None => None
      end
  end.

(** [re1.ReplaceAllString(code, "")] *)
Definition re1_ReplaceAllString (code : string) : string :=
  match re1_match code with
  | Some rest => rest
  | None => code
  end.

(** [re2.ReplaceAllString(s, "")] for [re2 = ```$]: the leftmost position
    whose remaining text is the three back quotes is the only match. *)
Fixpoint re2_ReplaceAllString (s : string) : string :=
  match s with
  | "" => ""
  | String c r =>
      if decide (s = "```") then "" else String c (re2_ReplaceAllString r)
  end.

(** [CleanTerraformCode]; both patterns are constants that compile. *)
Definition CleanTerraformCode (code : string) : string * option error :=
  if decide (code = "") then ("", Some "input code cannot be empty")
  else
    let cleaned := re1_ReplaceAllString code in
    let cleaned := re2_ReplaceAllString cleaned in
    let result := Strings.TrimSpace cleaned in
    if decide (result = "") then
      ("", Some "cleaned code is empty after processing")
    else (result, None).

(** [re.ReplaceAllString(s, "")] for [re = [^a-zA-Z0-9_]]: every rune
    outside the class goes, and with it every byte that is not ASCII. *)
Definition word_byte (c : ascii) : bool :=
  let n := N_of_ascii c in
  ((97 <=? n) && (n <=? 122) || (65 <=? n) && (n <=? 90)
   || (48 <=? n) && (n <=? 57) || (n =? 95))%N.

Fixpoint re_ReplaceAllString (s : string) : string :=
  match s with
  | "" => ""
  | String c r =>
      if word_byte c then String c (re_ReplaceAllString r)
      else re_ReplaceAllString r
  end.

(** The base name [GetNextAvailableFilename] derives from the resource. *)
Definition baseName (resourceText : string) : string :=
  let words := Strings.Fields resourceText in
  let words := if decide (5 < length words)%nat then take 5 words else words in
  let baseName := Strings.Join words "_" in
  let baseName := re_ReplaceAllString baseName in
  let baseName := Strings.ToLower baseName in
  if decide (baseName = "") then "generated" else baseName.

Definition maxAttempts : Z := 10000.

Definition fileName (baseNameWithProvider : string) (index : Z) (ext : string)
  : string :=
  baseNameWithProvider +:+ "_" +:+ itoa index +:+ ext.

(** The loop [for index := ...; index <= maxAttempts; index++] with
    [attempts] iterations left. *)
Fixpoint probe (w : Os.State) (dir baseNameWithProvider ext : string)
  (attempts : nat) (index : Z) : option string :=
  match attempts with
  | O => None
  | S attempts' =>
      let filePath :=
        Filepath.Join dir (fileName baseNameWithProvider index ext) in
      if Os.IsNotExist (Os.Stat w filePath) then Some filePath
      else probe w dir baseNameWithProvider ext attempts' (index + 1)
  end.

Definition GetNextAvailableFilename (w : Os.State)
  (dir resourceText provider ext : string) : string * option error :=
  if decide (dir = "") then ("", Some "directory cannot be empty")
  else if decide (ext = "") then ("", Some "extension cannot be empty")
  else if decide (provider = "") then ("", Some "provider cannot be empty")
  else
    let baseNameWithProvider := provider +:+ "_" +:+ baseName resourceText in
    match probe w dir baseNameWithProvider ext (Z.to_nat maxAttempts) 1 with
    | Some filePath => (filePath, None)
    | None =>
        ("", Some ("failed to find available filename after "
                   +:+ itoa maxAttempts +:+ " attempts"))
    end.

Definition SaveTerraformFile (w : Os.State) (code resource provider : string)
  : Os.State * (string * option error) :=
  let terraformDir := "tf-generated-files" in
  match Os.MkdirAll w terraformDir with
  | (w, Some err) =>
      (w, ("", Some ("failed to create tf-generated-files directory: "
                     +:+ Os.Error err)))
  | (w, None) =>
      match GetNextAvailableFilename w terraformDir resource provider ".tf" with
      | (_, Some err) =>
          (w, ("", Some ("failed to generate unique filename: " +:+ err)))
      | (filePath, None) =>
          match Os.WriteFile w filePath code with
          | (w, Some err) =>
              (w, ("", Some ("failed to write terraform file: "
                             +:+ Os.Error err)))
          | (w, None) => (w, (filePath, None))
          end
      end
  end.

Section Generate.

Variable Unmarshal : string → option Utils.TerraformValidateOutput.
Variable env : Utils.Env.

(** The body [GenerateAndValidate] and [GenerateAndValidateWithCopilot]
    share, for the generator call and its error prefix. *)
Definition generateAndValidate
  (generate : string → string → string * option error) (failed : string)
  (resource specs : string)
  : string * option Utils.TerraformValidationResult * option error :=
  match generate resource specs with
  | (_, Some err) => ("", None, Some (failed +:+ err))
  | (tfCode, None) =>
      if decide (Strings.TrimSpace tfCode = "") then
        ("", None, Some "generated terraform code is empty")
      else
        match CleanTerraformCode tfCode with
        | (_, Some err) =>
            ("", None, Some ("failed to clean terraform code: " +:+ err))
        | (cleanedCode, None) =>
            match Utils.ValidateTerraformCode Unmarshal env cleanedCode with
            | (_, Some err) =>
                (cleanedCode, None,
                 Some ("failed to validate terraform code: " +:+ err))
            | (validation, None) => (cleanedCode, validation, None)
            end
        end
  end.

Variable gen : Utils.Generators.

Definition GenerateAndValidate :=
  generateAndValidate (Utils.GenerateTerraformCode gen)
    "failed to generate terraform code: ".

Definition GenerateAndValidateWithCopilot :=
  generateAndValidate (Utils.GenerateTerraformCodeWithCopilot gen)
    "failed to generate terraform code with GitHub Copilot: ".

End Generate.

End Services.

(* ===================================================================== *)
(** ** Packages [models] and [handlers] *)
(* ===================================================================== *)

Module Http.
Definition StatusOK : Z := 200.
Definition StatusCreated : Z := 201.
Definition StatusBadRequest : Z := 400.
Definition StatusUnprocessableEntity : Z := 422.
Definition StatusInternalServerError : Z := 500.
End Http.

Module Models.

Record TerraformRequest : Type := {
  Resource : string;
  Specs : string;
}.

Record ValidationRequest : Type := {
  TerraformCode : string;
}.

(** The bodies a handler passes to [c.JSON]: a [gin.H] map, written as its
    key-value pairs, or one of the response structs. *)
Inductive Body : Type :=
| H (fields : list (string * string))
| HealthResponse (Status : string)
| TerraformResponse (Message TerraformCode : string)
    (Validation : option Utils.TerraformValidationResult)
| ValidationResponse (Message : string)
    (Validation : option Utils.TerraformValidationResult).

(** What [c.JSON(code, obj)] sends. *)
Record Response : Type := {
  Code : Z;
  JSON : Body;
}.

End Models.

Module Handlers.
Import Models.

(** [HealthCheck] *)
Definition HealthCheck : Response :=
  {| Code := Http.StatusOK;
     JSON := HealthResponse "Service is healthy test" |}.

Section Handlers.

Variable Unmarshal : string → option Utils.TerraformValidateOutput.
Variable env : Utils.Env.
Variable gen : Utils.Generators.

(** [ValidateTerraform]; [bound] is the outcome of [c.ShouldBindJSON]. *)
Definition ValidateTerraform (bound : ValidationRequest * option error)
  : Response :=
  match bound with
  | (_, Some err) =>
      {| Code := Http.StatusBadRequest;
         JSON := H [("error", "Invalid request format"); ("details", err)] |}
  | (req, None) =>
      if decide (Strings.TrimSpace (TerraformCode req) = "") then
        {| Code := Http.StatusBadRequest;
           JSON := H [("error", "terraformCode field cannot be empty")] |}
      else
        match Utils.ValidateTerraformCode Unmarshal env (TerraformCode req) with
        | (_, Some err) =>
            {| Code := Http.StatusInternalServerError;
               JSON := H [("error", "Failed to validate terraform code");
                          ("details", err)] |}
        | (None, None) =>
            (* not reached: the validator returns a result or an error *)
            {| Code := Http.StatusInternalServerError; JSON := H [] |}
        | (Some validation, None) =>
            let statusCode :=
              if negb (Utils.IsValid validation)
              then Http.StatusUnprocessableEntity else Http.StatusOK in
            {| Code := statusCode;
               JSON := ValidationResponse "Terraform validation completed"
                         (Some validation) |}
        end
  end.

(** The body [GenerateTerraform] and [GenerateTerraformWithCopilot] share,
    for the service call, the provider tag and the two messages. *)
Definition generateTerraform
  (generateAndValidate :
     string → string →
     string * option Utils.TerraformValidationResult * option error)
  (provider success invalid : string)
  (w : Os.State) (bound : TerraformRequest * option error)
  : Os.State * Response :=
  match bound with
  | (_, Some err) =>
      (w, {| Code := Http.StatusBadRequest;
             JSON := H [("error", "Invalid request format");
                        ("details", err)] |})
  | (req, None) =>
      if bool_decide (Strings.TrimSpace (Resource req) = "")
         || bool_decide (Strings.TrimSpace (Specs req) = "")
      then
        (w, {| Code := Http.StatusBadRequest;
               JSON := H [("error",
                           "Resource and specs fields cannot be empty")] |})
      else
        match generateAndValidate (Resource req) (Specs req) with
        | (_, _, Some err) =>
            (w, {| Code := Http.StatusInternalServerError;
                   JSON := H [("error", err)] |})
        | (_, None, None) =>
            (* not reached: the service returns a result or an error *)
            (w, {| Code := Http.StatusInternalServerError; JSON := H [] |})
        | (cleanedCode, Some validation, None) =>
            let respond w :=
              if negb (Utils.IsValid validation) then
                (w, {| Code := Http.StatusCreated;
                       JSON := TerraformResponse invalid cleanedCode
                                 (Some validation) |})
              else
                (w, {| Code := Http.StatusOK;
                       JSON := TerraformResponse success cleanedCode
                                 (Some validation) |}) in
            if Utils.IsValid validation then
              match Services.SaveTerraformFile w cleanedCode (Resource req)
                      provider with
              | (w, (_, Some err)) =>
                  (w, {| Code := Http.StatusInternalServerError;
                         JSON := H [("error", "Failed to save terraform file");
                                    ("details", err)] |})
              | (w, (_, None)) => respond w
              end
            else respond w
        end
  end.

Definition GenerateTerraform :=
  generateTerraform (Services.GenerateAndValidate Unmarshal env gen)
    "openai"
    "Terraform code generated successfully"
    "Terraform code generated with validation errors".

Definition GenerateTerraformWithCopilot :=
  generateTerraform (Services.GenerateAndValidateWithCopilot Unmarshal env gen)
    "copilot"
    "Terraform code generated successfully using GitHub Copilot"
    "Terraform code generated using GitHub Copilot with validation errors".

End Handlers.

End Handlers.

(* ===================================================================== *)
(** ** Package [handlers] before the service layer

    The other source file of package [handlers] holds the handler that
    saves without validating, with its own copies of the health check, the
    sanitizer and the allocator (there without a provider tag).  Its
    response struct has no validation field, which is the response of
    [models] with that field nil. *)
(* ===================================================================== *)

Module HandlersV1.
Import Models.

(** [HealthCheck] *)
Definition HealthCheck : Response :=
  {| Code := Http.StatusOK;
     JSON := HealthResponse "Service is healthy test" |}.

(** [cleanTerraformCode], with the two patterns of the service. *)
Definition cleanTerraformCode (code : string) : string * option error :=
  if decide (code = "") then ("", Some "input code cannot be empty")
  else
    let cleaned := Services.re1_ReplaceAllString code in
    let cleaned := Services.re2_ReplaceAllString cleaned in
    let result := Strings.TrimSpace cleaned in
    if decide (result = "") then
      ("", Some "cleaned code is empty after processing")
    else (result, None).

(** [getNextAvailableFilename]; the base name is derived as in the
    service and used without a prefix. *)
Definition getNextAvailableFilename (w : Os.State)
  (dir resourceText ext : string) : string * option error :=
  if decide (dir = "") then ("", Some "directory cannot be empty")
  else if decide (ext = "") then ("", Some "extension cannot be empty")
  else
    let baseName := Services.baseName resourceText in
    match Services.probe w dir baseName ext
            (Z.to_nat Services.maxAttempts) 1 with
    | Some filePath => (filePath, None)
    | None =>
        ("", Some ("failed to find available filename after "
                   +:+ itoa Services.maxAttempts +:+ " attempts"))
    end.

(** [GenerateTerraform]: generate, clean and save, without validation. *)
Definition GenerateTerraform (gen : Utils.Generators) (w : Os.State)
  (bound : TerraformRequest * option error) : Os.State * Response :=
  let failed w (body : list (string * string)) :=
    (w, {| Code := Http.StatusInternalServerError; JSON := H body |}) in
  match bound with
  | (_, Some err) =>
      (w, {| Code := Http.StatusBadRequest;
             JSON := H [("error", "Invalid request format");
                        ("details", err)] |})
  | (req, None) =>
      if bool_decide (Strings.TrimSpace (Resource req) = "")
         || bool_decide (Strings.TrimSpace (Specs req) = "")
      then
        (w, {| Code := Http.StatusBadRequest;
               JSON := H [("error",
                           "Resource and specs fields cannot be empty")] |})
      else
        match Utils.GenerateTerraformCode gen (Resource req) (Specs req) with
        | (_, Some err) =>
            failed w [("error", "Failed to generate Terraform code");
                      ("details", err)]
        | (tfCode, None) =>
            if decide (Strings.TrimSpace tfCode = "") then
              failed w [("error", "Generated Terraform code is empty")]
            else
              match cleanTerraformCode tfCode with
              | (_, Some err) =>
                  failed w [("error", "Failed to clean Terraform code");
                            ("details", err)]
              | (cleanedCode, None) =>
                  let terraformDir := "terraform" in
                  match Os.MkdirAll w terraformDir with
                  | (w, Some err) =>
                      failed w [("error", "Failed to create terraform directory");
                                ("details", Os.Error err)]
                  | (w, None) =>
                      match getNextAvailableFilename w terraformDir
                              (Resource req) ".tf" with
                      | (_, Some err) =>
                          failed w [("error", "Failed to generate unique filename");
                                    ("details", err)]
                      | (filePath, None) =>
                          match Os.WriteFile w filePath cleanedCode with
                          | (w, Some err) =>
                              failed w [("error", "Failed to write terraform file");
                                        ("details", Os.Error err);
                                        ("path", filePath)]
                          | (w, None) =>
                              (w, {| Code := Http.StatusOK;
                                     JSON :=
                                       TerraformResponse
                                         "Terraform code generated successfully"
                                         cleanedCode None |})
                          end
                      end
                  end
              end
        end
  end.

End HandlersV1.

(* ===================================================================== *)
(** ** The specification's wording, and scenarios to run the code on *)
(* ===================================================================== *)

Module Spec.
Import Services.

(** The sanitizer as the specification words it: the opener is the three
    back quotes, optionally followed by one of the two language tags. *)
Definition opener_as_specified (code : string) : option string :=
  match after_prefix "```" code with
  | Some rest =>
      match after_prefix "terraform" rest with
      | Some r => Some (after_newline r)
      | None =>
          match after_prefix "hcl" rest with
          | Some r => Some (after_newline r)
          | None => Some (after_newline rest)
          end
      end
  | None => None
  end.

Definition sanitize_as_specified (code : string) : string * option error :=
  if decide (code = "") then ("", Some "input code cannot be empty")
  else
    let cleaned := default code (opener_as_specified code) in
    let result := Strings.TrimSpace (re2_ReplaceAllString cleaned) in
    if decide (result = "") then
      ("", Some "cleaned code is empty after processing")
    else (result, None).

(** The two steps of the sanitizer as relations between texts: [opened] is
    [code] without an opener that names one of the two languages and
    without one newline after it; [closed] is [opened] without the closer
    it ends with. *)
Definition opener_stripped (code opened : string) : Prop :=
  (∃ tag rest,
      (tag = "terraform" ∨ tag = "hcl")
      ∧ code = "```" +:+ tag +:+ rest
      ∧ (rest = String "010" opened
         ∨ (opened = rest ∧ ∀ r, rest ≠ String "010" r)))
  ∨ (opened = code
     ∧ ∀ tag rest, tag = "terraform" ∨ tag = "hcl" →
                   code ≠ "```" +:+ tag +:+ rest).

Definition closer_stripped (opened closed : string) : Prop :=
  opened = closed +:+ "```"
  ∨ (closed = opened ∧ ∀ body, opened ≠ body +:+ "```").

(** The line-wise fallback of diagnostic extraction as the specification
    words it: the non-blank lines, trimmed, without those the wrapper's
    prefix starts; the raw output when none is left. *)
Definition fallback_as_specified (output : string) : list string :=
  let messages :=
    filter (λ line, line ≠ ""
                    ∧ Strings.HasPrefix line "terraform validate failed:" = false)
      (Strings.TrimSpace <$> Strings.Split1 output "010") in
  match messages with
  | [] => [output]
  | _ => messages
  end.

(** One message per diagnostic of severity error, warnings left out. *)
Definition format_diagnostic (d : Utils.TerraformDiagnostic) : string :=
  "Line " +:+ itoa (Utils.Line d) +:+ ": "
  +:+ Utils.Summary d +:+ " - " +:+ Utils.Detail d.

Definition error_messages (doc : Utils.TerraformValidateOutput) : list string :=
  format_diagnostic
    <$> filter (λ d, Utils.Severity d = "error") (Utils.Diagnostics doc).

(** A file has been written between two states of the file system. *)
Definition file_written (w w' : Os.State) : Prop :=
  Os.files w' ≠ Os.files w.

(** What a generating handler does with the outcome of validation: with an
    invalid result nothing is written and the code comes back with the
    diagnostics; with a valid one the file is saved, and the answer tells
    whether that worked. *)
Definition persisted (provider success invalid : string) (w : Os.State)
  (resource cleanedCode : string) (validation : Utils.TerraformValidationResult)
  (out : Os.State * Models.Response) : Prop :=
  if Utils.IsValid validation then
    (∃ filePath,
        SaveTerraformFile w cleanedCode resource provider
        = (out.1, (filePath, None))
        ∧ Os.files w !! filePath = None
        ∧ Os.files out.1 = <[filePath := cleanedCode]> (Os.files w)
        ∧ out.2 = {| Models.Code := 200;
                     Models.JSON :=
                       Models.TerraformResponse success cleanedCode
                         (Some validation) |})
    ∨ (∃ err,
          SaveTerraformFile w cleanedCode resource provider
          = (out.1, ("", Some err))
          ∧ out.2 = {| Models.Code := 500;
                       Models.JSON :=
                         Models.H [("error", "Failed to save terraform file");
                                   ("details", err)] |})
  else
    out.1 = w
    ∧ out.2 = {| Models.Code := 201;
                 Models.JSON :=
                   Models.TerraformResponse invalid cleanedCode
                     (Some validation) |}.

(** [SaveTerraformFile] called once per pair of code and resource text, one
    call after the other, for one provider. *)
Fixpoint sequential_saves (w : Os.State) (provider : string)
  (calls : list (string * string)) : Os.State * list (string * option error) :=
  match calls with
  | [] => (w, [])
  | (code, resource) :: calls' =>
      let '(w1, r) := SaveTerraformFile w code resource provider in
      let '(w2, rs) := sequential_saves w1 provider calls' in
      (w2, r :: rs)
  end.

(** The path probed at [index] for the name [stem]: the directory joined
    with [<stem>_<index><ext>]. *)
Definition candidate_at (dir stem ext : string) (index : Z) : string :=
  Filepath.Join dir (stem +:+ "_" +:+ itoa index +:+ ext).

(** The path the service probes at [index]:
    [<provider>_<base>_<index><ext>] in the directory. *)
Definition candidate (dir resourceText provider ext : string) : Z → string :=
  candidate_at dir (provider +:+ "_" +:+ baseName resourceText) ext.

(** What the allocator returns when every attempt finds its path taken. *)
Definition exhausted : string * option error :=
  ("", Some "failed to find available filename after 10000 attempts").

(** The probe of a path reports that nothing is there. *)
Definition free (w : Os.State) (path : string) : bool :=
  Os.IsNotExist (Os.Stat w path).

(** An allocation over the paths [path 1], ..., [path 10000] that goes by
    what the probe reports.  A path is returned only as the first one the
    probe reports absent; a path whose probe fails otherwise is not
    returned.  An index whose probe reports anything else, a file that is
    there or an error that is not the absence, is skipped and the search
    goes on: the first path reported absent is returned whatever the
    probes before it ran into.  The outcome is a path or the error after
    10000 attempts; it is that error when no probe reports an absent path,
    and so when the probe fails at every index. *)
Definition probe_respected (w : Os.State) (path : Z → string)
  (result : string * option error) : Prop :=
  (∀ filePath, result = (filePath, None) →
     ∃ i, 1 ≤ i ≤ 10000 ∧ filePath = path i
          ∧ Os.IsNotExist (Os.Stat w (path i)) = true
          ∧ ∀ j, 1 ≤ j < i → Os.IsNotExist (Os.Stat w (path j)) = false)
  ∧ (∀ i f, Os.Stat w (path i)
            = Some {| Os.Op := "stat"; Os.Path := path i;
                      Os.Err := Os.Failed f |} →
            result ≠ (path i, None))
  ∧ (∀ i, 1 ≤ i ≤ 10000 →
          (∀ j, 1 ≤ j < i →
                Os.Stat w (path j) = None
                ∨ ∃ f, Os.Stat w (path j)
                       = Some {| Os.Op := "stat"; Os.Path := path j;
                                 Os.Err := Os.Failed f |}) →
          Os.IsNotExist (Os.Stat w (path i)) = true →
          result = (path i, None))
  ∧ (result = exhausted ∨ ∃ i, 1 ≤ i ≤ 10000 ∧ result = (path i, None))
  ∧ ((∀ i, 1 ≤ i ≤ 10000 → Os.IsNotExist (Os.Stat w (path i)) = false) →
     result = exhausted)
  ∧ ((∀ i, 1 ≤ i ≤ 10000 → ∃ f, Os.stat_fault w (path i) = Some f) →
     result = exhausted).

(** The UTF-8 encoding of one white-space rune, as [unicode.IsSpace] has
    them. *)
Definition white_space (enc : string) : bool :=
  match enc with
  | String c "" => Strings.asciiSpace c
  | String c (String d "") => Strings.space2 c d
  | String c (String d (String e "")) => Strings.space3 c d e
  | _ => false
  end.

Fixpoint all_bytes (f : ascii → bool) (s : string) : bool :=
  match s with
  | "" => true
  | String c r => f c && all_bytes f r
  end.

Definition slash_free (s : string) : bool :=
  all_bytes (λ c, negb (bool_decide (c = "/"%char))) s.

(** A path element that [filepath.Clean] keeps as it is. *)
Definition proper (elem : string) : Prop :=
  elem ≠ "" ∧ elem ≠ "." ∧ elem ≠ "..".

End Spec.

Module Scenario.

Definition nl : string := String "010" "".
Definition q : string := String "034" "".

(** An empty output directory on a file system without faults. *)
Definition fresh : Os.State :=
  {| Os.files := ∅;
     Os.stat_fault := λ _, None;
     Os.mkdir_fault := λ _, None;
     Os.write_fault := λ _, None |}.

(** The same, where the output directory cannot be created. *)
Definition no_mkdir : Os.State :=
  {| Os.files := ∅;
     Os.stat_fault := λ _, None;
     Os.mkdir_fault := λ _, Some Os.EACCES;
     Os.write_fault := λ _, None |}.

(** Every probe fails with a permission error. *)
Definition no_stat : Os.State :=
  {| Os.files := ∅;
     Os.stat_fault := λ _, Some Os.EACCES;
     Os.mkdir_fault := λ _, None;
     Os.write_fault := λ _, None |}.

(** The probe of one path fails with a permission error; nothing else is
    wrong and no file exists. *)
Definition denied (path : string) : Os.State :=
  {| Os.files := ∅;
     Os.stat_fault := λ name,
       if decide (name = path) then Some Os.EACCES else None;
     Os.mkdir_fault := λ _, None;
     Os.write_fault := λ _, None |}.

(** A decoder standing for [json.Unmarshal] on the documents of a table;
    every other text is rejected. *)
Definition decoder (table : list (string * Utils.TerraformValidateOutput))
  (text : string) : option Utils.TerraformValidateOutput :=
  (λ found, found.2.2) <$> list_find (λ entry, entry.1 = text) table.

Definition diagnostic (severity summary detail : string) (line : Z)
  : Utils.TerraformDiagnostic :=
  {| Utils.Severity := severity; Utils.Summary := summary;
     Utils.Detail := detail; Utils.Filename := "main.tf";
     Utils.Line := line; Utils.Column := 3 |}.

(** A report of [terraform validate -json]: two errors and a warning. *)
Definition report : Utils.TerraformValidateOutput :=
  {| Utils.Valid := false;
     Utils.ErrorCount := 2;
     Utils.Diagnostics :=
       [diagnostic "error" "Unsupported argument"
          "An argument named region is not expected here." 4;
        diagnostic "warning" "Deprecated attribute"
          "The attribute acl is deprecated." 9;
        diagnostic "error" "Missing required argument"
          "The argument ami is required." 2] |}.

Definition report_text : string :=
  "{" +:+ nl +:+ "  " +:+ q +:+ "valid" +:+ q +:+ ": false," +:+ nl
  +:+ "  " +:+ q +:+ "error_count" +:+ q +:+ ": 2," +:+ nl
  +:+ "  " +:+ q +:+ "diagnostics" +:+ q +:+ ": [ ... ]" +:+ nl +:+ "}".

(** A report cut short: it holds the marker and is not JSON. *)
Definition truncated_text : string :=
  "{" +:+ nl +:+ "  " +:+ q +:+ "valid" +:+ q +:+ ": false,".

Definition Unmarshal := decoder [(report_text, report)].

(** Terraform is installed and accepts every configuration. *)
Definition accepting : Utils.Env :=
  {| Utils.LookPath := λ _, None;
     Utils.TempDir := ("/tmp/terraform_validate_1", None);
     Utils.WriteTemp := λ _ _, None;
     Utils.CombinedOutput := λ _ _, ("Success! The configuration is valid.", None);
     Utils.Milliseconds := 1200 |}.

(** Terraform is installed and [validate] rejects every configuration with
    the report above. *)
Definition rejecting : Utils.Env :=
  {| Utils.LookPath := λ _, None;
     Utils.TempDir := ("/tmp/terraform_validate_1", None);
     Utils.WriteTemp := λ _ _, None;
     Utils.CombinedOutput := λ args _,
       if decide (args = ["init"; "-no-color"]) then ("Terraform has been initialized.", None)
       else (report_text, Some "exit status 1");
     Utils.Milliseconds := 1200 |}.

(** No terraform binary on the PATH. *)
Definition not_installed : Utils.Env :=
  {| Utils.LookPath := λ _,
       Some "exec: terraform: executable file not found in $PATH";
     Utils.TempDir := ("/tmp/terraform_validate_1", None);
     Utils.WriteTemp := λ _ _, None;
     Utils.CombinedOutput := λ _ _, ("", None);
     Utils.Milliseconds := 0 |}.

(** Both back ends answer with a fenced block. *)
Definition fenced : string :=
  "```terraform" +:+ nl +:+ "resource aws_instance example {}" +:+ nl +:+ "```".

Definition generators : Utils.Generators :=
  {| Utils.GenerateTerraformCode := λ _ _, (fenced, None);
     Utils.GenerateTerraformCodeWithCopilot := λ _ _, (fenced, None) |}.

(** What the sanitizer leaves of [fenced], and what the accepting
    validator says about it. *)
Definition cleaned : string := "resource aws_instance example {}".

Definition accepted : Utils.TerraformValidationResult :=
  {| Utils.IsValid := true;
     Utils.Errors := [];
     Utils.Warnings := [];
     Utils.Output := "Success! The configuration is valid.";
     Utils.ExecTime := 1200 |}.

Definition request : Models.TerraformRequest :=
  {| Models.Resource := "EC2 instance";
     Models.Specs := "t3.micro in us-east-1" |}.

End Scenario.


(* ===================================================================== *)
(** ** Package [utils]: the two generator back ends

    The remote calls are arguments: the OpenAI client with its
    [CreateChatCompletion], and for GitHub Models the HTTP client, the
    environment and the JSON coder.  The deadline of 30 seconds set on each
    call is one of the ways the call returns an error. *)
(* ===================================================================== *)

Module UtilsOpenAI.

Record ChatCompletionMessage : Type := {
  Role : string;
  Content : string;
}.

(** [openai.ChatCompletionRequest]; the float literal of [Temperature] is
    kept as decimal mantissa and exponent. *)
Record ChatCompletionRequest : Type := {
  Model : string;
  Messages : list ChatCompletionMessage;
  Temperature : Z * Z;
  MaxTokens : Z;
}.

(** [*openai.Client], by its [CreateChatCompletion]: for a request, the
    contents of the messages of [resp.Choices], and the error. *)
Definition Client : Type := ChatCompletionRequest → list string * option error.

Definition prompt (resource specs : string) : string :=
  String "010" "You are a Terraform expert. Generate Terraform code to provision the following:"
  +:+ String "010" (String "010" "Resource: ") +:+ resource
  +:+ String "010" "Specs: " +:+ specs
  +:+ String "010" (String "010" "Only output valid Terraform code inside one block. Do not explain anything.")
  +:+ String "010" "".

(** [GenerateTerraformCode]; [openaiClient] is the package variable, nil
    until [InitOpenAI] has run. *)
Definition GenerateTerraformCode (openaiClient : option Client)
  (resource specs : string) : string * option error :=
  match openaiClient with
  | None => ("", Some "OpenAI client not initialized")
  | Some client =>
      if decide (Strings.TrimSpace resource = "") then
        ("", Some "resource cannot be empty")
      else if decide (Strings.TrimSpace specs = "") then
        ("", Some "specs cannot be empty")
      else
        let req :=
          {| Model := "gpt-3.5-turbo";
             Messages := [{| Role := "user"; Content := prompt resource specs |}];
             Temperature := (2, -1);
             MaxTokens := 2000 |} in
        match client req with
        | (_, Some err) =>
            ("", Some ("failed to generate terraform code: " +:+ err))
        | ([], None) => ("", Some "no response choices from OpenAI API")
        | (content :: _, None) =>
            if decide (Strings.TrimSpace content = "") then
              ("", Some "OpenAI returned empty content")
            else (content, None)
        end
  end.

End UtilsOpenAI.

Module UtilsGitHub.

Record GitHubMessage : Type := {
  Role : string;
  Content : string;
}.

Record GitHubChatRequest : Type := {
  Messages : list GitHubMessage;
  Model : string;
  MaxTokens : Z;
  Temperature : Z * Z;
}.

Record GitHubChoice : Type := {
  Message : GitHubMessage;
}.

Record GitHubChatResponse : Type := {
  Choices : list GitHubChoice;
}.

(** [*http.Request], as far as the function sets it. *)
Record Request : Type := {
  Method : string;
  URL : string;
  Header : list (string * string);
  Body : string;
}.

(** [*http.Response]: the status and what [io.ReadAll(resp.Body)] gives. *)
Record Response : Type := {
  StatusCode : Z;
  ReadAll : string * option error;
}.

Record Env : Type := {
  (** the package variable, nil until [InitGitHub] has run, by its [Do] *)
  githubClient : option (Request → Response * option error);
  (** [os.Getenv] *)
  Getenv : string → string;
  (** [json.Marshal] of the request *)
  Marshal : GitHubChatRequest → string * option error;
  (** [http.NewRequestWithContext(ctx, method, url, body)], the error only *)
  NewRequest : string → string → string → option error;
  (** [json.Unmarshal] into a [GitHubChatResponse] *)
  Unmarshal : string → GitHubChatResponse * option error;
}.

Definition endpoint : string :=
  "https://models.inference.ai.azure.com/chat/completions".

Definition prompt (resource specs : string) : string :=
  "You are a Terraform expert. Generate Terraform code to provision the following:"
  +:+ String "010" (String "010" "Resource: ") +:+ resource
  +:+ String "010" "Specs: " +:+ specs
  +:+ String "010" (String "010" "Only output valid Terraform code inside one block. Do not explain anything.")
  +:+ String "010" "The code should be production-ready and follow best practices.".

(** [GenerateTerraformCodeWithCopilot] *)
Definition GenerateTerraformCodeWithCopilot (env : Env)
  (resource specs : string) : string * option error :=
  match githubClient env with
  | None => ("", Some "GitHub client not initialized")
  | Some client =>
      let token := Getenv env "GITHUB_TOKEN" in
      if decide (token = "") then
        ("", Some "GITHUB_TOKEN environment variable is not set")
      else if decide (Strings.TrimSpace resource = "") then
        ("", Some "resource cannot be empty")
      else if decide (Strings.TrimSpace specs = "") then
        ("", Some "specs cannot be empty")
      else
        let request :=
          {| Messages := [{| Role := "user"; Content := prompt resource specs |}];
             Model := "gpt-4o-mini";
             MaxTokens := 2000;
             Temperature := (2, -1) |} in
        match Marshal env request with
        | (_, Some err) => ("", Some ("failed to marshal request: " +:+ err))
        | (jsonData, None) =>
            match NewRequest env "POST" endpoint jsonData with
            | Some err => ("", Some ("failed to create request: " +:+ err))
            | None =>
                let req :=
                  {| Method := "POST";
                     URL := endpoint;
                     Header := [("Content-Type", "application/json");
                                ("Authorization", "Bearer " +:+ token)];
                     Body := jsonData |} in
                match client req with
                | (_, Some err) =>
                    ("", Some ("failed to call GitHub Models API: " +:+ err))
                | (resp, None) =>
                    match ReadAll resp with
                    | (_, Some err) =>
                        ("", Some ("failed to read response body: " +:+ err))
                    | (body, None) =>
                        if decide (StatusCode resp ≠ Http.StatusOK) then
                          ("", Some ("GitHub Models API error (status "
                                     +:+ itoa (StatusCode resp) +:+ "): " +:+ body))
                        else
                          match Unmarshal env body with
                          | (_, Some err) =>
                              ("", Some ("failed to parse response: " +:+ err))
                          | (response, None) =>
                              match Choices response with
                              | [] =>
                                  ("", Some "no response choices from GitHub Models API")
                              | choice :: _ =>
                                  let content := Content (Message choice) in
                                  if decide (Strings.TrimSpace content = "") then
                                    ("", Some "GitHub Models API returned empty content")
                                  else (content, None)
                              end
                          end
                    end
                end
            end
        end
  end.

End UtilsGitHub.

(** The two back ends as the service uses them, over the package variables
    and the environment. *)
Definition backends (openaiClient : option UtilsOpenAI.Client)
  (github : UtilsGitHub.Env) : Utils.Generators :=
  {| Utils.GenerateTerraformCode :=
       UtilsOpenAI.GenerateTerraformCode openaiClient;
     Utils.GenerateTerraformCodeWithCopilot :=
       UtilsGitHub.GenerateTerraformCodeWithCopilot github |}.

Module Fixture.

(** An OpenAI client that answers every request with one fenced block. *)
Definition openai : UtilsOpenAI.Client := λ _, ([Scenario.fenced], None).

(** A GitHub Models environment: a token is set, the service answers 200
    with a body that decodes to one fenced block. *)
Definition answer : UtilsGitHub.GitHubChatResponse :=
  {| UtilsGitHub.Choices :=
       [{| UtilsGitHub.Message :=
             {| UtilsGitHub.Role := "assistant";
                UtilsGitHub.Content := Scenario.fenced |} |}] |}.

Definition github : UtilsGitHub.Env :=
  {| UtilsGitHub.githubClient :=
       Some (λ _, ({| UtilsGitHub.StatusCode := 200;
                      UtilsGitHub.ReadAll := ("{choices}", None) |}, None));
     UtilsGitHub.Getenv := λ name,
       if decide (name = "GITHUB_TOKEN") then "ghp_token" else "";
     UtilsGitHub.Marshal := λ _, ("{request}", None);
     UtilsGitHub.NewRequest := λ _ _ _, None;
     UtilsGitHub.Unmarshal := λ body,
       if decide (body = "{choices}") then (answer, None)
       else ({| UtilsGitHub.Choices := [] |}, Some "invalid character") |}.

(** A file system where one file exists and writes run out of space after
    three bytes. *)
Definition short_write : Os.State :=
  {| Os.files := {[ "tf-generated-files/openai_ec2_instance_1.tf" := "old" ]};
     Os.stat_fault := λ _, None;
     Os.mkdir_fault := λ _, None;
     Os.write_fault := λ _, Some (Os.WriteFails 3 Os.ENOSPC) |}.

(** Terraform is installed and its [init] fails. *)
Definition failing_init : Utils.Env :=
  {| Utils.LookPath := λ _, None;
     Utils.TempDir := ("/tmp/terraform_validate_1", None);
     Utils.WriteTemp := λ _ _, None;
     Utils.CombinedOutput := λ _ _,
       ("Error: Failed to query available provider packages", Some "exit status 1");
     Utils.Milliseconds := 800 |}.

(** Terraform is installed and the workspace cannot be created. *)
Definition no_workspace : Utils.Env :=
  {| Utils.LookPath := λ _, None;
     Utils.TempDir := ("", Some "mkdir /tmp/terraform_validate_1: no space left on device");
     Utils.WriteTemp := λ _ _, None;
     Utils.CombinedOutput := λ _ _, ("", None);
     Utils.Milliseconds := 1 |}.

End Fixture.


(* ===================================================================== *)
(** * Properties *)
(* ===================================================================== *)

(** ** Byte strings *)

Lemma sapp_cons c s t : String c s +:+ t = String c (s +:+ t).
Proof. reflexivity. Qed.

Lemma sapp_nil_l s : "" +:+ s = s.
Proof. reflexivity. Qed.

Lemma sapp_nil_r s : s +:+ "" = s.
Proof. induction s as [|c s IH]; [done|]. by rewrite sapp_cons, IH. Qed.

Lemma sapp_assoc a b c : (a +:+ b) +:+ c = a +:+ (b +:+ c).
Proof. induction a as [|x a IH]; [done|]. by rewrite !sapp_cons, IH. Qed.

Lemma sapp_length a b :
  String.length (a +:+ b) = (String.length a + String.length b)%nat.
Proof. induction a as [|x a IH]; [done|]. rewrite sapp_cons. simpl. by rewrite IH. Qed.

Lemma sapp_inv_tail a b t : a +:+ t = b +:+ t → a = b.
Proof.
  revert b. induction a as [|x a IH]; intros [|y b] H.
  - done.
  - apply (f_equal String.length) in H.
    rewrite sapp_nil_l, sapp_length in H. simpl in H. lia.
  - apply (f_equal String.length) in H.
    rewrite sapp_nil_l, sapp_length in H. simpl in H. lia.
  - rewrite !sapp_cons in H. injection H as -> H. f_equal. by apply IH.
Qed.

Lemma all_bytes_app f a b :
  Spec.all_bytes f (a +:+ b) = Spec.all_bytes f a && Spec.all_bytes f b.
Proof.
  induction a as [|x a IH]; [done|].
  rewrite sapp_cons. simpl. rewrite IH. by rewrite andb_assoc.
Qed.

(** ** Decimal numerals *)

Lemma to_int_proper n :
  Z.to_int n ≠ Decimal.Pos Decimal.Nil ∧ Z.to_int n ≠ Decimal.Neg Decimal.Nil.
Proof.
  destruct n as [|p|p]; simpl; split; try discriminate;
    intros [= H]; by apply DecimalPos.Unsigned.to_uint_nonnil in H.
Qed.

Lemma itoa_inj i j : itoa i = itoa j → i = j.
Proof.
  unfold itoa. intros H. apply DecimalZ.to_int_inj.
  destruct (to_int_proper i) as [Hi1 Hi2], (to_int_proper j) as [Hj1 Hj2].
  pose proof (NilZero.isi _ Hi1 Hi2) as Ei.
  pose proof (NilZero.isi _ Hj1 Hj2) as Ej.
  rewrite H in Ei. rewrite Ei in Ej. by injection Ej.
Qed.

Lemma string_of_uint_digits f d :
  (∀ c, (48 ≤ N_of_ascii c ≤ 57)%N → f c = true) →
  Spec.all_bytes f (NilEmpty.string_of_uint d) = true.
Proof.
  intros Hf. induction d; simpl; [done|..];
    (rewrite IHd, andb_true_r; apply Hf; simpl; lia).
Qed.

Lemma itoa_bytes f n :
  (∀ c, (48 ≤ N_of_ascii c ≤ 57)%N → f c = true) → f "-"%char = true →
  Spec.all_bytes f (itoa n) = true.
Proof.
  intros Hf Hm. unfold itoa, NilZero.string_of_int, NilZero.string_of_uint.
  assert (Hz : Spec.all_bytes f "0" = true).
  { simpl. rewrite andb_true_r. apply Hf. simpl. lia. }
  destruct (Z.to_int n) as [d|d]; destruct d; simpl; rewrite ?Hm; simpl;
    try done; try (rewrite string_of_uint_digits by done; rewrite andb_true_r;
                   apply Hf; simpl; lia).
Qed.

Lemma itoa_slash_free n : Spec.slash_free (itoa n) = true.
Proof.
  apply itoa_bytes; [|done].
  intros c Hc. apply negb_true_iff, bool_decide_eq_false. intros ->.
  simpl in Hc. lia.
Qed.

(** ** The library functions on sample inputs *)

Example itoa_samples :
  itoa 0 = "0" ∧ itoa 7 = "7" ∧ itoa 10000 = "10000" ∧ itoa (-42) = "-42".
Proof. by vm_compute. Qed.

Example Fields_samples :
  Strings.Fields "  EC2   instance" = ["EC2"; "instance"]
  ∧ Strings.Fields ("a" +:+ Scenario.nl +:+ "b" +:+ String "009" "c") = ["a"; "b"; "c"]
  ∧ Strings.Fields ("a" +:+ String "194" (String "160" "b")) = ["a"; "b"]
  ∧ Strings.Fields "   " = []
  ∧ Strings.Fields "" = [].
Proof. by vm_compute. Qed.

Example TrimSpace_samples :
  Strings.TrimSpace ("  a b " +:+ Scenario.nl) = "a b"
  ∧ Strings.TrimSpace (String "226" (String "128" (String "131" "x "))) = "x"
  ∧ Strings.TrimSpace (Scenario.nl +:+ " ") = ""
  ∧ Strings.TrimSpace "x" = "x".
Proof. by vm_compute. Qed.

Example Split1_samples :
  Strings.Split1 "" "010" = [""]
  ∧ Strings.Split1 ("a" +:+ Scenario.nl +:+ Scenario.nl +:+ "b") "010"
    = ["a"; ""; "b"]
  ∧ Strings.Split1 ("a" +:+ Scenario.nl) "010" = ["a"; ""].
Proof. by vm_compute. Qed.

Example Clean_samples :
  Filepath.Clean "a/../../b/./c//d/.." = "../b/c"
  ∧ Filepath.Clean "/../a" = "/a"
  ∧ Filepath.Clean "a/.." = "."
  ∧ Filepath.Clean "/" = "/"
  ∧ Filepath.Clean "tf-generated-files/openai_ec2_1.tf"
    = "tf-generated-files/openai_ec2_1.tf"
  ∧ Filepath.Join "out/" "x.tf" = "out/x.tf"
  ∧ Filepath.Join "" "x.tf" = "x.tf".
Proof. by vm_compute. Qed.

(** ** [strings.Split], [strings.Join] and [filepath.Clean] *)

Lemma Split1_slash_free t : Spec.slash_free t = true → Strings.Split1 t "/" = [t].
Proof.
  induction t as [|c t IH]; [done|]. simpl. intros [Hc Ht]%andb_true_iff.
  apply negb_true_iff, bool_decide_eq_false in Hc.
  rewrite decide_False by done. by rewrite IH.
Qed.

(** Text without a separator appended to [s] extends the last element. *)
Lemma Split1_app_last s t :
  Spec.slash_free t = true →
  ∃ init last,
    Strings.Split1 s "/" = init ++ [last]
    ∧ Strings.Split1 (s +:+ t) "/" = init ++ [last +:+ t].
Proof.
  intros Ht. induction s as [|c s (init & last & E1 & E2)].
  - exists [], "". split; [done|]. by rewrite sapp_nil_l, Split1_slash_free.
  - rewrite sapp_cons. simpl. destruct (decide (c = "/"%char)).
    + exists ("" :: init), last. by rewrite E1, E2.
    + rewrite E1, E2. destruct init as [|x init]; simpl.
      * exists [], (String c last). by rewrite sapp_cons.
      * by exists (String c x :: init), last.
Qed.

Lemma Split1_app_sep s t :
  Strings.Split1 (s +:+ String "/" t) "/"
  = Strings.Split1 s "/" ++ Strings.Split1 t "/".
Proof.
  induction s as [|c s IH].
  - by rewrite sapp_nil_l.
  - rewrite sapp_cons. simpl. rewrite IH. destruct (decide (c = "/"%char)); [done|].
    destruct (Strings.Split1 s "/") as [|x xs] eqn:E; [|done].
    by destruct s; simpl in E; [|destruct (decide _), (Strings.Split1 _ _)].
Qed.

Lemma Join_cons x l :
  Strings.Join (x :: l) "/"
  = match l with [] => x | _ :: _ => x +:+ "/" +:+ Strings.Join l "/" end.
Proof. by destruct l. Qed.

Lemma Join_Split1 s : Strings.Join (Strings.Split1 s "/") "/" = s.
Proof.
  induction s as [|c s IH]; [done|]. simpl. destruct (decide (c = "/"%char)) as [->|].
  - rewrite Join_cons. destruct (Strings.Split1 s "/") eqn:E.
    + by destruct s; simpl in E; [|destruct (decide _), (Strings.Split1 _ _)].
    + by rewrite IH.
  - destruct (Strings.Split1 s "/") as [|x xs] eqn:E.
    + by destruct s; simpl in E; [|destruct (decide _), (Strings.Split1 _ _)].
    + rewrite Join_cons in *. destruct xs; [by rewrite IH|].
      rewrite sapp_cons. by rewrite IH.
Qed.

(** The elements joined, the last one apart. *)
Lemma Join_snoc l x :
  ∃ J, ∀ y, Strings.Join (l ++ [y]) "/" = J +:+ y
            ∧ Strings.Join (l ++ [x]) "/" = J +:+ x.
Proof.
  induction l as [|a l [J HJ]].
  - by exists "".
  - exists (a +:+ "/" +:+ J). intros y. simpl app. rewrite !Join_cons.
    destruct (HJ y) as [-> ->].
    destruct l; simpl app; by rewrite !sapp_assoc.
Qed.

Lemma proper_underscore a b : Spec.proper (a +:+ "_" +:+ b).
Proof.
  destruct a as [|c1 [|c2 [|c3 a]]]; rewrite ?sapp_cons, ?sapp_nil_l;
    repeat split; discriminate.
Qed.

Lemma clean_step_proper rt kept elem :
  Spec.proper elem → Filepath.clean_step rt kept elem = elem :: kept.
Proof.
  intros (H1 & H2 & H3). unfold Filepath.clean_step.
  by rewrite !decide_False.
Qed.

Lemma clean_elems_proper elems :
  Forall Spec.proper elems → Filepath.clean_elems false elems = elems.
Proof.
  intros H. unfold Filepath.clean_elems.
  enough (G : ∀ kept, fold_left (Filepath.clean_step false) elems kept
                      = rev elems ++ kept).
  { rewrite G, app_nil_r. apply rev_involutive. }
  induction H as [|x l Hx Hl IH]; intros kept; [done|].
  simpl. rewrite clean_step_proper by done. rewrite IH.
  by rewrite <- app_assoc.
Qed.

Lemma rooted_app s t : s ≠ "" → Filepath.rooted (s +:+ t) = Filepath.rooted s.
Proof. by destruct s. Qed.

Lemma sapp_not_empty_r s t : t ≠ "" → s +:+ t ≠ "".
Proof. destruct s; [done|]. by rewrite sapp_cons. Qed.

Lemma sapp_not_empty_l s t : s ≠ "" → s +:+ t ≠ "".
Proof. destruct s; [done|]. by rewrite sapp_cons. Qed.

(** The cleaned path of [s_t] keeps the text [t] after the underscore as it
    is, whatever the elements of [s] are. *)
Lemma Clean_underscore s :
  s ≠ "" →
  ∃ Q, ∀ t, Spec.slash_free t = true →
            Filepath.Clean (s +:+ "_" +:+ t) = Q +:+ t.
Proof.
  intros Hs.
  destruct (Split1_app_last s "" eq_refl) as (init & last & E & _).
  set (K := fold_left (Filepath.clean_step (Filepath.rooted s)) init []).
  destruct (Join_snoc (rev K) "") as [J HJ].
  exists ((if Filepath.rooted s then "/" else "") +:+ J +:+ last +:+ "_").
  intros t Ht.
  destruct (Split1_app_last s ("_" +:+ t)) as (init' & last' & E' & E2).
  { by rewrite sapp_cons, sapp_nil_l. }
  rewrite E in E'. apply app_inj_tail in E' as [<- <-].
  unfold Filepath.Clean. rewrite decide_False by by apply sapp_not_empty_l.
  rewrite rooted_app by done. cbv zeta.
  unfold Filepath.clean_elems. rewrite E2, fold_left_app. simpl fold_left.
  rewrite clean_step_proper by apply proper_underscore.
  fold K. simpl rev. destruct (HJ (last +:+ "_" +:+ t)) as [-> _].
  destruct (Filepath.rooted s).
  - by rewrite !sapp_assoc.
  - rewrite decide_False.
    + by rewrite !sapp_assoc.
    + apply sapp_not_empty_r, sapp_not_empty_r. by rewrite sapp_cons.
Qed.

(** Under a directory of proper elements, a proper name is appended as is. *)
Lemma Join_proper dir name :
  Forall Spec.proper (Strings.Split1 dir "/") →
  Spec.slash_free name = true → Spec.proper name →
  Filepath.Join dir name = dir +:+ "/" +:+ name.
Proof.
  intros Hdir Hfree Hname.
  assert (Hne : dir ≠ "").
  { intros ->. simpl in Hdir. apply Forall_cons in Hdir as [[? _] _]. done. }
  assert (Hrt : Filepath.rooted dir = false).
  { destruct dir as [|c dir]; [done|]. simpl. 
    destruct (decide (c = "/"%char)) as [->|Hc].
    - simpl in Hdir. apply Forall_cons in Hdir as [[? _] _]. done.
    - destruct c as [[] [] [] [] [] [] [] []]; try done. }
  unfold Filepath.Join. rewrite decide_False by done.
  unfold Filepath.Clean. rewrite decide_False by by apply sapp_not_empty_l.
  rewrite rooted_app, Hrt by done. cbv zeta.
  assert (E : Strings.Split1 (dir +:+ "/" +:+ name) "/"
              = Strings.Split1 dir "/" ++ [name]).
  { change ("/" +:+ name) with (String "/" name).
    by rewrite Split1_app_sep, (Split1_slash_free name). }
  rewrite clean_elems_proper.
  - rewrite Join_Split1. rewrite decide_False; [done|]. by apply sapp_not_empty_l.
  - rewrite E. apply Forall_app. split; [done|]. by apply Forall_singleton.
Qed.

(** ** The filename allocator *)

Lemma free_true w p :
  Spec.free w p = true ↔ Os.stat_fault w p = None ∧ Os.files w !! p = None.
Proof.
  unfold Spec.free, Os.Stat.
  destruct (Os.stat_fault w p); [by split; [|intros []]|].
  destruct (Os.files w !! p); by split; [|intros []].
Qed.

(** The loop returns the first index from [index] on whose probe reports
    nothing there, and gives up when its iterations are used up. *)
Lemma probe_spec w dir stem ext attempts index :
  let path := Spec.candidate_at dir stem ext in
  match Services.probe w dir stem ext attempts index with
  | Some filePath =>
      ∃ i, index ≤ i < index + Z.of_nat attempts
           ∧ filePath = path i
           ∧ Spec.free w (path i) = true
           ∧ ∀ j, index ≤ j < i → Spec.free w (path j) = false
  | None =>
      ∀ j, index ≤ j < index + Z.of_nat attempts → Spec.free w (path j) = false
  end.
Proof.
  intros path. revert index.
  induction attempts as [|n IH]; intros index.
  - simpl. intros j Hj. lia.
  - cbn [Services.probe].
    change (Filepath.Join dir (Services.fileName stem index ext))
      with (path index).
    fold (Spec.free w (path index)).
    destruct (Spec.free w (path index)) eqn:Hfree.
    + exists index. repeat split; try done; lia.
    + specialize (IH (index + 1)).
      destruct (Services.probe _ _ _ _ n (index + 1)) as [filePath|].
      * destruct IH as (i & Hi & -> & Hf & Hlow).
        exists i. repeat split; try done; try lia.
        intros j Hj. destruct (decide (j = index)) as [->|]; [done|].
        apply Hlow. lia.
      * intros j Hj. destruct (decide (j = index)) as [->|]; [done|].
        apply IH. lia.
Qed.

(** The search both allocators end with, over the 10000 attempts. *)
Lemma search_spec w dir stem ext :
  let path := Spec.candidate_at dir stem ext in
  let result :=
    match Services.probe w dir stem ext (Z.to_nat Services.maxAttempts) 1 with
    | Some filePath => (filePath, None)
    | None =>
        ("", Some ("failed to find available filename after "
                   +:+ itoa Services.maxAttempts +:+ " attempts"))
    end in
  (∃ i, 1 ≤ i ≤ 10000
        ∧ result = (path i, None)
        ∧ Spec.free w (path i) = true
        ∧ ∀ j, 1 ≤ j < i → Spec.free w (path j) = false)
  ∨ (result = Spec.exhausted
     ∧ ∀ j, 1 ≤ j ≤ 10000 → Spec.free w (path j) = false).
Proof.
  cbv zeta.
  pose proof (probe_spec w dir stem ext (Z.to_nat Services.maxAttempts) 1) as H.
  cbv zeta in H.
  rewrite Z2Nat.id in H by (unfold Services.maxAttempts; lia).
  unfold Services.maxAttempts in H at 2 3.
  destruct (Services.probe _ _ _ _ _ _) as [filePath|].
  - left. destruct H as (i & Hi & -> & Hf & Hlow).
    exists i. repeat split; try done; lia.
  - right. split; [done|]. intros j Hj. apply H. lia.
Qed.

Lemma GetNextAvailableFilename_spec w dir resourceText provider ext :
  dir ≠ "" → ext ≠ "" → provider ≠ "" →
  let path := Spec.candidate dir resourceText provider ext in
  (∃ i, 1 ≤ i ≤ 10000
        ∧ Services.GetNextAvailableFilename w dir resourceText provider ext
          = (path i, None)
        ∧ Spec.free w (path i) = true
        ∧ ∀ j, 1 ≤ j < i → Spec.free w (path j) = false)
  ∨ (Services.GetNextAvailableFilename w dir resourceText provider ext
     = Spec.exhausted
     ∧ ∀ j, 1 ≤ j ≤ 10000 → Spec.free w (path j) = false).
Proof.
  intros Hdir Hext Hprov. unfold Services.GetNextAvailableFilename.
  rewrite !decide_False by done. apply search_spec.
Qed.

Lemma getNextAvailableFilename_spec w dir resourceText ext :
  dir ≠ "" → ext ≠ "" →
  let path := Spec.candidate_at dir (Services.baseName resourceText) ext in
  (∃ i, 1 ≤ i ≤ 10000
        ∧ HandlersV1.getNextAvailableFilename w dir resourceText ext
          = (path i, None)
        ∧ Spec.free w (path i) = true
        ∧ ∀ j, 1 ≤ j < i → Spec.free w (path j) = false)
  ∨ (HandlersV1.getNextAvailableFilename w dir resourceText ext = Spec.exhausted
     ∧ ∀ j, 1 ≤ j ≤ 10000 → Spec.free w (path j) = false).
Proof.
  intros Hdir Hext. unfold HandlersV1.getNextAvailableFilename.
  rewrite !decide_False by done. apply search_spec.
Qed.

(** A search that ends in one of the two ways of [search_spec] goes by what
    the probe reports. *)
Lemma probe_respected_intro w path result :
  (∃ i, 1 ≤ i ≤ 10000
        ∧ result = (path i, None)
        ∧ Spec.free w (path i) = true
        ∧ ∀ j, 1 ≤ j < i → Spec.free w (path j) = false)
  ∨ (result = Spec.exhausted
     ∧ ∀ j, 1 ≤ j ≤ 10000 → Spec.free w (path j) = false) →
  Spec.probe_respected w path result.
Proof.
  unfold Spec.probe_respected, Spec.free.
  intros [(k & Hk & E & Hfree & Hlow)|[E Hnone]].
  - split; [|split; [|split; [|split; [|split]]]].
    + intros filePath H. rewrite E in H. injection H as <-. by exists k.
    + intros i f Hstat H. rewrite E in H. injection H as H.
      rewrite H, Hstat in Hfree. done.
    + intros i Hi Hskipped Hi_free.
      destruct (Z.lt_trichotomy i k) as [Hlt|[->|Hgt]]; [|done|].
      * rewrite Hlow in Hi_free by lia. done.
      * destruct (Hskipped k) as [Hk'|[f Hk']]; [lia|..];
          rewrite Hk' in Hfree; done.
    + right. by exists k.
    + intros Hall. rewrite Hall in Hfree by done. done.
    + intros Hall. destruct (Hall k Hk) as [f Hf].
      unfold Os.Stat in Hfree. rewrite Hf in Hfree. done.
  - split; [|split; [|split; [|split; [|split]]]].
    + intros filePath H. rewrite E in H. done.
    + intros i f _ H. rewrite E in H. done.
    + intros i Hi _ Hi_free. rewrite Hnone in Hi_free by done. done.
    + by left.
    + done.
    + done.
Qed.

Lemma re_ReplaceAllString_word s :
  Spec.all_bytes Services.word_byte (Services.re_ReplaceAllString s) = true.
Proof.
  induction s as [|c s IH]; [done|]. simpl.
  destruct (Services.word_byte c) eqn:E; [|done]. simpl. by rewrite E, IH.
Qed.

Lemma lower_word_no_slash c :
  Services.word_byte c = true → Strings.lower c ≠ "/"%char.
Proof. destruct c as [[] [] [] [] [] [] [] []]; by vm_compute. Qed.

Lemma ToLower_word_slash_free s :
  Spec.all_bytes Services.word_byte s = true →
  Spec.slash_free (Strings.ToLower s) = true.
Proof.
  induction s as [|c s IH]; [done|]. simpl. intros [Hc Hs]%andb_true_iff.
  apply andb_true_iff. split; [|by apply IH].
  apply negb_true_iff, bool_decide_eq_false. by apply lower_word_no_slash.
Qed.

Lemma baseName_slash_free resourceText :
  Spec.slash_free (Services.baseName resourceText) = true.
Proof.
  unfold Services.baseName. cbv zeta. case_decide; [done|].
  apply ToLower_word_slash_free, re_ReplaceAllString_word.
Qed.

(** The base name is built from the first five fields. *)
Lemma baseName_first_five resourceText :
  Services.baseName resourceText
  = let cleaned :=
      Strings.ToLower
        (Services.re_ReplaceAllString
           (Strings.Join (take 5 (Strings.Fields resourceText)) "_")) in
    if decide (cleaned = "") then "generated" else cleaned.
Proof.
  unfold Services.baseName. cbv zeta.
  destruct (decide (5 < length (Strings.Fields resourceText))%nat); [done|].
  by rewrite take_ge by lia.
Qed.

Lemma candidate_literal dir resourceText provider ext index :
  Forall Spec.proper (Strings.Split1 dir "/") →
  Spec.slash_free provider = true → Spec.slash_free ext = true →
  Spec.candidate dir resourceText provider ext index
  = dir +:+ "/" +:+ provider +:+ "_" +:+ Services.baseName resourceText
    +:+ "_" +:+ itoa index +:+ ext.
Proof.
  intros Hdir Hprov Hext. unfold Spec.candidate, Spec.candidate_at.
  rewrite Join_proper; [by rewrite !sapp_assoc|done| |apply proper_underscore].
  unfold Spec.slash_free in *.
  rewrite !all_bytes_app, Hprov, Hext.
  fold (Spec.slash_free (Services.baseName resourceText)).
  fold (Spec.slash_free (itoa index)).
  by rewrite baseName_slash_free, itoa_slash_free.
Qed.

(** Distinct indices are probed at distinct paths. *)
Lemma candidate_at_inj dir stem ext i j :
  dir ≠ "" → Spec.slash_free ext = true →
  Spec.candidate_at dir stem ext i = Spec.candidate_at dir stem ext j →
  i = j.
Proof.
  intros Hdir Hext. unfold Spec.candidate_at, Filepath.Join.
  rewrite !(decide_False (P := dir = "")) by done.
  destruct (Clean_underscore (dir +:+ "/" +:+ stem)) as [Q HQ];
    [by apply sapp_not_empty_l|].
  assert (E : ∀ k,
    Filepath.Clean (dir +:+ "/" +:+ stem +:+ "_" +:+ itoa k +:+ ext)
    = Q +:+ itoa k +:+ ext).
  { intros k. rewrite <- HQ.
    - by rewrite !sapp_assoc.
    - unfold Spec.slash_free in *. rewrite all_bytes_app, Hext.
      fold (Spec.slash_free (itoa k)). by rewrite itoa_slash_free. }
  rewrite !E. intros H%String.app_inj%sapp_inv_tail. by apply itoa_inj.
Qed.

(** C3 (amended).  For non-empty directory, provider tag and extension, the
    allocator builds the base name from the first five white-space separated
    fields of the resource text, joined by underscores, stripped of every
    byte that is not a letter, a digit or an underscore, and lower-cased;
    ["generated"] replaces it exactly when nothing is left (as for ["!!!"];
    the two fields of ["!!! ???"] leave the joining underscore, so their base
    name is ["_"]).  It returns [filepath.Join] of the directory and
    [<tag>_<base>_<index><ext>] for the smallest index from 1 to 10000 whose
    probe reports that nothing is there, and the error after 10000 attempts
    when there is none.  Under a directory of proper elements, with tag and
    extension free of separators, the path is the directory, a slash and that
    name. *)
Theorem allocation_smallest_free_index w dir resourceText provider ext :
  dir ≠ "" → provider ≠ "" → ext ≠ "" →
  let base := Services.baseName resourceText in
  let path := Spec.candidate dir resourceText provider ext in
  let result := Services.GetNextAvailableFilename w dir resourceText provider ext in
  base = (let cleaned :=
            Strings.ToLower
              (Services.re_ReplaceAllString
                 (Strings.Join (take 5 (Strings.Fields resourceText)) "_")) in
          if decide (cleaned = "") then "generated" else cleaned)
  ∧ (∀ i, 1 ≤ i ≤ 10000 → Spec.free w (path i) = true →
          (∀ j, 1 ≤ j < i → Spec.free w (path j) = false) →
          result = (path i, None))
  ∧ ((∀ i, 1 ≤ i ≤ 10000 → Spec.free w (path i) = false) →
     result = Spec.exhausted)
  ∧ (Forall Spec.proper (Strings.Split1 dir "/") →
     Spec.slash_free provider = true → Spec.slash_free ext = true →
     ∀ i, path i = dir +:+ "/" +:+ provider +:+ "_" +:+ base
                   +:+ "_" +:+ itoa i +:+ ext)
  ∧ Services.baseName "!!!" = "generated"
  ∧ Services.baseName "!!! ???" = "_".
Proof.
  intros Hdir Hprov Hext. cbv zeta.
  split; [apply baseName_first_five|].
  destruct (GetNextAvailableFilename_spec w dir resourceText provider ext
              Hdir Hext Hprov) as [(k & Hk & E & Hfree & Hlow)|[E Hnone]].
  - split; [|split].
    + intros i Hi Hfi Hli. rewrite E. do 2 f_equal.
      destruct (Z.lt_trichotomy i k) as [Hlt|[->|Hgt]]; [|done|].
      * rewrite Hlow in Hfi by lia. done.
      * rewrite Hli in Hfree by lia. done.
    + intros Hall. rewrite Hall in Hfree by lia. done.
    + split; [|by vm_compute].
      intros. by apply candidate_literal.
  - split; [|split].
    + intros i Hi Hfi _. rewrite Hnone in Hfi by lia. done.
    + done.
    + split; [|by vm_compute].
      intros. by apply candidate_literal.
Qed.

Lemma allocation_smallest_free_index_witness :
  "tf-generated-files" ≠ "" ∧ "openai" ≠ "" ∧ ".tf" ≠ ""
  ∧ Services.GetNextAvailableFilename Scenario.fresh
      "tf-generated-files" "EC2 instance" "openai" ".tf"
    = ("tf-generated-files/openai_ec2_instance_1.tf", None).
Proof.
  repeat (split; [done|]).
  destruct (allocation_smallest_free_index Scenario.fresh
              "tf-generated-files" "EC2 instance" "openai" ".tf")
    as (_ & H & _ & L & _); [done..|].
  rewrite (H 1); [|lia|by vm_compute|intros j Hj; lia].
  rewrite L; [by vm_compute|..].
  - repeat constructor; done.
  - by vm_compute.
  - by vm_compute.
Defined.

Lemma symbols_only_base_name :
  Services.baseName "!!! ???" = "_"
  ∧ Services.baseName "!!! ???" ≠ "generated"
  ∧ Services.GetNextAvailableFilename Scenario.fresh
      "tf-generated-files" "!!! ???" "openai" ".tf"
    = ("tf-generated-files/openai___1.tf", None).
Proof. by vm_compute. Qed.

(** C10.  Both allocators, the one of the service and the earlier one of
    the handlers, go by what the probe reports.  An index is returned only
    when the probe of its path reports that the path does not exist: a path
    that is returned is the first whose probe says so, and a path whose
    probe fails with another error is not returned.  Every other outcome
    of the probe, a file that is there or an error that is not the absence,
    makes the loop skip the index and go on: the first path reported
    absent is returned whatever the probes before it ran into.  The outcome
    is a path or the error after 10000 attempts, and it is that error when
    no probe reports an absent path, as when the probe fails at every
    index. *)
Theorem probe_errors_count_as_taken w dir resourceText provider ext :
  dir ≠ "" → ext ≠ "" → provider ≠ "" →
  Spec.probe_respected w (Spec.candidate dir resourceText provider ext)
    (Services.GetNextAvailableFilename w dir resourceText provider ext)
  ∧ Spec.probe_respected w
      (Spec.candidate_at dir (Services.baseName resourceText) ext)
      (HandlersV1.getNextAvailableFilename w dir resourceText ext).
Proof.
  intros Hdir Hext Hprov. split; apply probe_respected_intro.
  - by apply GetNextAvailableFilename_spec.
  - by apply getNextAvailableFilename_spec.
Qed.

Lemma probe_errors_count_as_taken_witness :
  "tf-generated-files" ≠ "" ∧ ".tf" ≠ "" ∧ "openai" ≠ ""
  ∧ Services.GetNextAvailableFilename Scenario.no_stat
      "tf-generated-files" "EC2 instance" "openai" ".tf"
    = Spec.exhausted
  ∧ Services.GetNextAvailableFilename
      (Scenario.denied "tf-generated-files/openai_ec2_instance_1.tf")
      "tf-generated-files" "EC2 instance" "openai" ".tf"
    = ("tf-generated-files/openai_ec2_instance_2.tf", None).
Proof.
  do 3 (split; [done|]). split.
  - destruct (probe_errors_count_as_taken Scenario.no_stat
                "tf-generated-files" "EC2 instance" "openai" ".tf")
      as [(_ & _ & _ & _ & _ & H) _]; [done..|].
    apply H. intros i _. by exists Os.EACCES.
  - destruct (probe_errors_count_as_taken
                (Scenario.denied "tf-generated-files/openai_ec2_instance_1.tf")
                "tf-generated-files" "EC2 instance" "openai" ".tf")
      as [(_ & _ & H & _) _]; [done..|].
    apply (H 2); [lia| |by vm_compute].
    intros j Hj. assert (j = 1) as -> by lia. right. by exists Os.EACCES.
Defined.

(** ** Saving files one after the other *)

Section Saves.

Variables provider base : string.
Hypothesis provider_given : provider ≠ "".

Local Abbreviation dir := "tf-generated-files".
Local Abbreviation path :=
  (Spec.candidate_at dir (provider +:+ "_" +:+ base) ".tf").
Local Abbreviation written w i code :=
  (Os.with_files w (<[path i := code]> (Os.files w))).

Lemma path_inj i j : path i = path j → i = j.
Proof. by apply candidate_at_inj. Qed.

Lemma free_written w i code p :
  Spec.free (written w i code) p
  = Spec.free w p && negb (bool_decide (p = path i)).
Proof.
  unfold Spec.free, Os.Stat. simpl.
  destruct (Os.stat_fault w p); [done|].
  case_bool_decide as E.
  - subst p. by rewrite lookup_insert_eq, andb_false_r.
  - rewrite lookup_insert_ne by done. by rewrite andb_true_r.
Qed.

(** A save that succeeds took the first index whose probe found nothing
    and stored the code there. *)
Lemma SaveTerraformFile_ok w code resource w' filePath :
  Services.baseName resource = base →
  Services.SaveTerraformFile w code resource provider = (w', (filePath, None)) →
  ∃ i, 1 ≤ i ≤ 10000 ∧ filePath = path i ∧ w' = written w i code
       ∧ Spec.free w (path i) = true
       ∧ ∀ j, 1 ≤ j < i → Spec.free w (path j) = false.
Proof.
  intros Hbase. unfold Services.SaveTerraformFile, Os.MkdirAll.
  destruct (Os.mkdir_fault w dir); [done|].
  pose proof (GetNextAvailableFilename_spec w dir resource provider ".tf"
                ltac:(done) ltac:(done) provider_given) as H.
  unfold Spec.candidate in H. rewrite Hbase in H.
  destruct H as [(i & Hi & E & Hfree & Hlow)|[E _]]; rewrite E.
  - unfold Os.WriteFile.
    destruct (Os.write_fault w (path i)) as [[]|]; [done..|].
    intros [= <- <-]. by exists i.
  - done.
Qed.

(** Without faults, the save takes the first index whose probe finds
    nothing. *)
Lemma SaveTerraformFile_at w code resource i :
  Services.baseName resource = base →
  Os.mkdir_fault w dir = None → Os.write_fault w (path i) = None →
  1 ≤ i ≤ 10000 → Spec.free w (path i) = true →
  (∀ j, 1 ≤ j < i → Spec.free w (path j) = false) →
  Services.SaveTerraformFile w code resource provider
  = (written w i code, (path i, None)).
Proof.
  intros Hbase Hmk Hwr Hi Hfree Hlow.
  unfold Services.SaveTerraformFile, Os.MkdirAll. rewrite Hmk.
  pose proof (GetNextAvailableFilename_spec w dir resource provider ".tf"
                ltac:(done) ltac:(done) provider_given) as H.
  unfold Spec.candidate in H. rewrite Hbase in H.
  destruct H as [(k & Hk & E & Hfk & Hlk)|[E Hnone]]; rewrite E.
  - assert (k = i) as ->.
    { destruct (Z.lt_trichotomy i k) as [Hlt|[->|Hgt]]; [|done|].
      - rewrite Hlk in Hfree by lia. done.
      - rewrite Hlow in Hfk by lia. done. }
    unfold Os.WriteFile. by rewrite Hwr.
  - rewrite Hnone in Hfree by lia. done.
Qed.

Lemma sequential_saves_increasing calls : ∀ w m w' results,
  Forall (λ call, Services.baseName call.2 = base) calls →
  (∀ j, 1 ≤ j ≤ m → Spec.free w (path j) = false) →
  Spec.sequential_saves w provider calls = (w', results) →
  Forall (λ r, r.2 = None) results →
  ∃ indices,
    results = (λ i, (path i, None)) <$> indices
    ∧ length indices = length calls
    ∧ Forall (λ i, m < i ≤ 10000) indices
    ∧ StronglySorted Z.lt indices
    ∧ (Spec.free w (path (m + 1)) = true → 0 ≤ m →
       indices = [] ∨ head indices = Some (m + 1)).
Proof.
  induction calls as [|[code resource] calls IH];
    intros w m w' results Hbase Hm Hrun Hok.
  - injection Hrun as <- <-. exists []. repeat split; by constructor.
  - simpl in Hrun. apply Forall_cons in Hbase as [Hb Hbase]. simpl in Hb.
    destruct (Services.SaveTerraformFile w code resource provider)
      as [w1 [filePath err]] eqn:Hsave.
    destruct (Spec.sequential_saves w1 provider calls)
      as [w2 rs] eqn:Hrest.
    injection Hrun as <- <-.
    apply Forall_cons in Hok as [Herr Hok]. simpl in Herr. subst err.
    apply SaveTerraformFile_ok in Hsave
      as (i & Hi & -> & -> & Hfree & Hlow); [|done].
    assert (m < i) as Hmi.
    { destruct (decide (m < i)); [done|]. rewrite Hm in Hfree by lia. done. }
    assert (Hblocked : ∀ j, 1 ≤ j ≤ i →
              Spec.free (written w i code) (path j) = false).
    { intros j Hj. rewrite free_written.
      destruct (decide (j = i)) as [->|].
      - by rewrite bool_decide_eq_true_2, andb_false_r.
      - rewrite Hlow by lia. done. }
    destruct (IH _ i _ _ Hbase Hblocked Hrest Hok)
      as (indices & -> & Hlen & Hrange & Hsorted & _).
    exists (i :: indices). repeat split.
    + simpl. by rewrite Hlen.
    + constructor; [lia|]. eapply Forall_impl; [done|]. simpl. lia.
    + constructor; [done|]. eapply Forall_impl; [done|]. simpl. lia.
    + intros Hfirst Hm0. right. simpl. f_equal.
      destruct (decide (i = m + 1)); [done|].
      rewrite Hlow in Hfirst by lia. done.
Qed.

Lemma sequential_saves_fresh calls : ∀ w m,
  Forall (λ call, Services.baseName call.2 = base) calls →
  0 ≤ m → m + Z.of_nat (length calls) ≤ 10000 →
  Os.mkdir_fault w dir = None →
  (∀ j, 1 ≤ j ≤ m → Spec.free w (path j) = false) →
  (∀ j, m < j ≤ 10000 →
        Spec.free w (path j) = true ∧ Os.write_fault w (path j) = None) →
  (Spec.sequential_saves w provider calls).2
  = (λ i, (path i, None)) <$> seqZ (m + 1) (Z.of_nat (length calls)).
Proof.
  induction calls as [|[code resource] calls IH];
    intros w m Hbase Hm0 Hlen Hmk Hlow Hfree.
  - done.
  - cbn [length] in *. rewrite Nat2Z.inj_succ in *.
    apply Forall_cons in Hbase as [Hb Hbase]. simpl in Hb.
    rewrite seqZ_cons by lia. cbn [Spec.sequential_saves].
    destruct (Hfree (m + 1)) as [Hf Hw]; [lia|].
    rewrite (SaveTerraformFile_at w code resource (m + 1));
      [|done|done|done|lia|done|].
    2:{ intros j Hj. apply Hlow. lia. }
    specialize (IH (written w (m + 1) code) (m + 1) Hbase).
    destruct (Spec.sequential_saves _ provider calls) as [w2 rs].
    simpl in *. rewrite IH; try lia; try done.
    + by rewrite Z.pred_succ.
    + intros j Hj. rewrite free_written.
      destruct (decide (j = m + 1)) as [->|].
      * by rewrite bool_decide_eq_true_2, andb_false_r.
      * rewrite Hlow by lia. done.
    + intros j Hj. destruct (Hfree j) as [Hfj Hwj]; [lia|].
      split; [|done]. rewrite free_written, Hfj.
      rewrite bool_decide_eq_false_2; [done|].
      intros E%path_inj. lia.
Qed.

(** Indices that increase strictly inside a range are no more than the
    range holds. *)
Lemma sorted_range_length (l : list Z) : ∀ a b,
  a ≤ b → Forall (λ i, a < i ≤ b) l → StronglySorted Z.lt l →
  Z.of_nat (length l) ≤ b - a.
Proof.
  induction l as [|i l IH]; intros a b Hab Hrange Hsorted; simpl; [lia|].
  apply Forall_cons in Hrange as [Hi Hrange].
  apply StronglySorted_inv in Hsorted as [Hsorted Hall].
  specialize (IH i b). rewrite Nat2Z.inj_succ.
  enough (Z.of_nat (length l) ≤ b - i) by lia.
  apply IH; [lia| |done].
  rewrite Forall_forall in Hall, Hrange. apply Forall_forall.
  intros j Hj. specialize (Hall j Hj). specialize (Hrange j Hj). lia.
Qed.

Lemma sequential_saves_app calls1 : ∀ w calls2,
  Spec.sequential_saves w provider (calls1 ++ calls2)
  = let '(w1, rs1) := Spec.sequential_saves w provider calls1 in
    let '(w2, rs2) := Spec.sequential_saves w1 provider calls2 in
    (w2, rs1 ++ rs2).
Proof.
  induction calls1 as [|[code resource] calls1 IH]; intros w calls2.
  - simpl. by destruct (Spec.sequential_saves w provider calls2).
  - cbn [app Spec.sequential_saves].
    destruct (Services.SaveTerraformFile w code resource provider) as [w1 r].
    rewrite IH.
    destruct (Spec.sequential_saves w1 provider calls1) as [w2 rs1].
    by destruct (Spec.sequential_saves w2 provider calls2) as [w3 rs2].
Qed.

(** After the saves of [sequential_saves_fresh] the indices they took are
    taken, and the directory can still be made. *)
Lemma sequential_saves_fresh_state calls : ∀ w m,
  Forall (λ call, Services.baseName call.2 = base) calls →
  0 ≤ m → m + Z.of_nat (length calls) ≤ 10000 →
  Os.mkdir_fault w dir = None →
  (∀ j, 1 ≤ j ≤ m → Spec.free w (path j) = false) →
  (∀ j, m < j ≤ 10000 →
        Spec.free w (path j) = true ∧ Os.write_fault w (path j) = None) →
  let w' := (Spec.sequential_saves w provider calls).1 in
  Os.mkdir_fault w' dir = None
  ∧ ∀ j, 1 ≤ j ≤ m + Z.of_nat (length calls) → Spec.free w' (path j) = false.
Proof.
  induction calls as [|[code resource] calls IH];
    intros w m Hbase Hm0 Hlen Hmk Hlow Hfree.
  - simpl. split; [done|]. intros j Hj. apply Hlow. lia.
  - cbn [length] in *. rewrite Nat2Z.inj_succ in *.
    apply Forall_cons in Hbase as [Hb Hbase]. simpl in Hb.
    cbn [Spec.sequential_saves].
    destruct (Hfree (m + 1)) as [Hf Hw]; [lia|].
    rewrite (SaveTerraformFile_at w code resource (m + 1));
      [|done|done|done|lia|done|].
    2:{ intros j Hj. apply Hlow. lia. }
    specialize (IH (written w (m + 1) code) (m + 1) Hbase).
    destruct (Spec.sequential_saves _ provider calls) as [w2 rs].
    simpl in *.
    replace (m + Z.succ (Z.of_nat (length calls)))
      with (m + 1 + Z.of_nat (length calls)) by lia.
    apply IH; try lia; try done.
    + intros j Hj. rewrite free_written.
      destruct (decide (j = m + 1)) as [->|].
      * by rewrite bool_decide_eq_true_2, andb_false_r.
      * rewrite Hlow by lia. done.
    + intros j Hj. destruct (Hfree j) as [Hfj Hwj]; [lia|].
      split; [|done]. rewrite free_written, Hfj.
      rewrite bool_decide_eq_false_2; [done|].
      intros E%path_inj. lia.
Qed.

(** With the 10000 indices taken, a save ends in the error of the search
    and writes nothing. *)
Lemma SaveTerraformFile_exhausted w code resource :
  Services.baseName resource = base →
  Os.mkdir_fault w dir = None →
  (∀ j, 1 ≤ j ≤ 10000 → Spec.free w (path j) = false) →
  Services.SaveTerraformFile w code resource provider
  = (w, ("", Some "failed to generate unique filename: failed to find available filename after 10000 attempts")).
Proof.
  intros Hbase Hmk Htaken.
  unfold Services.SaveTerraformFile, Os.MkdirAll. rewrite Hmk.
  pose proof (GetNextAvailableFilename_spec w dir resource provider ".tf"
                ltac:(done) ltac:(done) provider_given) as H.
  unfold Spec.candidate in H. rewrite Hbase in H.
  destruct H as [(k & Hk & E & Hfk & Hlk)|[E Hnone]]; rewrite E.
  - rewrite Htaken in Hfk by done. done.
  - done.
Qed.

(** The call after 10000 calls that went well: every index is taken, and
    it fails. *)
Lemma sequential_saves_past_ceiling w calls code resource :
  Forall (λ call, Services.baseName call.2 = base) calls →
  Services.baseName resource = base →
  Z.of_nat (length calls) = 10000 →
  Os.mkdir_fault w dir = None →
  (∀ i, 1 ≤ i ≤ 10000 →
        Spec.free w (path i) = true ∧ Os.write_fault w (path i) = None) →
  (Spec.sequential_saves w provider (calls ++ [(code, resource)])).2
  = ((λ i, (path i, None)) <$> seqZ 1 10000)
    ++ [("", Some "failed to generate unique filename: failed to find available filename after 10000 attempts")].
Proof.
  intros Hbase Hb Hlen Hmk Hfree.
  assert (Hfree0 : ∀ j, 0 < j ≤ 10000 →
            Spec.free w (path j) = true ∧ Os.write_fault w (path j) = None).
  { intros j Hj. apply Hfree. lia. }
  assert (Hlow0 : ∀ j, 1 ≤ j ≤ 0 → Spec.free w (path j) = false).
  { intros j Hj. lia. }
  pose proof (sequential_saves_fresh calls w 0 Hbase ltac:(lia) ltac:(lia)
                Hmk Hlow0 Hfree0) as Hresults.
  pose proof (sequential_saves_fresh_state calls w 0 Hbase ltac:(lia)
                ltac:(lia) Hmk Hlow0 Hfree0) as Hstate.
  cbv zeta in Hstate. rewrite sequential_saves_app.
  destruct (Spec.sequential_saves w provider calls) as [w1 rs1].
  cbn [fst snd] in Hresults, Hstate. destruct Hstate as [Hmk1 Htaken].
  rewrite Z.add_0_l in Hresults, Htaken. rewrite Hlen in Hresults, Htaken.
  cbn [Spec.sequential_saves].
  rewrite (SaveTerraformFile_exhausted w1 code resource Hb Hmk1 Htaken).
  cbn [snd]. by rewrite Hresults.
Qed.

(** C8 (amended).  [SaveTerraformFile] called N times in a row for one
    provider and resource texts of one derived base name, each call
    allocating a path and writing it at once.  When the N calls succeed,
    their paths have strictly increasing indices between 1 and 10000 and
    are pairwise distinct, N is at most 10000, and the first index is 1
    when nothing is found there at the start.  From a directory where the
    indices 1 to 10000 are free, on a file system without faults, N calls
    do succeed for N up to 10000, call k at index k. *)
Theorem sequential_saves_distinct_increasing w calls :
  Forall (λ call, Services.baseName call.2 = base) calls →
  (∀ w' results,
     Spec.sequential_saves w provider calls = (w', results) →
     Forall (λ r, r.2 = None) results →
     ∃ indices,
       results = (λ i, (path i, None)) <$> indices
       ∧ length indices = length calls
       ∧ Forall (λ i, 1 ≤ i ≤ 10000) indices
       ∧ StronglySorted Z.lt indices
       ∧ NoDup results.*1
       ∧ Z.of_nat (length calls) ≤ 10000
       ∧ (Spec.free w (path 1) = true →
          indices = [] ∨ head indices = Some 1))
  ∧ (Os.mkdir_fault w dir = None →
     (∀ i, 1 ≤ i ≤ 10000 →
           Spec.free w (path i) = true ∧ Os.write_fault w (path i) = None) →
     Z.of_nat (length calls) ≤ 10000 →
     (Spec.sequential_saves w provider calls).2
     = (λ i, (path i, None)) <$> seqZ 1 (Z.of_nat (length calls))).
Proof.
  intros Hbase. split.
  - intros w' results Hrun Hok.
    destruct (sequential_saves_increasing calls w 0 w' results)
      as (indices & -> & Hlen & Hrange & Hsorted & Hfirst); [done| |done..|].
    { intros j Hj. lia. }
    exists indices. repeat split; try done.
    + eapply Forall_impl; [done|]. simpl. lia.
    + rewrite <- list_fmap_compose.
      apply NoDup_fmap_2_strong.
      * intros i j _ _ E. by apply path_inj.
      * clear -Hsorted. induction Hsorted as [|i l Hl IH Hall]; constructor.
        -- intros Hin. rewrite Forall_forall in Hall.
           apply Hall in Hin. lia.
        -- done.
    + rewrite <- Hlen.
      pose proof (sorted_range_length indices 0 10000) as H.
      rewrite Z.sub_0_r in H. by apply H.
    + intros Hfree. by apply Hfirst.
  - intros Hmk Hfree Hlen.
    apply (sequential_saves_fresh calls w 0); try done; try lia.
    intros j Hj. apply Hfree. lia.
Qed.

End Saves.

Lemma sequential_saves_distinct_increasing_witness :
  "openai" ≠ ""
  ∧ Forall (λ call, Services.baseName call.2 = "ec2_instance")
      [("a", "EC2 instance"); ("b", "ec2   Instance!"); ("c", "EC2 instance")]
  ∧ (Spec.sequential_saves Scenario.fresh "openai"
       [("a", "EC2 instance"); ("b", "ec2   Instance!"); ("c", "EC2 instance")]).2
    = [("tf-generated-files/openai_ec2_instance_1.tf", None);
       ("tf-generated-files/openai_ec2_instance_2.tf", None);
       ("tf-generated-files/openai_ec2_instance_3.tf", None)].
Proof.
  split; [done|].
  assert (H0 : Forall (λ call, Services.baseName call.2 = "ec2_instance")
      [("a", "EC2 instance"); ("b", "ec2   Instance!"); ("c", "EC2 instance")]).
  { repeat constructor; by vm_compute. }
  split; [done|].
  destruct (sequential_saves_distinct_increasing "openai" "ec2_instance"
              ltac:(done) Scenario.fresh _ H0) as [_ H].
  rewrite H; [by vm_compute|done| |simpl; lia].
  intros i _. split; [|done]. by apply free_true.
Defined.

(** C8, as it was worded, fails past the ceiling of the search: of 10001
    calls in a row on an empty directory without faults, the first 10000
    take the indices 1 to 10000 and the last finds every index taken and
    returns the error, so that the calls do not yield 10001 paths. *)
Lemma ten_thousand_and_first_save_fails :
  let calls := replicate (Z.to_nat 10001) ("resource {}", "EC2 instance") in
  let results := (Spec.sequential_saves Scenario.fresh "openai" calls).2 in
  results
  = ((λ i, (Spec.candidate "tf-generated-files" "EC2 instance" "openai" ".tf" i,
            None)) <$> seqZ 1 10000)
    ++ [("", Some "failed to generate unique filename: failed to find available filename after 10000 attempts")]
  ∧ ¬ Forall (λ r, r.2 = None) results.
Proof.
  cbv zeta.
  assert (E : (Spec.sequential_saves Scenario.fresh "openai"
                 (replicate (Z.to_nat 10001) ("resource {}", "EC2 instance"))).2
              = ((λ i, (Spec.candidate "tf-generated-files" "EC2 instance"
                          "openai" ".tf" i, None)) <$> seqZ 1 10000)
                ++ [("", Some "failed to generate unique filename: failed to find available filename after 10000 attempts")]).
  { replace (Z.to_nat 10001) with (Z.to_nat 10000 + 1)%nat by lia.
    rewrite replicate_add.
    change (replicate 1 ("resource {}", "EC2 instance"))
      with [("resource {}", "EC2 instance")].
    apply (sequential_saves_past_ceiling "openai"
             (Services.baseName "EC2 instance")).
    - done.
    - by apply Forall_replicate.
    - reflexivity.
    - rewrite length_replicate. lia.
    - reflexivity.
    - intros i _. split; [|reflexivity]. by apply free_true. }
  split; [exact E|]. rewrite E. clear E.
  intros [_ Hlast]%Forall_app. apply Forall_inv in Hlast.
  discriminate Hlast.
Qed.

(** ** The sanitizer *)

Lemma bytes_app l1 l2 :
  Strings.bytes (l1 ++ l2) = Strings.bytes l1 +:+ Strings.bytes l2.
Proof.
  induction l1 as [|r l1 IH]; [done|]. simpl. by rewrite IH, sapp_assoc.
Qed.

Lemma bytes_runes s : Strings.bytes (Strings.runes s) = s.
Proof.
  enough (G : ∀ n s, (String.length s ≤ n)%nat →
                     Strings.bytes (Strings.runes s) = s) by by eapply G.
  clear s. induction n as [|n IH]; intros [|c s] Hlen; simpl in Hlen;
    [done|lia|done|].
  assert (IHs : Strings.bytes (Strings.runes s) = s) by (apply IH; lia).
  assert (Hother : Strings.bytes (Strings.Other c :: Strings.runes s)
                   = String c s).
  { cbn [Strings.bytes Strings.rune_bytes]. by rewrite IHs. }
  cbn [Strings.runes].
  destruct (Strings.asciiSpace c); [done|].
  destruct s as [|d s]; [done|].
  destruct (Strings.space2 c d).
  { cbn [Strings.bytes Strings.rune_bytes].
    rewrite IH; [done|simpl in Hlen; lia]. }
  destruct s as [|e s]; [done|].
  destruct (Strings.space3 c d e); [|done].
  cbn [Strings.bytes Strings.rune_bytes].
  rewrite IH; [done|simpl in Hlen; lia].
Qed.

Lemma dropWhile_split {A} (f : A → bool) l :
  ∃ dropped, Forall (λ x, f x = true) dropped
             ∧ l = dropped ++ Strings.dropWhile f l.
Proof.
  induction l as [|x l (dropped & Hd & E)]; [by exists []|].
  simpl. destruct (f x) eqn:Hx.
  - exists (x :: dropped). split; [by constructor|]. simpl. by rewrite <- E.
  - by exists [].
Qed.

(** [TrimSpace] removes white-space runes, and nothing else, at both ends. *)
Lemma TrimSpace_split s :
  ∃ lead trail,
    Forall (λ r, Strings.isSpace r = true) lead
    ∧ Forall (λ r, Strings.isSpace r = true) trail
    ∧ s = Strings.bytes lead +:+ Strings.TrimSpace s +:+ Strings.bytes trail.
Proof.
  unfold Strings.TrimSpace.
  destruct (dropWhile_split Strings.isSpace (Strings.runes s))
    as (lead & Hlead & E1).
  destruct (dropWhile_split Strings.isSpace
              (rev (Strings.dropWhile Strings.isSpace (Strings.runes s))))
    as (trail & Htrail & E2).
  exists lead, (rev trail). repeat split; [done|by apply Forall_rev|].
  rewrite <- !bytes_app.
  apply (f_equal (@rev _)) in E2. rewrite rev_involutive, rev_app_distr in E2.
  rewrite <- E2, <- E1. by rewrite bytes_runes.
Qed.

Lemma after_prefix_Some p s r :
  Services.after_prefix p s = Some r ↔ s = p +:+ r.
Proof.
  revert s. induction p as [|a p IH]; intros s.
  - rewrite sapp_nil_l. destruct s; simpl; split; congruence.
  - rewrite sapp_cons. destruct s as [|b s]; simpl; [done|].
    destruct (decide (a = b)) as [->|].
    + rewrite IH. split; [by intros ->|by intros [= ->]].
    + split; [done|]. intros [= ? ?]. done.
Qed.

Lemma after_prefix_None p s :
  Services.after_prefix p s = None ↔ ∀ r, s ≠ p +:+ r.
Proof.
  split.
  - intros H r E. apply after_prefix_Some in E. congruence.
  - intros H. destruct (Services.after_prefix p s) as [r|] eqn:E; [|done].
    apply after_prefix_Some in E. by destruct (H r).
Qed.

Lemma after_newline_spec rest :
  rest = String "010" (Services.after_newline rest)
  ∨ (Services.after_newline rest = rest ∧ ∀ r, rest ≠ String "010" r).
Proof.
  destruct rest as [|c rest]; [by right|].
  destruct (decide (c = "010"%char)) as [->|Hc]; [by left|].
  right. split; [|congruence].
  destruct c as [[] [] [] [] [] [] [] []]; done.
Qed.

Lemma re1_ReplaceAllString_spec code :
  Spec.opener_stripped code (Services.re1_ReplaceAllString code).
Proof.
  unfold Services.re1_ReplaceAllString, Services.re1_match.
  destruct (Services.after_prefix "```terraform" code) as [rest|] eqn:E1.
  { left. exists "terraform", rest. apply after_prefix_Some in E1.
    split; [by left|]. split; [done|].
    destruct (after_newline_spec rest) as [?|[? ?]]; [by left|by right]. }
  destruct (Services.after_prefix "```hcl" code) as [rest|] eqn:E2.
  { left. exists "hcl", rest. apply after_prefix_Some in E2.
    split; [by right|]. split; [done|].
    destruct (after_newline_spec rest) as [?|[? ?]]; [by left|by right]. }
  right. split; [done|]. intros tag rest [-> | ->] E.
  - rewrite after_prefix_None in E1. by apply (E1 rest).
  - rewrite after_prefix_None in E2. by apply (E2 rest).
Qed.

Lemma re2_ReplaceAllString_spec s :
  Spec.closer_stripped s (Services.re2_ReplaceAllString s).
Proof.
  unfold Spec.closer_stripped.
  induction s as [|c s IH].
  - right. split; [done|]. intros body E.
    apply (f_equal String.length) in E. rewrite sapp_length in E. simpl in E. lia.
  - cbn [Services.re2_ReplaceAllString].
    destruct (decide (String c s = "```")) as [E|Hne]; [by left|].
    destruct IH as [E|[E Hno]].
    + left. rewrite sapp_cons. by rewrite <- E.
    + right. rewrite E. split; [done|]. intros [|b body] Eb.
      * by rewrite sapp_nil_l in Eb.
      * rewrite sapp_cons in Eb. injection Eb as _ Eb. by apply (Hno body).
Qed.

(** C2 (amended).  On a non-empty input the sanitizer removes an opener made
    of three back quotes and one of the language tags [terraform] or [hcl]
    (three back quotes alone are not an opener and stay), with one newline
    right after it when there is one; removes three back quotes that end the
    text; and trims white space.  Each of the two marks is looked for on its
    own, and a text without them comes back trimmed.  Nothing left is an
    error.  The earlier copy of the sanitizer in the handlers does the
    same. *)
Theorem CleanTerraformCode_strips_fences code :
  code ≠ "" →
  (∃ opened closed,
      Spec.opener_stripped code opened
      ∧ Spec.closer_stripped opened closed
      ∧ Services.CleanTerraformCode code
        = (if decide (Strings.TrimSpace closed = "")
           then ("", Some "cleaned code is empty after processing")
           else (Strings.TrimSpace closed, None)))
  ∧ ((∀ tag rest, tag = "terraform" ∨ tag = "hcl" →
                  code ≠ "```" +:+ tag +:+ rest) →
     (∀ body, code ≠ body +:+ "```") →
     Services.CleanTerraformCode code
     = (if decide (Strings.TrimSpace code = "")
        then ("", Some "cleaned code is empty after processing")
        else (Strings.TrimSpace code, None)))
  ∧ HandlersV1.cleanTerraformCode code = Services.CleanTerraformCode code.
Proof.
  intros Hne. split; [|split; [|done]].
  - exists (Services.re1_ReplaceAllString code),
           (Services.re2_ReplaceAllString (Services.re1_ReplaceAllString code)).
    split; [apply re1_ReplaceAllString_spec|].
    split; [apply re2_ReplaceAllString_spec|].
    unfold Services.CleanTerraformCode. by rewrite decide_False.
  - intros Hopen Hclose. unfold Services.CleanTerraformCode.
    rewrite decide_False by done. cbv zeta.
    destruct (re1_ReplaceAllString_spec code)
      as [(tag & rest & Htag & E & _)|[-> _]]; [by destruct (Hopen tag rest)|].
    destruct (re2_ReplaceAllString_spec code) as [E|[-> _]];
      [by destruct (Hclose _ E)|done].
Qed.

Lemma CleanTerraformCode_strips_fences_witness :
  Scenario.fenced ≠ ""
  ∧ ∃ opened closed,
      Spec.opener_stripped Scenario.fenced opened
      ∧ Spec.closer_stripped opened closed
      ∧ Services.CleanTerraformCode Scenario.fenced
        = (if decide (Strings.TrimSpace closed = "")
           then ("", Some "cleaned code is empty after processing")
           else (Strings.TrimSpace closed, None)).
Proof.
  split; [done|]. by apply (CleanTerraformCode_strips_fences Scenario.fenced).
Defined.

Lemma bare_fence_is_kept :
  let code := "```" +:+ Scenario.nl +:+ "resource x {}" +:+ Scenario.nl +:+ "```" in
  Services.CleanTerraformCode code
  = ("```" +:+ Scenario.nl +:+ "resource x {}", None)
  ∧ Spec.sanitize_as_specified code = ("resource x {}", None)
  ∧ Services.CleanTerraformCode code ≠ Spec.sanitize_as_specified code.
Proof. by vm_compute. Qed.

(** ** The validator *)

(** C4.  Whatever the validator returns, on each of its return paths: a
    result that says valid carries no errors. *)
Theorem valid_result_has_no_errors Unmarshal env terraformCode result err :
  Utils.ValidateTerraformCode Unmarshal env terraformCode = (Some result, err) →
  Utils.IsValid result = true →
  Utils.Errors result = [].
Proof.
  unfold Utils.ValidateTerraformCode.
  destruct (negb (Utils.isTerraformInstalled env)).
  { intros [= <- _]. done. }
  destruct (Utils.createTempTerraformDir env terraformCode) as [? [?|]]; [done|].
  destruct (Utils.runTerraformInit env terraformCode) as [? [?|]].
  { intros [= <- _]. done. }
  destruct (Utils.runTerraformValidate env terraformCode) as [? [?|]].
  { intros [= <- _]. done. }
  by intros [= <- _].
Qed.

Lemma valid_result_has_no_errors_witness :
  ∃ result,
    Utils.ValidateTerraformCode Scenario.Unmarshal Scenario.accepting
      "resource aws_instance example {}" = (Some result, None)
    ∧ Utils.IsValid result = true
    ∧ Utils.Errors result = [].
Proof.
  eexists. split; [by vm_compute|]. split; [done|].
  by apply (valid_result_has_no_errors Scenario.Unmarshal Scenario.accepting
              "resource aws_instance example {}" _ None).
Defined.

(** The validator returns a result or an error, never both and never
    neither. *)
Lemma ValidateTerraformCode_outcome Unmarshal env terraformCode :
  (∃ result, Utils.ValidateTerraformCode Unmarshal env terraformCode
             = (Some result, None))
  ∨ (∃ err, Utils.ValidateTerraformCode Unmarshal env terraformCode
            = (None, Some err)).
Proof.
  unfold Utils.ValidateTerraformCode.
  destruct (negb (Utils.isTerraformInstalled env)); [by left; eexists|].
  destruct (Utils.createTempTerraformDir env terraformCode) as [? [?|]];
    [by right; eexists|].
  destruct (Utils.runTerraformInit env terraformCode) as [? [?|]];
    [by left; eexists|].
  destruct (Utils.runTerraformValidate env terraformCode) as [? [?|]];
    by left; eexists.
Qed.

(** C5.  Without a terraform executable on the PATH the validator returns,
    with a nil error, a result that is not valid and carries the one message
    about the missing CLI. *)
Theorem missing_terraform_is_reported Unmarshal env terraformCode lookup :
  Utils.LookPath env "terraform" = Some lookup →
  ∃ result,
    Utils.ValidateTerraformCode Unmarshal env terraformCode = (Some result, None)
    ∧ Utils.IsValid result = false
    ∧ Utils.Errors result
      = ["Terraform CLI is not installed or not available in PATH"].
Proof.
  intros H. unfold Utils.ValidateTerraformCode, Utils.isTerraformInstalled.
  rewrite H. by eexists.
Qed.

Lemma missing_terraform_is_reported_witness :
  Utils.LookPath Scenario.not_installed "terraform"
  = Some "exec: terraform: executable file not found in $PATH"
  ∧ ∃ result,
      Utils.ValidateTerraformCode Scenario.Unmarshal Scenario.not_installed
        "resource aws_instance example {}" = (Some result, None)
      ∧ Utils.IsValid result = false
      ∧ Utils.Errors result
        = ["Terraform CLI is not installed or not available in PATH"].
Proof.
  split; [done|].
  by apply (missing_terraform_is_reported Scenario.Unmarshal
              Scenario.not_installed "resource aws_instance example {}"
              "exec: terraform: executable file not found in $PATH").
Defined.

(** ** Diagnostic extraction *)

Lemma diagnostics_loop_spec diagnostics : ∀ errors,
  Utils.diagnostics_loop errors diagnostics
  = errors
    ++ (Spec.format_diagnostic
          <$> filter (λ d, Utils.Severity d = "error") diagnostics).
Proof.
  induction diagnostics as [|d ds IH]; intros errors; simpl.
  - by rewrite app_nil_r.
  - rewrite filter_cons. destruct (decide (Utils.Severity d = "error")).
    + rewrite IH. simpl. by rewrite <- app_assoc.
    + apply IH.
Qed.

Lemma lines_loop_spec lines : ∀ errors,
  Utils.lines_loop errors lines
  = errors
    ++ filter (λ line, line ≠ ""
                       ∧ Strings.HasPrefix line "terraform validate failed:" = false)
         (Strings.TrimSpace <$> lines).
Proof.
  induction lines as [|l ls IH]; intros errors; simpl.
  - by rewrite app_nil_r.
  - rewrite filter_cons.
    destruct (decide (Strings.TrimSpace l = "")) as [E|E].
    + rewrite bool_decide_eq_true_2 by done. simpl.
      rewrite decide_False by tauto. apply IH.
    + rewrite bool_decide_eq_false_2 by done. simpl.
      destruct (Strings.HasPrefix (Strings.TrimSpace l) _) eqn:Hp; simpl.
      * rewrite decide_False by (intros [_ ?]; done). apply IH.
      * rewrite decide_True by done. rewrite IH. by rewrite <- app_assoc.
Qed.

Lemma fallback_lines_spec output :
  Utils.fallback_lines [] output = Spec.fallback_as_specified output.
Proof.
  unfold Utils.fallback_lines, Spec.fallback_as_specified.
  rewrite lines_loop_spec. simpl. by destruct (filter _ _).
Qed.

Lemma parseJSONErrors_spec Unmarshal jsonOutput doc :
  Unmarshal jsonOutput = Some doc →
  Utils.parseJSONErrors Unmarshal jsonOutput
  = match Spec.error_messages doc with
    | [] =>
        if Utils.Valid doc then []
        else ["Validation failed with " +:+ itoa (Utils.ErrorCount doc)
              +:+ " errors"]
    | messages => messages
    end.
Proof.
  intros H. unfold Utils.parseJSONErrors. rewrite H.
  rewrite diagnostics_loop_spec. simpl. fold (Spec.error_messages doc).
  destruct (Spec.error_messages doc); [|done]. simpl. by destruct (Utils.Valid doc).
Qed.

(** C6.  When the output parses, [parseJSONErrors] gives one message
    [Line <N>: <summary> - <detail>] for each diagnostic of severity error,
    in order, and none for the others; when there is no such diagnostic and
    the document says it is not valid, the one message with its error count.
    [parseTerraformErrors] returns these messages when the output holds the
    validity marker. *)
Theorem parseJSONErrors_formats_errors Unmarshal jsonOutput doc :
  Unmarshal jsonOutput = Some doc →
  Utils.parseJSONErrors Unmarshal jsonOutput
  = match Spec.error_messages doc with
    | [] =>
        if Utils.Valid doc then []
        else ["Validation failed with " +:+ itoa (Utils.ErrorCount doc)
              +:+ " errors"]
    | messages => messages
    end
  ∧ length (Spec.error_messages doc)
    = length (filter (λ d, Utils.Severity d = "error") (Utils.Diagnostics doc))
  ∧ (Strings.Contains jsonOutput Utils.valid_false_marker = true →
     Spec.error_messages doc ≠ [] ∨ Utils.Valid doc = false →
     Utils.parseTerraformErrors Unmarshal jsonOutput
     = Utils.parseJSONErrors Unmarshal jsonOutput).
Proof.
  intros H. split; [by apply parseJSONErrors_spec|].
  split; [apply length_fmap|].
  intros Hmark Hinvalid. unfold Utils.parseTerraformErrors. rewrite Hmark.
  rewrite (parseJSONErrors_spec _ _ _ H).
  destruct (Spec.error_messages doc) as [|m ms].
  - destruct Hinvalid as [?|Hv]; [done|]. rewrite Hv. simpl. done.
  - rewrite decide_True by (simpl; lia). done.
Qed.

Lemma parseJSONErrors_formats_errors_witness :
  Scenario.Unmarshal Scenario.report_text = Some Scenario.report
  ∧ Utils.parseTerraformErrors Scenario.Unmarshal Scenario.report_text
    = ["Line 4: Unsupported argument - An argument named region is not expected here.";
       "Line 2: Missing required argument - The argument ami is required."].
Proof.
  split; [by vm_compute|].
  destruct (parseJSONErrors_formats_errors Scenario.Unmarshal
              Scenario.report_text Scenario.report) as (E & _ & H);
    [by vm_compute|].
  rewrite H, E; [by vm_compute|by vm_compute|by right].
Defined.

(** C7 (amended).  Without the validity marker in the output, diagnostic
    extraction returns the non-blank lines of the output, each trimmed,
    without the lines that start with the wrapper's prefix
    [terraform validate failed:], and the output itself as the only message
    when no line is left.  It does the same when the marker is there and the
    parsed document yields no message.  When the marker is there and the
    output does not parse, the only message is
    [Failed to parse validation output: ] followed by the output. *)
Theorem parseTerraformErrors_fallback Unmarshal output :
  (Strings.Contains output Utils.valid_false_marker = false →
   Utils.parseTerraformErrors Unmarshal output = Spec.fallback_as_specified output)
  ∧ (∀ doc, Strings.Contains output Utils.valid_false_marker = true →
            Unmarshal output = Some doc →
            Spec.error_messages doc = [] → Utils.Valid doc = true →
            Utils.parseTerraformErrors Unmarshal output
            = Spec.fallback_as_specified output)
  ∧ (Strings.Contains output Utils.valid_false_marker = true →
     Unmarshal output = None →
     Utils.parseTerraformErrors Unmarshal output
     = ["Failed to parse validation output: " +:+ output]).
Proof.
  unfold Utils.parseTerraformErrors. split; [|split].
  - intros ->. apply fallback_lines_spec.
  - intros doc -> H Hnone Hvalid.
    rewrite (parseJSONErrors_spec _ _ _ H), Hnone, Hvalid. simpl.
    apply fallback_lines_spec.
  - intros -> H. unfold Utils.parseJSONErrors. rewrite H. done.
Qed.

Lemma parseTerraformErrors_fallback_witness :
  Utils.parseTerraformErrors Scenario.Unmarshal
    ("Error: Unsupported argument" +:+ Scenario.nl +:+ Scenario.nl
     +:+ "  on main.tf line 4  " +:+ Scenario.nl
     +:+ "terraform validate failed: exit status 1")
  = ["Error: Unsupported argument"; "on main.tf line 4"].
Proof.
  destruct (parseTerraformErrors_fallback Scenario.Unmarshal
              ("Error: Unsupported argument" +:+ Scenario.nl +:+ Scenario.nl
               +:+ "  on main.tf line 4  " +:+ Scenario.nl
               +:+ "terraform validate failed: exit status 1")) as [H _].
  rewrite H; by vm_compute.
Defined.

Lemma parse_failure_is_not_line_wise :
  Strings.Contains Scenario.truncated_text Utils.valid_false_marker = true
  ∧ Scenario.Unmarshal Scenario.truncated_text = None
  ∧ Utils.parseTerraformErrors Scenario.Unmarshal Scenario.truncated_text
    = ["Failed to parse validation output: " +:+ Scenario.truncated_text]
  ∧ Spec.fallback_as_specified Scenario.truncated_text
    = ["{"; Utils.valid_false_marker +:+ ","]
  ∧ Utils.parseTerraformErrors Scenario.Unmarshal Scenario.truncated_text
    ≠ Spec.fallback_as_specified Scenario.truncated_text.
Proof. by vm_compute. Qed.

(** ** The handlers *)

(** C9, as the code has it: the health check answers 200, in both copies
    of the handler, and its status text is not the documented
    ["Service is healthy"]. *)
Theorem HealthCheck_status_text :
  Models.Code Handlers.HealthCheck = 200
  ∧ Models.JSON Handlers.HealthCheck
    = Models.HealthResponse "Service is healthy test"
  ∧ Models.JSON Handlers.HealthCheck ≠ Models.HealthResponse "Service is healthy"
  ∧ HandlersV1.HealthCheck = Handlers.HealthCheck.
Proof. by vm_compute. Qed.

Lemma SaveTerraformFile_error w code resource provider w' filePath err :
  Services.SaveTerraformFile w code resource provider
  = (w', (filePath, Some err)) →
  filePath = "".
Proof.
  unfold Services.SaveTerraformFile.
  destruct (Os.MkdirAll w _) as [w1 [?|]]; [by intros [= _ <- _]|].
  destruct (Services.GetNextAvailableFilename w1 _ _ _ _) as [p [?|]];
    [by intros [= _ <- _]|].
  destruct (Os.WriteFile w1 p code) as [w2 [?|]]; [by intros [= _ <- _]|done].
Qed.

(** The service returns a validation result exactly when it returns no
    error. *)
Lemma generateAndValidate_outcome Unmarshal env generate failed resource specs :
  (∃ cleanedCode validation,
      Services.generateAndValidate Unmarshal env generate failed resource specs
      = (cleanedCode, Some validation, None))
  ∨ (∃ cleanedCode err,
        Services.generateAndValidate Unmarshal env generate failed resource specs
        = (cleanedCode, None, Some err)).
Proof.
  unfold Services.generateAndValidate.
  destruct (generate resource specs) as [tfCode [?|]]; [by right; eexists _, _|].
  case_decide; [by right; eexists _, _|].
  destruct (Services.CleanTerraformCode tfCode) as [cleanedCode [?|]];
    [by right; eexists _, _|].
  destruct (ValidateTerraformCode_outcome Unmarshal env cleanedCode)
    as [[result ->]|[err ->]]; [left|right]; by eexists _, _.
Qed.

Lemma generateTerraform_persisted generateAndValidate provider success invalid
  w req cleanedCode validation :
  provider ≠ "" →
  Strings.TrimSpace (Models.Resource req) ≠ "" →
  Strings.TrimSpace (Models.Specs req) ≠ "" →
  generateAndValidate (Models.Resource req) (Models.Specs req)
  = (cleanedCode, Some validation, None) →
  let out :=
    Handlers.generateTerraform generateAndValidate provider success invalid
      w (req, None) in
  Spec.persisted provider success invalid w (Models.Resource req) cleanedCode
    validation out
  ∧ (Spec.file_written w out.1 → Utils.IsValid validation = true).
Proof.
  intros Hprov Hres Hspecs Hgen. cbv zeta.
  unfold Handlers.generateTerraform, Spec.persisted, Spec.file_written.
  rewrite !bool_decide_eq_false_2 by done. cbn [orb]. rewrite Hgen.
  destruct (Utils.IsValid validation) eqn:Hvalid; cbn [negb].
  - destruct (Services.SaveTerraformFile w cleanedCode (Models.Resource req)
                provider) as [w1 [filePath [err|]]] eqn:Hsave.
    + split; [|done]. right. exists err. split; [|done].
      by rewrite (SaveTerraformFile_error _ _ _ _ _ _ _ Hsave).
    + split; [|done]. left. exists filePath. split; [done|].
      apply (SaveTerraformFile_ok provider _ Hprov _ _ _ _ _ eq_refl) in Hsave
        as (i & _ & -> & -> & Hfree & _).
      apply free_true in Hfree as [_ Hnone]. done.
  - split; [done|]. simpl. done.
Qed.

(** C1 (amended).  Once the service has returned cleaned code and a
    validation result, either generating handler writes a file only when
    the result is valid.  With an invalid result it writes nothing and
    answers 201 with the cleaned code and the diagnostics.  With a valid one
    it calls [SaveTerraformFile]; when that succeeds the cleaned code is the
    content of a path that did not exist before and the answer is 200, and
    when it fails the answer is 500. *)
Theorem persistence_follows_validation Unmarshal env gen w req cleanedCode
  validation :
  Strings.TrimSpace (Models.Resource req) ≠ "" →
  Strings.TrimSpace (Models.Specs req) ≠ "" →
  (Services.GenerateAndValidate Unmarshal env gen
     (Models.Resource req) (Models.Specs req)
   = (cleanedCode, Some validation, None) →
   let out := Handlers.GenerateTerraform Unmarshal env gen w (req, None) in
   Spec.persisted "openai"
     "Terraform code generated successfully"
     "Terraform code generated with validation errors"
     w (Models.Resource req) cleanedCode validation out
   ∧ (Spec.file_written w out.1 → Utils.IsValid validation = true))
  ∧ (Services.GenerateAndValidateWithCopilot Unmarshal env gen
       (Models.Resource req) (Models.Specs req)
     = (cleanedCode, Some validation, None) →
     let out :=
       Handlers.GenerateTerraformWithCopilot Unmarshal env gen w (req, None) in
     Spec.persisted "copilot"
       "Terraform code generated successfully using GitHub Copilot"
       "Terraform code generated using GitHub Copilot with validation errors"
       w (Models.Resource req) cleanedCode validation out
     ∧ (Spec.file_written w out.1 → Utils.IsValid validation = true)).
Proof.
  intros Hres Hspecs. split; intros Hgen; by apply generateTerraform_persisted.
Qed.

Lemma persistence_follows_validation_witness :
  Strings.TrimSpace (Models.Resource Scenario.request) ≠ ""
  ∧ Strings.TrimSpace (Models.Specs Scenario.request) ≠ ""
  ∧ Spec.persisted "openai"
      "Terraform code generated successfully"
      "Terraform code generated with validation errors"
      Scenario.fresh "EC2 instance" Scenario.cleaned Scenario.accepted
      (Handlers.GenerateTerraform Scenario.Unmarshal Scenario.accepting
         Scenario.generators Scenario.fresh (Scenario.request, None)).
Proof.
  split; [by vm_compute|]. split; [by vm_compute|].
  destruct (persistence_follows_validation Scenario.Unmarshal Scenario.accepting
              Scenario.generators Scenario.fresh Scenario.request
              Scenario.cleaned Scenario.accepted) as [H _];
    [by vm_compute..|].
  apply H. by vm_compute.
Defined.

Lemma valid_code_may_stay_unsaved :
  let out :=
    Handlers.GenerateTerraform Scenario.Unmarshal Scenario.accepting
      Scenario.generators Scenario.no_mkdir (Scenario.request, None) in
  Services.GenerateAndValidate Scenario.Unmarshal Scenario.accepting
    Scenario.generators "EC2 instance" "t3.micro in us-east-1"
  = (Scenario.cleaned, Some Scenario.accepted, None)
  ∧ Utils.IsValid Scenario.accepted = true
  ∧ Os.files out.1 = Os.files Scenario.no_mkdir
  ∧ Models.Code out.2 = 500
  ∧ ¬ (Spec.file_written Scenario.no_mkdir out.1
       ↔ Utils.IsValid Scenario.accepted = true).
Proof.
  cbv zeta. split; [by vm_compute|]. split; [done|].
  split; [by vm_compute|]. split; [by vm_compute|].
  intros [_ H]. apply H; [done|]. by vm_compute.
Qed.

(** The two end-to-end scenarios of the specification, on the validating
    handler: valid code is answered with 200 and saved under
    [openai_ec2_instance_1.tf]; invalid code is answered with 201, with its
    two diagnostics, and nothing is saved. *)
Example end_to_end_valid :
  let out :=
    Handlers.GenerateTerraform Scenario.Unmarshal Scenario.accepting
      Scenario.generators Scenario.fresh (Scenario.request, None) in
  out.2 = {| Models.Code := 200;
             Models.JSON :=
               Models.TerraformResponse "Terraform code generated successfully"
                 Scenario.cleaned (Some Scenario.accepted) |}
  ∧ Os.files out.1
    = {[ "tf-generated-files/openai_ec2_instance_1.tf" := Scenario.cleaned ]}.
Proof. by vm_compute. Qed.

Example end_to_end_invalid :
  let out :=
    Handlers.GenerateTerraform Scenario.Unmarshal Scenario.rejecting
      Scenario.generators Scenario.fresh (Scenario.request, None) in
  out.2 = {| Models.Code := 201;
             Models.JSON :=
               Models.TerraformResponse
                 "Terraform code generated with validation errors"
                 Scenario.cleaned
                 (Some {| Utils.IsValid := false;
                          Utils.Errors :=
                            ["Line 4: Unsupported argument - An argument named region is not expected here.";
                             "Line 2: Missing required argument - The argument ami is required."];
                          Utils.Warnings := [];
                          Utils.Output := Scenario.report_text;
                          Utils.ExecTime := 1200 |}) |}
  ∧ Os.files out.1 = ∅.
Proof. by vm_compute. Qed.

(** The earlier handler saves what the generator returns, cleaned, without
    asking the validator. *)
Example saved_without_validation :
  let out :=
    HandlersV1.GenerateTerraform Scenario.generators Scenario.fresh
      (Scenario.request, None) in
  Models.Code out.2 = 200
  ∧ Os.files out.1 = {[ "terraform/ec2_instance_1.tf" := Scenario.cleaned ]}.
Proof. by vm_compute. Qed.


(* ===================================================================== *)
(** * Further properties of the code *)
(* ===================================================================== *)

(** ** White space at the ends of a text *)

(** One step of [runes]: the first rune, the text after it, and the fact
    that the rune is read the same way before any shorter text. *)
Lemma runes_step c s0 :
  ∃ r s',
    String c s0 = Strings.rune_bytes r +:+ s'
    ∧ Strings.runes (String c s0) = r :: Strings.runes s'
    ∧ (String.length s' ≤ String.length s0)%nat
    ∧ ∀ p q, s' = p +:+ q →
             Strings.runes (Strings.rune_bytes r +:+ p) = r :: Strings.runes p.
Proof.
  destruct (Strings.asciiSpace c) eqn:Ha.
  { exists (Strings.Space (String c "")), s0. repeat split; [|done|].
    - cbn [Strings.runes]. by rewrite Ha.
    - intros p q _. cbn [Strings.rune_bytes]. rewrite sapp_cons, sapp_nil_l.
      cbn [Strings.runes]. by rewrite Ha. }
  assert (Hother : ∀ t,
    Strings.runes (String c t) = Strings.Other c :: Strings.runes t →
    ∃ r s',
      String c t = Strings.rune_bytes r +:+ s'
      ∧ Strings.runes (String c t) = r :: Strings.runes s'
      ∧ (String.length s' ≤ String.length t)%nat
      ∧ ∀ p q, s' = p +:+ q →
               Strings.runes (Strings.rune_bytes r +:+ p) = r :: Strings.runes p).
  { intros t Ht. exists (Strings.Other c), t. repeat split; [done|done|].
    intros p q ->. cbn [Strings.rune_bytes]. rewrite sapp_cons, sapp_nil_l.
    revert Ht. cbn [Strings.runes]. rewrite Ha.
    destruct p as [|d [|e p]]; [done| |].
    - rewrite sapp_cons, sapp_nil_l. by destruct (Strings.space2 c d).
    - rewrite !sapp_cons.
      destruct (Strings.space2 c d); [done|].
      by destruct (Strings.space3 c d e). }
  destruct s0 as [|d s1].
  { apply Hother. cbn [Strings.runes]. by rewrite Ha. }
  destruct (Strings.space2 c d) eqn:H2.
  { exists (Strings.Space (String c (String d ""))), s1. repeat split.
    - cbn [Strings.runes]. by rewrite Ha, H2.
    - simpl. lia.
    - intros p q _. cbn [Strings.rune_bytes]. rewrite !sapp_cons, sapp_nil_l.
      cbn [Strings.runes]. by rewrite Ha, H2. }
  destruct s1 as [|e s2].
  { apply Hother. cbn [Strings.runes]. by rewrite Ha, H2. }
  destruct (Strings.space3 c d e) eqn:H3.
  { exists (Strings.Space (String c (String d (String e "")))), s2. repeat split.
    - cbn [Strings.runes]. by rewrite Ha, H2, H3.
    - simpl. lia.
    - intros p q _. cbn [Strings.rune_bytes]. rewrite !sapp_cons, sapp_nil_l.
      cbn [Strings.runes]. by rewrite Ha, H2, H3. }
  apply Hother. cbn [Strings.runes]. by rewrite Ha, H2, H3.
Qed.

(** The runes of a text, cut after some of them, are the runes of the bytes
    kept. *)
Lemma runes_prefix s l1 l2 :
  Strings.runes s = l1 ++ l2 → Strings.runes (Strings.bytes l1) = l1.
Proof.
  enough (G : ∀ n s l1 l2, (String.length s ≤ n)%nat →
                           Strings.runes s = l1 ++ l2 →
                           Strings.runes (Strings.bytes l1) = l1) by by eapply G.
  clear. induction n as [|n IH]; intros s [|r l1] l2 Hlen H; try done.
  - destruct s; [done|simpl in Hlen; lia].
  - destruct s as [|c s0]; [done|]. simpl in Hlen.
    destruct (runes_step c s0) as (r' & s' & _ & E & Hs' & Hpre).
    rewrite E in H. simpl in H. injection H as -> H.
    cbn [Strings.bytes].
    rewrite (Hpre (Strings.bytes l1) (Strings.bytes l2)).
    + f_equal. apply (IH s' l1 l2); [lia|done].
    + by rewrite <- bytes_app, <- H, bytes_runes.
Qed.

Lemma runes_suffix l1 : ∀ s l2,
  Strings.runes s = l1 ++ l2 → Strings.runes (Strings.bytes l2) = l2.
Proof.
  induction l1 as [|r l1 IH]; intros s l2 H.
  - simpl in H. by rewrite <- H, bytes_runes.
  - destruct s as [|c s0]; [done|].
    destruct (runes_step c s0) as (r' & s' & _ & E & _ & _).
    rewrite E in H. simpl in H. injection H as _ H. by apply (IH s').
Qed.

Lemma dropWhile_length {A} (f : A → bool) l :
  (length (Strings.dropWhile f l) ≤ length l)%nat.
Proof. induction l as [|x l IH]; simpl; [done|]. destruct (f x); simpl; lia. Qed.

Lemma dropWhile_idem {A} (f : A → bool) l :
  Strings.dropWhile f (Strings.dropWhile f l) = Strings.dropWhile f l.
Proof.
  induction l as [|x l IH]; simpl; [done|].
  destruct (f x) eqn:E; [done|]. simpl. by rewrite E.
Qed.

Lemma dropWhile_head {A} (f : A → bool) l x l' :
  Strings.dropWhile f l = x :: l' → f x = false.
Proof.
  induction l as [|y l IH]; simpl; [done|].
  destruct (f y) eqn:E; [done|]. by intros [= <- _].
Qed.

(** What [TrimSpace] returns, seen as runes: the runes of the text between
    the first and the last rune that is not white space. *)
Lemma TrimSpace_runes s :
  ∃ kept,
    Strings.TrimSpace s = Strings.bytes kept
    ∧ Strings.runes (Strings.bytes kept) = kept
    ∧ Strings.dropWhile Strings.isSpace kept = kept
    ∧ Strings.dropWhile Strings.isSpace (rev kept) = rev kept.
Proof.
  unfold Strings.TrimSpace.
  set (X := Strings.dropWhile Strings.isSpace (Strings.runes s)).
  set (Y := Strings.dropWhile Strings.isSpace (rev X)).
  exists (rev Y). split; [done|].
  destruct (dropWhile_split Strings.isSpace (Strings.runes s)) as (L & _ & EL).
  fold X in EL.
  destruct (dropWhile_split Strings.isSpace (rev X)) as (D & _ & ED).
  fold Y in ED.
  assert (EX : X = rev Y ++ rev D).
  { by rewrite <- rev_app_distr, <- ED, rev_involutive. }
  split; [|split].
  - apply (runes_prefix (Strings.bytes X) _ (rev D)).
    rewrite <- EX. by apply (runes_suffix L s).
  - destruct (rev Y) as [|y Y'] eqn:EY; [done|].
    assert (Strings.isSpace y = false) as Hy.
    { apply (dropWhile_head Strings.isSpace (Strings.runes s) y (Y' ++ rev D)).
      fold X. by rewrite EX. }
    simpl. by rewrite Hy.
  - rewrite rev_involutive. apply dropWhile_idem.
Qed.

(** [TrimSpace] has nothing left to remove from what it returns. *)
Lemma TrimSpace_idem s :
  Strings.TrimSpace (Strings.TrimSpace s) = Strings.TrimSpace s.
Proof.
  destruct (TrimSpace_runes s) as (kept & -> & Hr & Hl & Ht).
  unfold Strings.TrimSpace. by rewrite Hr, Hl, Ht, rev_involutive.
Qed.


(** ** More on the sanitizer *)

Lemma CleanTerraformCode_ok code result :
  Services.CleanTerraformCode code = (result, None) →
  result ≠ "" ∧ Strings.TrimSpace result = result ∧ code ≠ ""
  ∧ result
    = Strings.TrimSpace
        (Services.re2_ReplaceAllString (Services.re1_ReplaceAllString code)).
Proof.
  unfold Services.CleanTerraformCode.
  case_decide as Hne; [done|]. cbv zeta. case_decide as E; [done|].
  intros [= <-]. repeat split; try done. apply TrimSpace_idem.
Qed.

Lemma CleanTerraformCode_failed code result err :
  Services.CleanTerraformCode code = (result, Some err) →
  result = ""
  ∧ (code = "" ∧ err = "input code cannot be empty"
     ∨ code ≠ "" ∧ err = "cleaned code is empty after processing").
Proof.
  unfold Services.CleanTerraformCode.
  case_decide as Hne; [intros [= <- <-]; by split; [|left]|].
  cbv zeta. case_decide as E; [|done].
  intros [= <- <-]. by split; [|right].
Qed.

(** X1.  The sanitizer returns text or an error, never both: text that is not
    empty and has no white space left at its ends, or the empty text with
    one of its two errors, the first of them for the empty input only. *)
Theorem CleanTerraformCode_result code :
  match Services.CleanTerraformCode code with
  | (result, None) =>
      result ≠ "" ∧ Strings.TrimSpace result = result ∧ code ≠ ""
  | (result, Some err) =>
      result = ""
      ∧ (code = "" ∧ err = "input code cannot be empty"
         ∨ code ≠ "" ∧ err = "cleaned code is empty after processing")
  end.
Proof.
  destruct (Services.CleanTerraformCode code) as [result [err|]] eqn:E.
  - by apply CleanTerraformCode_failed in E.
  - by apply CleanTerraformCode_ok in E as (? & ? & ? & _).
Qed.

(** Every white-space rune [runes] reads is the encoding of one. *)
Lemma runes_white s :
  Forall (λ r, match r with
               | Strings.Space enc => Spec.white_space enc = true
               | Strings.Other _ => True
               end) (Strings.runes s).
Proof.
  enough (G : ∀ n s, (String.length s ≤ n)%nat →
            Forall (λ r, match r with
                         | Strings.Space enc => Spec.white_space enc = true
                         | Strings.Other _ => True
                         end) (Strings.runes s)) by by eapply G.
  clear s. induction n as [|n IH]; intros [|c s] Hlen; simpl in Hlen;
    [by constructor|lia|by constructor|].
  cbn [Strings.runes].
  destruct (Strings.asciiSpace c) eqn:Ha.
  { constructor; [done|]. apply IH. lia. }
  destruct s as [|d s]; [by repeat constructor|]. simpl in Hlen.
  destruct (Strings.space2 c d) eqn:H2.
  { constructor; [done|]. apply IH. lia. }
  destruct s as [|e s].
  { constructor; [done|]. apply (IH (String d "")). simpl. lia. }
  simpl in Hlen.
  destruct (Strings.space3 c d e) eqn:H3.
  { constructor; [done|]. apply IH. lia. }
  constructor; [done|]. apply (IH (String d (String e s))). simpl. lia.
Qed.

(** White-space runes read from a text, as the list of their encodings. *)
Lemma spaces_encodings l :
  Forall (λ r, Strings.isSpace r = true) l →
  Forall (λ r, match r with
               | Strings.Space enc => Spec.white_space enc = true
               | Strings.Other _ => True
               end) l →
  ∃ encs, Strings.bytes l = String.concat "" encs
          ∧ Forall (λ enc, Spec.white_space enc = true) encs.
Proof.
  induction l as [|r l IH]; intros Hs Hw.
  - by exists [].
  - apply Forall_cons in Hs as [Hr Hs]. apply Forall_cons in Hw as [Hwr Hw].
    destruct (IH Hs Hw) as (encs & E & Hencs).
    destruct r as [enc|b]; [|done].
    exists (enc :: encs). split; [|by constructor].
    cbn [Strings.bytes Strings.rune_bytes]. rewrite E.
    destruct encs as [|enc' encs]; [|done].
    simpl. by rewrite sapp_nil_r.
Qed.

(** [TrimSpace] removes encodings of white-space runes at both ends, and
    nothing else. *)
Lemma TrimSpace_white s :
  ∃ lead trail,
    Forall (λ enc, Spec.white_space enc = true) lead
    ∧ Forall (λ enc, Spec.white_space enc = true) trail
    ∧ s = String.concat "" lead +:+ Strings.TrimSpace s
          +:+ String.concat "" trail.
Proof.
  unfold Strings.TrimSpace.
  pose proof (runes_white s) as Hwhite.
  destruct (dropWhile_split Strings.isSpace (Strings.runes s))
    as (L & HL & EL).
  set (X := Strings.dropWhile Strings.isSpace (Strings.runes s)) in *.
  destruct (dropWhile_split Strings.isSpace (rev X)) as (D & HD & ED).
  set (Y := Strings.dropWhile Strings.isSpace (rev X)) in *.
  assert (EX : X = rev Y ++ rev D).
  { by rewrite <- rev_app_distr, <- ED, rev_involutive. }
  rewrite EL, EX in Hwhite.
  apply Forall_app in Hwhite as [HwL [_ HwD]%Forall_app].
  destruct (spaces_encodings L HL HwL) as (lead & Elead & Hlead).
  destruct (spaces_encodings (rev D)) as (trail & Etrail & Htrail);
    [by apply Forall_rev|done|].
  exists lead, trail. repeat split; [done..|].
  rewrite <- Elead, <- Etrail, <- !bytes_app, <- EX, <- EL.
  by rewrite bytes_runes.
Qed.

(** X2.  The sanitizer only removes: what it returns stands in the input as it
    is.  Before it there is an opener or nothing, and then nothing but
    encodings of white-space runes; after it there is nothing but encodings
    of white-space runes, and then a closer or nothing. *)
Theorem CleanTerraformCode_keeps_payload code result :
  Services.CleanTerraformCode code = (result, None) →
  ∃ opener lead trail closer,
    code = opener +:+ String.concat "" lead +:+ result
           +:+ String.concat "" trail +:+ closer
    ∧ opener ∈ [""; "```terraform"; "```terraform" +:+ Scenario.nl;
                "```hcl"; "```hcl" +:+ Scenario.nl]
    ∧ Forall (λ enc, Spec.white_space enc = true) lead
    ∧ Forall (λ enc, Spec.white_space enc = true) trail
    ∧ (closer = "" ∨ closer = "```").
Proof.
  intros H. apply CleanTerraformCode_ok in H as (_ & _ & _ & ->).
  set (opened := Services.re1_ReplaceAllString code).
  set (closed := Services.re2_ReplaceAllString opened).
  pose proof (re1_ReplaceAllString_spec code) as Hopen. fold opened in Hopen.
  pose proof (re2_ReplaceAllString_spec opened) as Hclose. fold closed in Hclose.
  clearbody closed. clearbody opened.
  destruct (TrimSpace_white closed) as (lead & trail & Hlead & Htrail & Ec).
  assert (∃ closer, opened = closed +:+ closer
                    ∧ (closer = "" ∨ closer = "```")) as (closer & Eo & Hcl).
  { destruct Hclose as [->|[-> _]].
    - exists "```". by split; [|right].
    - exists "". by rewrite sapp_nil_r; split; [|left]. }
  assert (∃ opener, code = opener +:+ opened
            ∧ opener ∈ [""; "```terraform"; "```terraform" +:+ Scenario.nl;
                        "```hcl"; "```hcl" +:+ Scenario.nl])
    as (opener & Eop & Hop).
  { destruct Hopen as [(tag & rest & Htag & -> & Hrest)|[-> _]].
    - destruct Htag as [-> | ->], Hrest as [->|[-> _]].
      + exists ("```terraform" +:+ Scenario.nl). split; [done|]. clear. set_solver.
      + exists "```terraform". split; [done|]. clear. set_solver.
      + exists ("```hcl" +:+ Scenario.nl). split; [done|]. clear. set_solver.
      + exists "```hcl". split; [done|]. clear. set_solver.
    - exists "". split; [done|]. clear. set_solver. }
  exists opener, lead, trail, closer. repeat split; try done.
  rewrite Eop, Eo. rewrite Ec at 1. by rewrite !sapp_assoc.
Qed.

Lemma CleanTerraformCode_keeps_payload_witness :
  Services.CleanTerraformCode
    ("```hcl" +:+ Scenario.nl +:+ " " +:+ Scenario.cleaned +:+ Scenario.nl
     +:+ "```")
  = (Scenario.cleaned, None)
  ∧ ∃ opener lead trail closer,
      "```hcl" +:+ Scenario.nl +:+ " " +:+ Scenario.cleaned +:+ Scenario.nl
      +:+ "```"
      = opener +:+ String.concat "" lead +:+ Scenario.cleaned
        +:+ String.concat "" trail +:+ closer
      ∧ opener ∈ [""; "```terraform"; "```terraform" +:+ Scenario.nl;
                  "```hcl"; "```hcl" +:+ Scenario.nl]
      ∧ Forall (λ enc, Spec.white_space enc = true) lead
      ∧ Forall (λ enc, Spec.white_space enc = true) trail
      ∧ (closer = "" ∨ closer = "```").
Proof.
  split; [by vm_compute|].
  apply (CleanTerraformCode_keeps_payload
           ("```hcl" +:+ Scenario.nl +:+ " " +:+ Scenario.cleaned
            +:+ Scenario.nl +:+ "```")
           Scenario.cleaned).
  by vm_compute.
Defined.

(** ** A closing fence that does not end the text *)

(** A back quote is no part of a white-space encoding, so the runes before
    one are read without looking at it. *)
Lemma space2_backquote c : Strings.space2 c "`" = false.
Proof. unfold Strings.space2. apply andb_false_r. Qed.

Lemma space3_backquote_2 c e : Strings.space3 c "`" e = false.
Proof.
  unfold Strings.space3. cbn [N_of_ascii N_of_digits].
  by destruct (_ =? 225)%N, (_ =? 226)%N, (_ =? 227)%N.
Qed.

Lemma space3_backquote_3 c d : Strings.space3 c d "`" = false.
Proof.
  unfold Strings.space3. cbn [N_of_ascii N_of_digits]. simpl.
  rewrite !andb_false_r. done.
Qed.

Lemma runes_app_backquote a b :
  Strings.runes (a +:+ String "`" b)
  = Strings.runes a ++ Strings.runes (String "`" b).
Proof.
  enough (G : ∀ n a, (String.length a ≤ n)%nat →
                     Strings.runes (a +:+ String "`" b)
                     = Strings.runes a ++ Strings.runes (String "`" b))
    by by eapply G.
  clear a. induction n as [|n IH]; intros [|c a] Hlen; simpl in Hlen;
    [done|lia|done|].
  rewrite sapp_cons. cbn [Strings.runes].
  destruct (Strings.asciiSpace c).
  { rewrite IH by lia. done. }
  destruct a as [|d a].
  { rewrite sapp_nil_l, space2_backquote.
    destruct b as [|e b]; [done|]. by rewrite space3_backquote_2. }
  rewrite sapp_cons. simpl in Hlen.
  destruct (Strings.space2 c d).
  { rewrite IH by lia. done. }
  destruct a as [|e a].
  { rewrite sapp_nil_l, space3_backquote_3.
    rewrite <- (sapp_nil_l (String "`" b)) at 1. rewrite <- sapp_cons.
    rewrite IH by (simpl; lia). done. }
  rewrite sapp_cons. simpl in Hlen.
  destruct (Strings.space3 c d e).
  { rewrite IH by lia. done. }
  rewrite <- !sapp_cons. rewrite IH by (simpl; lia). done.
Qed.

Lemma dropWhile_app_stop {A} (f : A → bool) l x l' :
  f x = false →
  ∃ kept, Strings.dropWhile f (l ++ x :: l') = kept ++ x :: l'.
Proof.
  intros Hx. induction l as [|y l IH]; simpl.
  - rewrite Hx. by exists [].
  - destruct (f y); [done|]. by exists (y :: l).
Qed.

(** Trimming a text that ends with the fence and one white-space byte
    removes that byte and leaves the fence. *)
Lemma TrimSpace_fence_space a c :
  Strings.asciiSpace c = true →
  ∃ kept, Strings.TrimSpace (a +:+ "```" +:+ String c "") = kept +:+ "```".
Proof.
  intros Hc. unfold Strings.TrimSpace.
  change ("```" +:+ String c "") with (String "`" (String "`" (String "`" (String c "")))).
  rewrite runes_app_backquote.
  assert (E : Strings.runes (String "`" (String "`" (String "`" (String c ""))))
              = [Strings.Other "`"; Strings.Other "`"; Strings.Other "`";
                 Strings.Space (String c "")]).
  { cbn [Strings.runes]. rewrite Hc. done. }
  rewrite E.
  destruct (dropWhile_app_stop Strings.isSpace (Strings.runes a)
              (Strings.Other "`")
              [Strings.Other "`"; Strings.Other "`"; Strings.Space (String c "")])
    as [kept ->]; [done|].
  exists (Strings.bytes kept).
  rewrite rev_app_distr. simpl.
  rewrite rev_involutive, !bytes_app. simpl.
  by rewrite !sapp_nil_r, !sapp_assoc.
Qed.

(** The closer pattern matches at the end of the text only. *)
Lemma re2_ReplaceAllString_not_at_end a c :
  c ≠ "`"%char →
  Services.re2_ReplaceAllString (a +:+ String c "") = a +:+ String c "".
Proof.
  intros Hc. induction a as [|b a IH].
  - rewrite sapp_nil_l. cbn [Services.re2_ReplaceAllString].
    by rewrite decide_False.
  - rewrite sapp_cons. cbn [Services.re2_ReplaceAllString].
    rewrite decide_False; [by rewrite IH|].
    intros [= _ E]. destruct a as [|a1 [|a2 [|a3 a]]]; try done.
    rewrite sapp_cons, sapp_nil_l in E. by injection E as _ ->.
Qed.

Lemma sapp_eq_sapp p r x t :
  p +:+ r = x +:+ t →
  (∃ m, x = p +:+ m ∧ r = m +:+ t) ∨ (∃ m, p = x +:+ m ∧ t = m +:+ r).
Proof.
  revert x. induction p as [|a p IH]; intros x E.
  - left. exists x. by rewrite !sapp_nil_l in *.
  - destruct x as [|b x].
    + right. exists (String a p). by rewrite !sapp_nil_l in *.
    + rewrite !sapp_cons in E. injection E as -> E.
      destruct (IH x E) as [(m & -> & ->)|(m & -> & ->)].
      * left. by exists m.
      * right. by exists m.
Qed.

Local Ltac peel H x :=
  repeat (destruct x as [|? x];
          [ rewrite ?sapp_nil_l in H; discriminate H
          | rewrite sapp_cons in H;
            first [discriminate H | injection H as ? H] ]).

(** No opener ends with a part of the fence: what is left after the opener
    of a text that ends with the fence and a white-space byte ends that
    way as well. *)
Lemma re1_ReplaceAllString_keeps_end body c :
  Strings.asciiSpace c = true →
  ∃ body', Services.re1_ReplaceAllString (body +:+ "```" +:+ String c "")
           = body' +:+ "```" +:+ String c "".
Proof.
  intros Hc.
  set (code := body +:+ "```" +:+ String c "").
  assert (Hopener : ∃ opener,
             code = opener +:+ Services.re1_ReplaceAllString code
             ∧ (opener = "" ∨ opener = "```terraform"
                ∨ opener = "```terraform" +:+ String "010" ""
                ∨ opener = "```hcl" ∨ opener = "```hcl" +:+ String "010" "")).
  { destruct (re1_ReplaceAllString_spec code)
      as [(tag & rest & Htag & E & [->|[-> _]])|[-> _]].
    - destruct Htag as [-> | ->].
      + exists ("```terraform" +:+ String "010" ""). split; [done|]. tauto.
      + exists ("```hcl" +:+ String "010" ""). split; [done|]. tauto.
    - destruct Htag as [-> | ->].
      + exists "```terraform". split; [done|]. tauto.
      + exists "```hcl". split; [done|]. tauto.
    - exists "". split; [by rewrite sapp_nil_l|]. tauto. }
  destruct Hopener as (opener & E & Hopener). unfold code in E at 1.
  symmetry in E. apply sapp_eq_sapp in E as [(m & _ & ->)|(m & Ho & Hm)].
  { by exists m. }
  destruct m as [|m1 [|m2 [|m3 [|m4 m]]]].
  - rewrite sapp_nil_l in Hm. exists "". by rewrite <- Hm, sapp_nil_l.
  - exfalso. injection Hm as <- _.
    destruct Hopener as [->|[->|[->|[->| ->]]]]; peel Ho body.
  - exfalso. injection Hm as <- <- _.
    destruct Hopener as [->|[->|[->|[->| ->]]]]; peel Ho body.
  - exfalso. injection Hm as <- <- <- _.
    destruct Hopener as [->|[->|[->|[->| ->]]]]; peel Ho body.
  - exfalso. injection Hm as <- <- <- <- Hm.
    destruct m; [|done].
    destruct Hopener as [->|[->|[->|[->| ->]]]]; peel Ho body.
Qed.

(** X3.  The closing fence is removed at the very end of the text only: with
    one white-space byte after it, a newline for one, the trimmed result
    still ends with the three back quotes.  The white space goes, the fence
    stays. *)
Theorem closing_fence_before_space_stays body c :
  Strings.asciiSpace c = true →
  ∃ kept,
    Services.CleanTerraformCode (body +:+ "```" +:+ String c "")
    = (kept +:+ "```", None).
Proof.
  intros Hc. unfold Services.CleanTerraformCode.
  rewrite decide_False by (by destruct body). cbv zeta.
  destruct (re1_ReplaceAllString_keeps_end body c Hc) as [body' ->].
  replace (body' +:+ "```" +:+ String c "")
    with ((body' +:+ "```") +:+ String c "") by (by rewrite sapp_assoc).
  rewrite re2_ReplaceAllString_not_at_end by (by intros ->).
  rewrite sapp_assoc.
  destruct (TrimSpace_fence_space body' c Hc) as [kept ->].
  exists kept. rewrite decide_False; [done|].
  by destruct kept.
Qed.

Lemma closing_fence_before_space_stays_witness :
  Strings.asciiSpace "010" = true
  ∧ ∃ kept,
      Services.CleanTerraformCode (Scenario.fenced +:+ Scenario.nl)
      = (kept +:+ "```", None).
Proof.
  split; [done|].
  exact (closing_fence_before_space_stays
           ("```terraform" +:+ Scenario.nl
            +:+ "resource aws_instance example {}" +:+ Scenario.nl)
           "010" eq_refl).
Defined.


(** ** More on the validator *)

Lemma fallback_lines_nonempty errors output :
  Utils.fallback_lines errors output ≠ [].
Proof.
  unfold Utils.fallback_lines.
  destruct (Utils.lines_loop errors _) as [|m ms]; simpl; done.
Qed.

(** X4.  Diagnostic extraction never comes back empty-handed: whatever the
    output and whether or not it parses, there is at least one message. *)
Theorem parseTerraformErrors_nonempty Unmarshal output :
  Utils.parseTerraformErrors Unmarshal output ≠ [].
Proof.
  unfold Utils.parseTerraformErrors.
  destruct (Strings.Contains output Utils.valid_false_marker);
    [|apply fallback_lines_nonempty].
  destruct (Utils.parseJSONErrors Unmarshal output) as [|m ms]; simpl; [|done].
  apply fallback_lines_nonempty.
Qed.

(** X5.  [parseJSONErrors] has no message exactly for an output that parses to a
    document that says valid and has no diagnostic of severity error; an
    output that does not parse gives the one message that says so. *)
Theorem parseJSONErrors_empty_iff Unmarshal jsonOutput :
  (Utils.parseJSONErrors Unmarshal jsonOutput = []
   ↔ ∃ doc, Unmarshal jsonOutput = Some doc
            ∧ Utils.Valid doc = true
            ∧ Forall (λ d, Utils.Severity d ≠ "error") (Utils.Diagnostics doc))
  ∧ (Unmarshal jsonOutput = None →
     Utils.parseJSONErrors Unmarshal jsonOutput
     = ["Failed to parse validation output: " +:+ jsonOutput]).
Proof.
  split; [|by unfold Utils.parseJSONErrors; intros ->].
  destruct (Unmarshal jsonOutput) as [doc|] eqn:E.
  - rewrite (parseJSONErrors_spec _ _ _ E). unfold Spec.error_messages.
    split.
    + intros H. exists doc. split; [done|].
      destruct (filter _ (Utils.Diagnostics doc)) as [|d ds] eqn:Ef; [|done].
      split; [by destruct (Utils.Valid doc)|].
      apply Forall_forall. intros d Hd Hsev.
      assert (d ∈ filter (λ d, Utils.Severity d = "error") (Utils.Diagnostics doc))
        as Hin by by apply list_elem_of_filter.
      rewrite Ef in Hin. by apply elem_of_nil in Hin.
    + intros (doc' & [= <-] & Hvalid & Hnone).
      assert (filter (λ d, Utils.Severity d = "error") (Utils.Diagnostics doc) = [])
        as ->.
      { induction Hnone as [|d ds Hd _ IH]; [done|].
        rewrite filter_cons, decide_False by done. done. }
      simpl. by rewrite Hvalid.
  - unfold Utils.parseJSONErrors. rewrite E. split; [done|].
    by intros (doc & [=] & _).
Qed.

(** X6.  A result of the validator is valid exactly when it carries no error:
    every result that is not valid names at least one error. *)
Theorem invalid_result_has_errors Unmarshal env terraformCode result err :
  Utils.ValidateTerraformCode Unmarshal env terraformCode = (Some result, err) →
  (Utils.IsValid result = false ↔ Utils.Errors result ≠ []).
Proof.
  unfold Utils.ValidateTerraformCode.
  destruct (negb (Utils.isTerraformInstalled env)).
  { by intros [= <- _]. }
  destruct (Utils.createTempTerraformDir env terraformCode) as [? [?|]]; [done|].
  destruct (Utils.runTerraformInit env terraformCode) as [? [?|]].
  { by intros [= <- _]. }
  destruct (Utils.runTerraformValidate env terraformCode) as [out [?|]].
  - intros [= <- _]. simpl. split; [|done]. intros _.
    unfold Utils.parseTerraformErrors.
    destruct (Strings.Contains out Utils.valid_false_marker);
      [|apply fallback_lines_nonempty].
    destruct (Utils.parseJSONErrors Unmarshal out) as [|m ms]; simpl; [|done].
    apply fallback_lines_nonempty.
  - by intros [= <- _].
Qed.

Lemma invalid_result_has_errors_witness :
  ∃ result,
    Utils.ValidateTerraformCode Scenario.Unmarshal Scenario.rejecting
      "resource aws_instance example {}" = (Some result, None)
    ∧ (Utils.IsValid result = false ↔ Utils.Errors result ≠ [])
    ∧ length (Utils.Errors result) = 2%nat.
Proof.
  eexists. split; [by vm_compute|]. split; [|done].
  by apply (invalid_result_has_errors Scenario.Unmarshal Scenario.rejecting
              "resource aws_instance example {}" _ None).
Defined.

(** X7.  The validator says valid exactly when terraform is found, the workspace
    is created, and [init] and [validate] both end without error; the
    output kept is then that of [validate]. *)
Theorem valid_iff_all_steps_pass Unmarshal env terraformCode :
  (∃ result,
      Utils.ValidateTerraformCode Unmarshal env terraformCode
      = (Some result, None)
      ∧ Utils.IsValid result = true)
  ↔ Utils.LookPath env "terraform" = None
    ∧ (Utils.createTempTerraformDir env terraformCode).2 = None
    ∧ (Utils.runTerraformInit env terraformCode).2 = None
    ∧ (Utils.runTerraformValidate env terraformCode).2 = None.
Proof.
  unfold Utils.ValidateTerraformCode, Utils.isTerraformInstalled.
  destruct (Utils.LookPath env "terraform"); simpl.
  { split; [by intros (r & [= <-] & ?)|by intros [? _]]. }
  destruct (Utils.createTempTerraformDir env terraformCode) as [? [?|]]; simpl.
  { split; [by intros (r & [=] & ?)|by intros (_ & ? & _)]. }
  destruct (Utils.runTerraformInit env terraformCode) as [? [?|]]; simpl.
  { split; [by intros (r & [= <-] & ?)|by intros (_ & _ & ? & _)]. }
  destruct (Utils.runTerraformValidate env terraformCode) as [? [?|]]; simpl.
  { split; [by intros (r & [= <-] & ?)|by intros (_ & _ & _ & ?)]. }
  split; [done|]. intros _. by eexists.
Qed.


(** X9.  When [init] fails, [validate] is not run: the result is the same
    whatever [validate] would have said, it is not valid, its one error
    carries the failure of [init] behind both prefixes, and its output is
    the output of [init]. *)
Theorem init_failure_ends_validation Unmarshal env terraformCode initOutput cause :
  Utils.LookPath env "terraform" = None →
  (Utils.createTempTerraformDir env terraformCode).2 = None →
  Utils.CombinedOutput env ["init"; "-no-color"] terraformCode
  = (initOutput, Some cause) →
  Utils.ValidateTerraformCode Unmarshal env terraformCode
  = (Some {| Utils.IsValid := false;
             Utils.Errors :=
               ["Terraform init failed: terraform init failed: " +:+ cause];
             Utils.Warnings := [];
             Utils.Output := initOutput;
             Utils.ExecTime := Utils.Milliseconds env |}, None).
Proof.
  intros Hlook Htemp Hinit.
  unfold Utils.ValidateTerraformCode, Utils.isTerraformInstalled,
    Utils.runTerraformInit.
  rewrite Hlook, Hinit. simpl.
  destruct (Utils.createTempTerraformDir env terraformCode) as [? [?|]];
    [done|]. done.
Qed.

Lemma init_failure_ends_validation_witness :
  Utils.LookPath Fixture.failing_init "terraform" = None
  ∧ (Utils.createTempTerraformDir Fixture.failing_init "resource x {}").2 = None
  ∧ Utils.ValidateTerraformCode Scenario.Unmarshal Fixture.failing_init
      "resource x {}"
    = (Some {| Utils.IsValid := false;
               Utils.Errors :=
                 ["Terraform init failed: terraform init failed: exit status 1"];
               Utils.Warnings := [];
               Utils.Output := "Error: Failed to query available provider packages";
               Utils.ExecTime := 800 |}, None).
Proof.
  split; [done|]. split; [done|].
  by apply (init_failure_ends_validation Scenario.Unmarshal Fixture.failing_init
              "resource x {}"
              "Error: Failed to query available provider packages"
              "exit status 1").
Defined.


(** ** More on the allocator and the save *)

Lemma ToLower_bytes f g s :
  (∀ c, f c = true → g (Strings.lower c) = true) →
  Spec.all_bytes f s = true → Spec.all_bytes g (Strings.ToLower s) = true.
Proof.
  intros Hfg. induction s as [|c s IH]; [done|]. simpl.
  intros [Hc Hs]%andb_true_iff. by rewrite (Hfg c Hc), IH.
Qed.

(** X10.  The base name is never empty and is made of lower-case letters, digits
    and underscores only, whatever the resource text: no separator, no dot,
    no byte outside ASCII reaches the file name through it. *)
Theorem baseName_charset resourceText :
  Services.baseName resourceText ≠ ""
  ∧ Spec.all_bytes
      (λ c, let n := N_of_ascii c in
            ((97 <=? n) && (n <=? 122) || (48 <=? n) && (n <=? 57) || (n =? 95))%N)
      (Services.baseName resourceText) = true.
Proof.
  unfold Services.baseName. cbv zeta.
  case_decide as E; [done|]. split; [done|].
  eapply ToLower_bytes; [|apply re_ReplaceAllString_word].
  intros c. destruct c as [[] [] [] [] [] [] [] []]; by vm_compute.
Qed.

Lemma Clean_not_empty path : Filepath.Clean path ≠ "".
Proof.
  unfold Filepath.Clean. case_decide; [done|].
  destruct (Filepath.rooted path); [done|]. by case_decide.
Qed.

Lemma candidate_at_not_empty dir stem ext index :
  dir ≠ "" → Spec.candidate_at dir stem ext index ≠ "".
Proof.
  intros Hdir. unfold Spec.candidate_at, Filepath.Join.
  rewrite decide_False by done. apply Clean_not_empty.
Qed.

(** X11.  The allocator fails in four ways and in this order: an empty
    directory, an empty extension, an empty provider, and 10000 paths all
    taken; the path next to an error is empty.  A path it returns is never
    empty and its probe has reported that nothing is there. *)
Theorem GetNextAvailableFilename_outcome w dir resourceText provider ext :
  match Services.GetNextAvailableFilename w dir resourceText provider ext with
  | (filePath, None) =>
      dir ≠ "" ∧ ext ≠ "" ∧ provider ≠ ""
      ∧ filePath ≠ "" ∧ Spec.free w filePath = true
  | (filePath, Some err) =>
      filePath = ""
      ∧ (dir = "" ∧ err = "directory cannot be empty"
         ∨ dir ≠ "" ∧ ext = "" ∧ err = "extension cannot be empty"
         ∨ dir ≠ "" ∧ ext ≠ "" ∧ provider = ""
           ∧ err = "provider cannot be empty"
         ∨ dir ≠ "" ∧ ext ≠ "" ∧ provider ≠ ""
           ∧ err = "failed to find available filename after 10000 attempts"
           ∧ ∀ i, 1 ≤ i ≤ 10000 →
                  Spec.free w (Spec.candidate dir resourceText provider ext i)
                  = false)
  end.
Proof.
  destruct (decide (dir = "")) as [->|Hdir]; [by split; [|left]|].
  destruct (decide (ext = "")) as [->|Hext].
  { unfold Services.GetNextAvailableFilename.
    rewrite decide_False by done. simpl. split; [done|]. right. by left. }
  destruct (decide (provider = "")) as [->|Hprov].
  { unfold Services.GetNextAvailableFilename.
    rewrite !decide_False by done. simpl. split; [done|]. do 2 right. by left. }
  destruct (GetNextAvailableFilename_spec w dir resourceText provider ext
              Hdir Hext Hprov) as [(i & Hi & -> & Hfree & _)|[-> Hnone]].
  - repeat split; try done. by apply candidate_at_not_empty.
  - split; [done|]. do 3 right. done.
Qed.

Lemma SaveTerraformFile_cases w code resource provider :
  let out := Services.SaveTerraformFile w code resource provider in
  out.1 = w
  ∨ ∃ filePath data,
      Os.files w !! filePath = None
      ∧ out.1 = Os.with_files w (<[filePath := data]> (Os.files w)).
Proof.
  cbv zeta. unfold Services.SaveTerraformFile, Os.MkdirAll.
  destruct (Os.mkdir_fault w "tf-generated-files"); [by left|].
  destruct (decide (provider = "")) as [->|Hprov]; [by left|].
  destruct (GetNextAvailableFilename_spec w "tf-generated-files" resource
              provider ".tf") as [(i & _ & -> & [_ Hnone]%free_true & _)|[-> _]];
    [done..| |by left].
  unfold Os.WriteFile.
  destruct (Os.write_fault w _) as [[f|n f]|]; simpl;
    [by left|right; by eexists _, _..].
Qed.

Lemma SaveTerraformFile_subseteq w code resource provider :
  Os.files w ⊆ Os.files (Services.SaveTerraformFile w code resource provider).1.
Proof.
  destruct (SaveTerraformFile_cases w code resource provider)
    as [->|(p & d & Hnone & ->)]; [done|]. by apply insert_subseteq.
Qed.

(** X12.  A save never touches a file that exists: whether it succeeds or
    fails, and at whatever step, every path that held a file before the
    call holds the same content after it. *)
Theorem SaveTerraformFile_keeps_files w code resource provider path content :
  Os.files w !! path = Some content →
  Os.files (Services.SaveTerraformFile w code resource provider).1 !! path
  = Some content.
Proof.
  intros Hbefore.
  destruct (SaveTerraformFile_cases w code resource provider)
    as [->|(p & d & Hnone & ->)]; [done|]. simpl.
  rewrite lookup_insert_ne; [done|]. intros ->. by rewrite Hnone in Hbefore.
Qed.

Lemma SaveTerraformFile_keeps_files_witness :
  Os.files
    (Services.SaveTerraformFile Fixture.short_write "resource {}"
       "EC2 instance" "openai").1
  !! "tf-generated-files/openai_ec2_instance_1.tf"
  = Some "old".
Proof.
  apply (SaveTerraformFile_keeps_files Fixture.short_write "resource {}"
           "EC2 instance" "openai"
           "tf-generated-files/openai_ec2_instance_1.tf" "old").
  done.
Defined.

(** With the directory made, the save is the write at the first free
    path. *)
Lemma SaveTerraformFile_first_free w code resource provider i :
  let path := Spec.candidate "tf-generated-files" resource provider ".tf" in
  provider ≠ "" →
  Os.mkdir_fault w "tf-generated-files" = None →
  1 ≤ i ≤ 10000 → Spec.free w (path i) = true →
  (∀ j, 1 ≤ j < i → Spec.free w (path j) = false) →
  Services.SaveTerraformFile w code resource provider
  = match Os.WriteFile w (path i) code with
    | (w', Some err) =>
        (w', ("", Some ("failed to write terraform file: " +:+ Os.Error err)))
    | (w', None) => (w', (path i, None))
    end.
Proof.
  intros path Hprov Hmk Hi Hfree Hlow.
  unfold Services.SaveTerraformFile, Os.MkdirAll. rewrite Hmk.
  destruct (GetNextAvailableFilename_spec w "tf-generated-files" resource
              provider ".tf") as [(k & Hk & E & Hfk & Hlk)|[E Hnone]];
    [done..| |]; rewrite E; subst path; cbv zeta in *.
  - assert (k = i) as ->; [|done].
    destruct (Z.lt_trichotomy i k) as [Hlt|[->|Hgt]]; [|done|].
    + rewrite Hlk in Hfree by lia. done.
    + rewrite Hlow in Hfk by lia. done.
  - rewrite Hnone in Hfree by lia. done.
Qed.



(** X14.  A write that fails part of the way is not undone: the save returns its
    error, the path keeps the bytes written, and being there it is taken
    for the calls that follow. *)
Theorem failed_write_leaves_file w code resource provider i written fault :
  let path := Spec.candidate "tf-generated-files" resource provider ".tf" in
  provider ≠ "" →
  Os.mkdir_fault w "tf-generated-files" = None →
  1 ≤ i ≤ 10000 → Spec.free w (path i) = true →
  (∀ j, 1 ≤ j < i → Spec.free w (path j) = false) →
  Os.write_fault w (path i) = Some (Os.WriteFails written fault) →
  let out := Services.SaveTerraformFile w code resource provider in
  out.2 = ("", Some ("failed to write terraform file: write " +:+ path i
                     +:+ ": " +:+ Os.strerror (Os.Failed fault)))
  ∧ Os.files out.1 !! path i = Some (Os.take_bytes written code)
  ∧ ∀ j, 1 ≤ j ≤ i → Spec.free out.1 (path j) = false.
Proof.
  intros path Hprov Hmk Hi Hfree Hlow Hw. cbv zeta.
  rewrite (SaveTerraformFile_first_free w code resource provider i) by done.
  subst path. unfold Os.WriteFile. rewrite Hw. simpl.
  split; [done|]. split; [by rewrite lookup_insert_eq|].
  intros j Hj. unfold Spec.candidate in *.
  rewrite (free_written provider (Services.baseName resource) w i
             (Os.take_bytes written code)).
  destruct (decide (j = i)) as [->|].
  - by rewrite bool_decide_eq_true_2, andb_false_r.
  - rewrite Hlow by lia. done.
Qed.

Lemma failed_write_leaves_file_witness :
  let out :=
    Services.SaveTerraformFile Fixture.short_write "resource x {}"
      "EC2 instance" "openai" in
  "openai" ≠ ""
  ∧ out.2 = ("", Some "failed to write terraform file: write tf-generated-files/openai_ec2_instance_2.tf: no space left on device")
  ∧ Os.files out.1 !! "tf-generated-files/openai_ec2_instance_2.tf" = Some "res".
Proof.
  cbv zeta. split; [done|].
  destruct (failed_write_leaves_file Fixture.short_write "resource x {}"
              "EC2 instance" "openai" 2 3%nat Os.ENOSPC) as (H1 & H2 & _);
    [done|done|lia|by vm_compute| |done|].
  - intros j Hj. assert (j = 1) as -> by lia. by vm_compute.
  - split; [by rewrite H1; vm_compute|]. by vm_compute.
Defined.


(** ** File names tell provider, base name and index apart *)

Lemma cut_at_first sep a b x y :
  Spec.all_bytes (λ c, negb (bool_decide (c = sep))) a = true →
  Spec.all_bytes (λ c, negb (bool_decide (c = sep))) b = true →
  a +:+ String sep x = b +:+ String sep y → a = b ∧ x = y.
Proof.
  revert b. induction a as [|c a IH]; intros [|c' b] Ha Hb H.
  - rewrite !sapp_nil_l in H. by injection H.
  - rewrite sapp_nil_l, sapp_cons in H. injection H as <- _.
    simpl in Hb. by rewrite bool_decide_eq_true_2 in Hb.
  - rewrite sapp_nil_l, sapp_cons in H. injection H as -> _.
    simpl in Ha. by rewrite bool_decide_eq_true_2 in Ha.
  - rewrite !sapp_cons in H. injection H as -> H.
    simpl in Ha, Hb. apply andb_true_iff in Ha as [_ Ha].
    apply andb_true_iff in Hb as [_ Hb].
    destruct (IH b Ha Hb H) as [-> ->]. done.
Qed.

Lemma cut_at_last sep a b x y :
  Spec.all_bytes (λ c, negb (bool_decide (c = sep))) x = true →
  Spec.all_bytes (λ c, negb (bool_decide (c = sep))) y = true →
  a +:+ String sep x = b +:+ String sep y → a = b ∧ x = y.
Proof.
  intros Hx Hy. revert b. induction a as [|c a IH]; intros [|c' b] H.
  - rewrite !sapp_nil_l in H. by injection H.
  - rewrite sapp_nil_l, sapp_cons in H. injection H as _ H.
    rewrite H, all_bytes_app in Hx. simpl in Hx.
    rewrite bool_decide_eq_true_2 in Hx by done.
    by rewrite andb_false_r in Hx.
  - rewrite sapp_nil_l, sapp_cons in H. injection H as _ H.
    rewrite <- H, all_bytes_app in Hy. simpl in Hy.
    rewrite bool_decide_eq_true_2 in Hy by done.
    by rewrite andb_false_r in Hy.
  - rewrite !sapp_cons in H. injection H as -> H.
    destruct (IH b H) as [-> ->]. done.
Qed.

Lemma itoa_underscore_free n :
  Spec.all_bytes (λ c, negb (bool_decide (c = "_"%char))) (itoa n) = true.
Proof.
  apply itoa_bytes; [|done].
  intros c Hc. apply negb_true_iff, bool_decide_eq_false. intros ->.
  simpl in Hc. lia.
Qed.

(** X15.  In a directory of proper elements, for providers without underscore
    and separator, a path tells its provider, its base name and its index:
    the files of two providers never meet, and the files of two resources
    meet only when their base names are the same. *)
Theorem path_tells_provider_base_index dir ext
  resource1 provider1 index1 resource2 provider2 index2 :
  Forall Spec.proper (Strings.Split1 dir "/") →
  Spec.slash_free ext = true →
  Spec.slash_free provider1 = true → Spec.slash_free provider2 = true →
  Spec.all_bytes (λ c, negb (bool_decide (c = "_"%char))) provider1 = true →
  Spec.all_bytes (λ c, negb (bool_decide (c = "_"%char))) provider2 = true →
  Spec.candidate dir resource1 provider1 ext index1
  = Spec.candidate dir resource2 provider2 ext index2 →
  provider1 = provider2
  ∧ Services.baseName resource1 = Services.baseName resource2
  ∧ index1 = index2.
Proof.
  intros Hdir Hext Hs1 Hs2 Hu1 Hu2.
  rewrite !candidate_literal by done.
  intros H%String.app_inj.
  change ("/" +:+ ?x) with (String "/" x) in H. injection H as H.
  rewrite <- !sapp_assoc in H. apply sapp_inv_tail in H.
  rewrite !sapp_assoc in H.
  change ("_" +:+ ?x) with (String "_" x) in H.
  apply cut_at_first in H as [-> H]; [|done..]. split; [done|].
  apply cut_at_last in H as [-> H%itoa_inj]; [done|..];
    apply itoa_underscore_free.
Qed.

Lemma path_tells_provider_base_index_witness :
  Forall Spec.proper (Strings.Split1 "tf-generated-files" "/")
  ∧ Spec.candidate "tf-generated-files" "EC2 instance" "openai" ".tf" 3
    ≠ Spec.candidate "tf-generated-files" "EC2 instance" "copilot" ".tf" 3.
Proof.
  assert (H : Forall Spec.proper (Strings.Split1 "tf-generated-files" "/")).
  { repeat constructor; done. }
  split; [done|]. intros E.
  by destruct (path_tells_provider_base_index "tf-generated-files" ".tf"
                 "EC2 instance" "openai" 3 "EC2 instance" "copilot" 3
                 H eq_refl eq_refl eq_refl eq_refl eq_refl E) as [? _].
Defined.


(** ** More on the handlers *)

(** The validating handlers seen from their answer.  [service] is the call
    of the service the handler makes. *)
Lemma generateTerraform_answer service provider success invalid w bound :
  provider ≠ "" →
  let out :=
    Handlers.generateTerraform service provider success invalid w bound in
  let refused :=
    bound.2 ≠ None
    ∨ Strings.TrimSpace (Models.Resource bound.1) = ""
    ∨ Strings.TrimSpace (Models.Specs bound.1) = "" in
  Os.files w ⊆ Os.files out.1
  ∧ (Models.Code out.2 = 400 ↔ refused)
  ∧ (refused → out.1 = w)
  ∧ (Models.Code out.2 = 200 →
     ∃ cleanedCode validation filePath,
       service (Models.Resource bound.1) (Models.Specs bound.1)
       = (cleanedCode, Some validation, None)
       ∧ Utils.IsValid validation = true
       ∧ Os.files w !! filePath = None
       ∧ Os.files out.1 = <[filePath := cleanedCode]> (Os.files w)
       ∧ Models.JSON out.2
         = Models.TerraformResponse success cleanedCode (Some validation))
  ∧ (Models.Code out.2 = 201 →
     out.1 = w
     ∧ ∃ cleanedCode validation,
         service (Models.Resource bound.1) (Models.Specs bound.1)
         = (cleanedCode, Some validation, None)
         ∧ Utils.IsValid validation = false
         ∧ Models.JSON out.2
           = Models.TerraformResponse invalid cleanedCode (Some validation))
  ∧ (Models.Code out.2 = 200 ∨ Models.Code out.2 = 201
     ∨ Models.Code out.2 = 400 ∨ Models.Code out.2 = 500)
  ∧ (Spec.file_written w out.1 →
     ¬ refused
     ∧ ∃ cleanedCode validation,
         service (Models.Resource bound.1) (Models.Specs bound.1)
         = (cleanedCode, Some validation, None)
         ∧ Utils.IsValid validation = true).
Proof.
  intros Hprov. cbv zeta. unfold Handlers.generateTerraform, Spec.file_written.
  cbv [Http.StatusOK Http.StatusCreated Http.StatusBadRequest
       Http.StatusInternalServerError].
  destruct bound as [req [err|]]; simpl.
  { repeat split; try done; try (by intros [=]); try (by left).
    by do 2 right; left. }
  destruct (decide (Strings.TrimSpace (Models.Resource req) = "")) as [E1|E1].
  { rewrite bool_decide_eq_true_2 by done. simpl.
    repeat split; try done; try (by intros [=]); try (by right; left).
    by do 2 right; left. }
  destruct (decide (Strings.TrimSpace (Models.Specs req) = "")) as [E2|E2].
  { rewrite bool_decide_eq_false_2, bool_decide_eq_true_2 by done. simpl.
    repeat split; try done; try (by intros [=]); try (by do 2 right).
    by do 2 right; left. }
  rewrite !bool_decide_eq_false_2 by done. simpl.
  assert (Hnot : ¬ ((None : option error) ≠ None
                    ∨ Strings.TrimSpace (Models.Resource req) = ""
                    ∨ Strings.TrimSpace (Models.Specs req) = "")).
  { by intros [?|[?|?]]. }
  destruct (service (Models.Resource req) (Models.Specs req))
    as [[cleanedCode [validation|]] [err|]]; simpl.
  - repeat split; try done; try (by intros [=]). by do 3 right.
  - destruct (Utils.IsValid validation) eqn:Hvalid; simpl.
    + destruct (Services.SaveTerraformFile w cleanedCode (Models.Resource req)
                  provider) as [w1 [filePath [err|]]] eqn:Hsave.
      * pose proof (SaveTerraformFile_subseteq w cleanedCode
                      (Models.Resource req) provider) as Hsub.
        rewrite Hsave in Hsub. simpl.
        repeat split; try done; try (by intros [=]).
        -- by do 3 right.
        -- by exists cleanedCode, validation.
      * pose proof Hsave as Hsave'.
        apply (SaveTerraformFile_ok provider _ Hprov _ _ _ _ _ eq_refl) in Hsave
          as (i & _ & -> & -> & [_ Hnone]%free_true & _). simpl.
        repeat split; try done; try (by intros [=]).
        -- by apply insert_subseteq.
        -- intros _. by eexists cleanedCode, validation, _.
        -- by left.
        -- by exists cleanedCode, validation.
    + repeat split; try done; try (by intros [=]).
      * by exists cleanedCode, validation.
      * by right; left.
  - repeat split; try done; try (by intros [=]). by do 3 right.
  - repeat split; try done; try (by intros [=]). by do 3 right.
Qed.


(** X16.  A request that does not bind, or whose resource or specs are blank, is
    answered with 400 by both generating handlers, and only such a request
    is; the file system is then left as it was. *)
Theorem bad_request_is_refused Unmarshal env gen handler w bound :
  handler = Handlers.GenerateTerraform Unmarshal env gen
  ∨ handler = Handlers.GenerateTerraformWithCopilot Unmarshal env gen →
  let refused :=
    bound.2 ≠ None
    ∨ Strings.TrimSpace (Models.Resource bound.1) = ""
    ∨ Strings.TrimSpace (Models.Specs bound.1) = "" in
  (Models.Code (handler w bound).2 = 400 ↔ refused)
  ∧ (refused → (handler w bound).1 = w).
Proof.
  intros [-> | ->]; cbv zeta;
    [pose proof (generateTerraform_answer
                   (Services.GenerateAndValidate Unmarshal env gen) "openai"
                   "Terraform code generated successfully"
                   "Terraform code generated with validation errors"
                   w bound ltac:(done)) as H
    |pose proof (generateTerraform_answer
                   (Services.GenerateAndValidateWithCopilot Unmarshal env gen)
                   "copilot"
                   "Terraform code generated successfully using GitHub Copilot"
                   "Terraform code generated using GitHub Copilot with validation errors"
                   w bound ltac:(done)) as H];
    cbv zeta in H; by destruct H as (_ & H1 & H2 & _).
Qed.

Lemma bad_request_is_refused_witness :
  let bound : Models.TerraformRequest * option error :=
    ({| Models.Resource := "EC2 instance"; Models.Specs := "   " |}, None) in
  Models.Code
    (Handlers.GenerateTerraform Scenario.Unmarshal Scenario.accepting
       Scenario.generators Scenario.fresh bound).2 = 400.
Proof.
  cbv zeta.
  destruct (bad_request_is_refused Scenario.Unmarshal Scenario.accepting
              Scenario.generators
              (Handlers.GenerateTerraform Scenario.Unmarshal Scenario.accepting
                 Scenario.generators)
              Scenario.fresh
              ({| Models.Resource := "EC2 instance"; Models.Specs := "   " |}, None))
    as [H _]; [by left|].
  apply H. do 2 right. by vm_compute.
Defined.

(** X17.  What the answer of a generating handler tells.  200: the service
    returned a valid result and the cleaned code is now the content of a
    path that did not exist; 201: the result was not valid and nothing was
    written.  There is no other answer than 200, 201, 400 and 500; no file
    that existed is touched; and a file appears only after a valid
    result. *)
Theorem answer_tells_outcome Unmarshal env gen handler service w bound :
  handler = Handlers.GenerateTerraform Unmarshal env gen
  ∧ service = Services.GenerateAndValidate Unmarshal env gen
  ∨ handler = Handlers.GenerateTerraformWithCopilot Unmarshal env gen
    ∧ service = Services.GenerateAndValidateWithCopilot Unmarshal env gen →
  let out := handler w bound in
  Os.files w ⊆ Os.files out.1
  ∧ (Models.Code out.2 = 200 →
     ∃ cleanedCode validation filePath message,
       service (Models.Resource bound.1) (Models.Specs bound.1)
       = (cleanedCode, Some validation, None)
       ∧ Utils.IsValid validation = true
       ∧ Os.files w !! filePath = None
       ∧ Os.files out.1 = <[filePath := cleanedCode]> (Os.files w)
       ∧ Models.JSON out.2
         = Models.TerraformResponse message cleanedCode (Some validation))
  ∧ (Models.Code out.2 = 201 →
     out.1 = w
     ∧ ∃ cleanedCode validation message,
         service (Models.Resource bound.1) (Models.Specs bound.1)
         = (cleanedCode, Some validation, None)
         ∧ Utils.IsValid validation = false
         ∧ Models.JSON out.2
           = Models.TerraformResponse message cleanedCode (Some validation))
  ∧ (Models.Code out.2 = 200 ∨ Models.Code out.2 = 201
     ∨ Models.Code out.2 = 400 ∨ Models.Code out.2 = 500)
  ∧ (Spec.file_written w out.1 →
     ∃ cleanedCode validation,
       service (Models.Resource bound.1) (Models.Specs bound.1)
       = (cleanedCode, Some validation, None)
       ∧ Utils.IsValid validation = true).
Proof.
  intros [[-> ->] | [-> ->]]; cbv zeta;
    [pose proof (generateTerraform_answer
                   (Services.GenerateAndValidate Unmarshal env gen) "openai"
                   "Terraform code generated successfully"
                   "Terraform code generated with validation errors"
                   w bound ltac:(done)) as H
    |pose proof (generateTerraform_answer
                   (Services.GenerateAndValidateWithCopilot Unmarshal env gen)
                   "copilot"
                   "Terraform code generated successfully using GitHub Copilot"
                   "Terraform code generated using GitHub Copilot with validation errors"
                   w bound ltac:(done)) as H];
    cbv zeta in H; destruct H as (H1 & _ & _ & H200 & H201 & Hcodes & Hw);
    (split; [done|]); (split; [|split; [|split; [done|]]]).
  - intros (c & v & p & ?)%H200. by eexists c, v, p, _.
  - intros [? (c & v & ?)]%H201. split; [done|]. by eexists c, v, _.
  - by intros [_ ?]%Hw.
  - intros (c & v & p & ?)%H200. by eexists c, v, p, _.
  - intros [? (c & v & ?)]%H201. split; [done|]. by eexists c, v, _.
  - by intros [_ ?]%Hw.
Qed.

Lemma answer_tells_outcome_witness :
  let out :=
    Handlers.GenerateTerraform Scenario.Unmarshal Scenario.rejecting
      Scenario.generators Scenario.fresh (Scenario.request, None) in
  Models.Code out.2 = 201 ∧ out.1 = Scenario.fresh.
Proof.
  cbv zeta.
  destruct (answer_tells_outcome Scenario.Unmarshal Scenario.rejecting
              Scenario.generators
              (Handlers.GenerateTerraform Scenario.Unmarshal Scenario.rejecting
                 Scenario.generators)
              (Services.GenerateAndValidate Scenario.Unmarshal
                 Scenario.rejecting Scenario.generators)
              Scenario.fresh (Scenario.request, None))
    as (_ & _ & H & _); [by left|].
  assert (E : Models.Code
                (Handlers.GenerateTerraform Scenario.Unmarshal Scenario.rejecting
                   Scenario.generators Scenario.fresh (Scenario.request, None)).2
              = 201) by by vm_compute.
  split; [done|]. by destruct (H E).
Defined.

(** X18.  The validation endpoint: 400 exactly for a request that does not bind
    or whose code is blank; otherwise the code goes to the validator as it
    was sent, and the answer is 200 for a valid result, 422 for one that is
    not valid, both with the result in the body, and 500 for an error of
    the validator. *)
Theorem ValidateTerraform_answer Unmarshal env bound :
  let resp := Handlers.ValidateTerraform Unmarshal env bound in
  let refused :=
    bound.2 ≠ None ∨ Strings.TrimSpace (Models.TerraformCode bound.1) = "" in
  let validated :=
    Utils.ValidateTerraformCode Unmarshal env (Models.TerraformCode bound.1) in
  (Models.Code resp = 400 ↔ refused)
  ∧ (Models.Code resp = 200 ↔
     ¬ refused ∧ ∃ validation, validated = (Some validation, None)
                               ∧ Utils.IsValid validation = true)
  ∧ (Models.Code resp = 422 ↔
     ¬ refused ∧ ∃ validation, validated = (Some validation, None)
                               ∧ Utils.IsValid validation = false)
  ∧ (Models.Code resp = 500 ↔ ¬ refused ∧ ∃ err, validated.2 = Some err)
  ∧ (Models.Code resp = 200 ∨ Models.Code resp = 422 →
     Models.JSON resp
     = Models.ValidationResponse "Terraform validation completed" validated.1).
Proof.
  cbv zeta. unfold Handlers.ValidateTerraform.
  cbv [Http.StatusOK Http.StatusUnprocessableEntity Http.StatusBadRequest
       Http.StatusInternalServerError].
  destruct bound as [req [err|]]; simpl.
  { repeat split; try done; try (by intros [=]); try (by left);
      try (by intros [[] _]; left); by intros [[=]|[=]]. }
  case_decide as E.
  { repeat split; try done; try (by intros [=]); try (by right);
      try (by intros [[] _]; right); by intros [[=]|[=]]. }
  assert (Hnot : ¬ ((None : option error) ≠ None
                    ∨ Strings.TrimSpace (Models.TerraformCode req) = "")).
  { by intros [?|?]. }
  destruct (ValidateTerraformCode_outcome Unmarshal env (Models.TerraformCode req))
    as [[validation ->]|[err ->]]; simpl.
  - destruct (Utils.IsValid validation) eqn:Hv; simpl;
      repeat split; try done; try (by intros [=]);
      try (by intros [_ (v & [= <-] & ?)]; congruence);
      try (by intros [_ (? & [=])]);
      by exists validation.
  - repeat split; try done; try (by intros [=]);
      try (by intros [_ (? & [=] & _)]);
      try (by exists err); by intros [[=]|[=]].
Qed.


(** ** The generator back ends and the service *)

(** X19.  The OpenAI back end returns text or an error, never both.  Text is the
    content of the first choice the API gave for the prompt that quotes
    resource and specs as they are, and it is not blank.  Without a client,
    or with a blank resource or blank specs, the answer is an error
    whatever the client would do. *)
Theorem GenerateTerraformCode_outcome openaiClient resource specs :
  match UtilsOpenAI.GenerateTerraformCode openaiClient resource specs with
  | (content, None) =>
      Strings.TrimSpace content ≠ ""
      ∧ Strings.TrimSpace resource ≠ "" ∧ Strings.TrimSpace specs ≠ ""
      ∧ ∃ client others,
          openaiClient = Some client
          ∧ client
              {| UtilsOpenAI.Model := "gpt-3.5-turbo";
                 UtilsOpenAI.Messages :=
                   [{| UtilsOpenAI.Role := "user";
                       UtilsOpenAI.Content := UtilsOpenAI.prompt resource specs |}];
                 UtilsOpenAI.Temperature := (2, -1);
                 UtilsOpenAI.MaxTokens := 2000 |}
            = (content :: others, None)
  | (content, Some err) =>
      content = ""
      ∧ (openaiClient = None → err = "OpenAI client not initialized")
      ∧ (openaiClient ≠ None → Strings.TrimSpace resource = "" →
         err = "resource cannot be empty")
      ∧ (openaiClient ≠ None → Strings.TrimSpace resource ≠ "" →
         Strings.TrimSpace specs = "" → err = "specs cannot be empty")
  end.
Proof.
  unfold UtilsOpenAI.GenerateTerraformCode.
  destruct openaiClient as [client|]; [|done].
  case_decide as Er; [done|]. case_decide as Es; [done|].
  destruct (client _) as [[|content others] [err|]] eqn:E; try done.
  case_decide as Ec; [done|].
  repeat split; try done. by exists client, others.
Qed.

(** X20.  The GitHub Models back end returns text or an error, never both.  Text
    is the content of the first choice decoded from a body that came with
    status 200, and it is not blank; the request was a POST to the endpoint
    with the token as bearer.  Without a client, without a token, or with a
    blank resource or blank specs, the answer is an error and no request is
    made. *)
Theorem GenerateTerraformCodeWithCopilot_outcome env resource specs :
  match UtilsGitHub.GenerateTerraformCodeWithCopilot env resource specs with
  | (content, None) =>
      Strings.TrimSpace content ≠ ""
      ∧ Strings.TrimSpace resource ≠ "" ∧ Strings.TrimSpace specs ≠ ""
      ∧ UtilsGitHub.Getenv env "GITHUB_TOKEN" ≠ ""
      ∧ ∃ client jsonData resp body choice others,
          UtilsGitHub.githubClient env = Some client
          ∧ client
              {| UtilsGitHub.Method := "POST";
                 UtilsGitHub.URL := UtilsGitHub.endpoint;
                 UtilsGitHub.Header :=
                   [("Content-Type", "application/json");
                    ("Authorization",
                     "Bearer " +:+ UtilsGitHub.Getenv env "GITHUB_TOKEN")];
                 UtilsGitHub.Body := jsonData |}
            = (resp, None)
          ∧ UtilsGitHub.StatusCode resp = 200
          ∧ UtilsGitHub.ReadAll resp = (body, None)
          ∧ (UtilsGitHub.Unmarshal env body).2 = None
          ∧ UtilsGitHub.Choices (UtilsGitHub.Unmarshal env body).1
            = choice :: others
          ∧ content = UtilsGitHub.Content (UtilsGitHub.Message choice)
  | (content, Some err) =>
      content = ""
      ∧ (UtilsGitHub.githubClient env = None →
         err = "GitHub client not initialized")
      ∧ (UtilsGitHub.githubClient env ≠ None →
         UtilsGitHub.Getenv env "GITHUB_TOKEN" = "" →
         err = "GITHUB_TOKEN environment variable is not set")
      ∧ (UtilsGitHub.githubClient env ≠ None →
         UtilsGitHub.Getenv env "GITHUB_TOKEN" ≠ "" →
         Strings.TrimSpace resource = "" → err = "resource cannot be empty")
      ∧ (UtilsGitHub.githubClient env ≠ None →
         UtilsGitHub.Getenv env "GITHUB_TOKEN" ≠ "" →
         Strings.TrimSpace resource ≠ "" →
         Strings.TrimSpace specs = "" → err = "specs cannot be empty")
  end.
Proof.
  unfold UtilsGitHub.GenerateTerraformCodeWithCopilot.
  destruct (UtilsGitHub.githubClient env) as [client|]; [|done].
  case_decide as Et; [done|]. case_decide as Er; [done|].
  case_decide as Es; [done|].
  destruct (UtilsGitHub.Marshal env _) as [jsonData [?|]]; [done|].
  destruct (UtilsGitHub.NewRequest env _ _ _); [done|].
  destruct (client _) as [resp [?|]] eqn:Edo; [done|].
  destruct (UtilsGitHub.ReadAll resp) as [body [?|]] eqn:Eread; [done|].
  case_decide as Estatus; [done|].
  destruct (UtilsGitHub.Unmarshal env body) as [response [?|]] eqn:Eun; [done|].
  destruct (UtilsGitHub.Choices response) as [|choice others] eqn:Ech; [done|].
  case_decide as Ec; [done|].
  repeat split; try done.
  exists client, jsonData, resp, body, choice, others.
  rewrite Eun. repeat split; try done.
Qed.

(** The body the two methods of the service share, by its outcomes. *)
Lemma generateAndValidate_cases Unmarshal env generate failed resource specs :
  match Services.generateAndValidate Unmarshal env generate failed resource specs with
  | (cleanedCode, Some validation, None) =>
      ∃ tfCode,
        generate resource specs = (tfCode, None)
        ∧ Strings.TrimSpace tfCode ≠ ""
        ∧ Services.CleanTerraformCode tfCode = (cleanedCode, None)
        ∧ cleanedCode ≠ "" ∧ Strings.TrimSpace cleanedCode = cleanedCode
        ∧ Utils.ValidateTerraformCode Unmarshal env cleanedCode
          = (Some validation, None)
  | (cleanedCode, None, Some err) =>
      (cleanedCode = ""
       ∧ ((∃ cause, (generate resource specs).2 = Some cause
                    ∧ err = failed +:+ cause)
          ∨ err = "generated terraform code is empty"
          ∨ err = "failed to clean terraform code: cleaned code is empty after processing"))
      ∨ (cleanedCode ≠ ""
         ∧ ∃ cause,
             (Utils.ValidateTerraformCode Unmarshal env cleanedCode).2 = Some cause
             ∧ err = "failed to validate terraform code: " +:+ cause)
  | _ => False
  end.
Proof.
  unfold Services.generateAndValidate.
  destruct (generate resource specs) as [tfCode [cause|]] eqn:Eg.
  { left. split; [done|]. left. by exists cause. }
  case_decide as Eb; [by left; split; [|right; left]|].
  destruct (Services.CleanTerraformCode tfCode) as [cleanedCode [cause|]] eqn:Ec.
  { left. apply CleanTerraformCode_failed in Ec as [-> [[-> _]|[_ ->]]];
      [done|]. split; [done|]. by do 2 right. }
  pose proof Ec as (Hne & Htrim & _)%CleanTerraformCode_ok.
  destruct (ValidateTerraformCode_outcome Unmarshal env cleanedCode)
    as [[validation E]|[cause E]]; rewrite E.
  - by exists tfCode.
  - right. split; [done|]. exists cause. by rewrite E.
Qed.

(** X21.  The service returns either cleaned code with its validation result, or
    an error without a result.  In the first case the generator's text was
    not blank, the code is what the sanitizer made of it, not empty and
    trimmed, and the result is what the validator said about that code.
    With an error, the code is empty unless it is the validator that
    failed. *)
Theorem service_outcome Unmarshal env gen resource specs :
  let outcome generate failed
        (out : string * option Utils.TerraformValidationResult * option error) :=
    match out with
    | (cleanedCode, Some validation, None) =>
        ∃ tfCode,
          generate resource specs = (tfCode, None)
          ∧ Strings.TrimSpace tfCode ≠ ""
          ∧ Services.CleanTerraformCode tfCode = (cleanedCode, None)
          ∧ cleanedCode ≠ "" ∧ Strings.TrimSpace cleanedCode = cleanedCode
          ∧ Utils.ValidateTerraformCode Unmarshal env cleanedCode
            = (Some validation, None)
    | (cleanedCode, None, Some err) =>
        (cleanedCode = ""
         ∧ ((∃ cause, (generate resource specs).2 = Some cause
                      ∧ err = failed +:+ cause)
            ∨ err = "generated terraform code is empty"
            ∨ err = "failed to clean terraform code: cleaned code is empty after processing"))
        ∨ (cleanedCode ≠ ""
           ∧ ∃ cause,
               (Utils.ValidateTerraformCode Unmarshal env cleanedCode).2
               = Some cause
               ∧ err = "failed to validate terraform code: " +:+ cause)
    | _ => False
    end in
  outcome (Utils.GenerateTerraformCode gen)
    "failed to generate terraform code: "
    (Services.GenerateAndValidate Unmarshal env gen resource specs)
  ∧ outcome (Utils.GenerateTerraformCodeWithCopilot gen)
      "failed to generate terraform code with GitHub Copilot: "
      (Services.GenerateAndValidateWithCopilot Unmarshal env gen resource specs).
Proof. cbv zeta. split; apply generateAndValidate_cases. Qed.

Lemma OpenAI_text_not_blank openaiClient resource specs content :
  UtilsOpenAI.GenerateTerraformCode openaiClient resource specs = (content, None) →
  Strings.TrimSpace content ≠ "".
Proof.
  unfold UtilsOpenAI.GenerateTerraformCode.
  destruct openaiClient as [client|]; [|done].
  repeat (case_decide; [done|]).
  destruct (client _) as [[|c others] [err|]]; try done.
  case_decide; [done|]. by intros [= <-].
Qed.

Lemma Copilot_text_not_blank env resource specs content :
  UtilsGitHub.GenerateTerraformCodeWithCopilot env resource specs
  = (content, None) →
  Strings.TrimSpace content ≠ "".
Proof.
  unfold UtilsGitHub.GenerateTerraformCodeWithCopilot.
  destruct (UtilsGitHub.githubClient env) as [client|]; [|done].
  repeat (case_decide; [done|]).
  destruct (UtilsGitHub.Marshal env _) as [jsonData [?|]]; [done|].
  destruct (UtilsGitHub.NewRequest env _ _ _); [done|].
  destruct (client _) as [resp [?|]]; [done|].
  destruct (UtilsGitHub.ReadAll resp) as [body [?|]]; [done|].
  case_decide; [done|].
  destruct (UtilsGitHub.Unmarshal env body) as [response [?|]]; [done|].
  destruct (UtilsGitHub.Choices response) as [|choice others]; [done|].
  case_decide; [done|]. by intros [= <-].
Qed.

(** X22.  Two checks of the service that never fire.  The sanitizer's error for
    an empty input cannot come out of the service, which has ruled out
    blank text before; and with the two back ends of the repository, which
    return no blank text, the service's own error for blank text cannot
    come out either. *)
Theorem service_blank_checks_never_fire Unmarshal env openaiClient github
  resource specs :
  let gen := backends openaiClient github in
  let err1 := (Services.GenerateAndValidate Unmarshal env gen resource specs).2 in
  let err2 :=
    (Services.GenerateAndValidateWithCopilot Unmarshal env gen resource specs).2 in
  err1 ≠ Some "failed to clean terraform code: input code cannot be empty"
  ∧ err2 ≠ Some "failed to clean terraform code: input code cannot be empty"
  ∧ err1 ≠ Some "generated terraform code is empty"
  ∧ err2 ≠ Some "generated terraform code is empty".
Proof.
  cbv zeta.
  unfold Services.GenerateAndValidate, Services.GenerateAndValidateWithCopilot,
    Services.generateAndValidate, backends. simpl.
  pose proof (OpenAI_text_not_blank openaiClient resource specs) as H1.
  pose proof (Copilot_text_not_blank github resource specs) as H2.
  destruct (UtilsOpenAI.GenerateTerraformCode openaiClient resource specs)
    as [tf1 [e1|]];
    destruct (UtilsGitHub.GenerateTerraformCodeWithCopilot github resource specs)
      as [tf2 [e2|]]; simpl.
  all: try specialize (H1 _ eq_refl); try specialize (H2 _ eq_refl).
  all: repeat match goal with
         | |- context [decide (Strings.TrimSpace ?t = "")] =>
             rewrite (decide_False (P := Strings.TrimSpace t = "")) by done
         end.
  all: repeat match goal with
         | |- context [Services.CleanTerraformCode ?t] =>
             let H := fresh "Hc" in
             destruct (Services.CleanTerraformCode t) as [? [?|]] eqn:H;
             [apply CleanTerraformCode_failed in H as [_ [[-> _]|[_ ->]]];
              [done|]|]
         end.
  all: repeat match goal with
         | |- context [Utils.ValidateTerraformCode ?u ?e ?c] =>
             destruct (Utils.ValidateTerraformCode u e c) as [? [?|]]
         end.
  all: simpl; repeat split; done.
Qed.

(** ** A machine without terraform *)

Lemma missing_terraform_result Unmarshal env code cause :
  Utils.LookPath env "terraform" = Some cause →
  ∃ validation,
    Utils.ValidateTerraformCode Unmarshal env code = (Some validation, None)
    ∧ Utils.IsValid validation = false.
Proof.
  intros Hmiss.
  unfold Utils.ValidateTerraformCode, Utils.isTerraformInstalled.
  rewrite Hmiss. simpl. by eexists.
Qed.

Lemma generateAndValidate_not_valid Unmarshal env generate failed resource
  specs cause cleanedCode validation :
  Utils.LookPath env "terraform" = Some cause →
  Services.generateAndValidate Unmarshal env generate failed resource specs
  = (cleanedCode, Some validation, None) →
  Utils.IsValid validation = false.
Proof.
  intros Hmiss Hservice.
  pose proof (generateAndValidate_cases Unmarshal env generate failed
                resource specs) as H.
  rewrite Hservice in H. destruct H as (tfCode & _ & _ & _ & _ & _ & Hv).
  destruct (missing_terraform_result Unmarshal env cleanedCode cause Hmiss)
    as (validation' & Hv' & Hinvalid).
  rewrite Hv in Hv'. by injection Hv' as ->.
Qed.

(** X23.  Where the terraform executable is not found, no request makes the
    service write a file or answer 200: neither generating endpoint changes
    the files, whatever the back ends return, and the validation endpoint
    answers 400 or 422. *)
Theorem without_terraform_nothing_is_saved Unmarshal env gen w bound code cause :
  Utils.LookPath env "terraform" = Some cause →
  let out1 := Handlers.GenerateTerraform Unmarshal env gen w bound in
  let out2 := Handlers.GenerateTerraformWithCopilot Unmarshal env gen w bound in
  let resp := Handlers.ValidateTerraform Unmarshal env code in
  Os.files out1.1 = Os.files w ∧ Models.Code out1.2 ≠ 200
  ∧ Os.files out2.1 = Os.files w ∧ Models.Code out2.2 ≠ 200
  ∧ (Models.Code resp = 400 ∨ Models.Code resp = 422).
Proof.
  intros Hmiss. cbv zeta.
  assert (Hgen : ∀ service provider success invalid,
             provider ≠ "" →
             (∀ cleanedCode validation,
                service (Models.Resource bound.1) (Models.Specs bound.1)
                = (cleanedCode, Some validation, None) →
                Utils.IsValid validation = false) →
             let out :=
               Handlers.generateTerraform service provider success invalid
                 w bound in
             Os.files out.1 = Os.files w ∧ Models.Code out.2 ≠ 200).
  { intros service provider success invalid Hprov Hinvalid. cbv zeta.
    destruct (generateTerraform_answer service provider success invalid w
                bound Hprov) as (_ & _ & _ & H200 & _ & _ & Hwritten).
    split.
    - destruct (decide (Os.files
                          (Handlers.generateTerraform service provider success
                             invalid w bound).1 = Os.files w)) as [E|E];
        [done|].
      destruct (Hwritten E) as (_ & c & v & Hs & Hv).
      by rewrite (Hinvalid _ _ Hs) in Hv.
    - intros E. destruct (H200 E) as (c & v & p & Hs & Hv & _).
      by rewrite (Hinvalid _ _ Hs) in Hv. }
  destruct (Hgen (Services.GenerateAndValidate Unmarshal env gen) "openai"
              "Terraform code generated successfully"
              "Terraform code generated with validation errors") as [H1 H2];
    [done|intros c v; by apply (generateAndValidate_not_valid _ _ _ _ _ _ cause)|].
  destruct (Hgen (Services.GenerateAndValidateWithCopilot Unmarshal env gen)
              "copilot"
              "Terraform code generated successfully using GitHub Copilot"
              "Terraform code generated using GitHub Copilot with validation errors")
    as [H3 H4];
    [done|intros c v; by apply (generateAndValidate_not_valid _ _ _ _ _ _ cause)|].
  repeat (split; [done|]).
  unfold Handlers.ValidateTerraform.
  destruct code as [req [err|]]; [by left|].
  case_decide; [by left|].
  destruct (missing_terraform_result Unmarshal env (Models.TerraformCode req)
              cause Hmiss) as (validation & -> & ->).
  by right.
Qed.

Lemma without_terraform_nothing_is_saved_witness :
  let out :=
    Handlers.GenerateTerraform Scenario.Unmarshal Scenario.not_installed
      (backends (Some Fixture.openai) Fixture.github) Scenario.fresh
      (Scenario.request, None) in
  Os.files out.1 = ∅ ∧ Models.Code out.2 ≠ 200.
Proof.
  destruct (without_terraform_nothing_is_saved Scenario.Unmarshal
              Scenario.not_installed
              (backends (Some Fixture.openai) Fixture.github) Scenario.fresh
              (Scenario.request, None)
              ({| Models.TerraformCode := Scenario.cleaned |}, None)
              "exec: terraform: executable file not found in $PATH" eq_refl)
    as (H1 & H2 & _).
  by split.
Defined.

(** ** The earlier handler, which saves without validation *)

Lemma getNextAvailableFilename_free w dir resourceText ext filePath :
  dir ≠ "" → ext ≠ "" →
  HandlersV1.getNextAvailableFilename w dir resourceText ext = (filePath, None) →
  Os.files w !! filePath = None
  ∧ ∃ i, 1 ≤ i ≤ 10000
         ∧ filePath
           = Spec.candidate_at dir (Services.baseName resourceText) ext i.
Proof.
  intros Hdir Hext E.
  destruct (getNextAvailableFilename_spec w dir resourceText ext Hdir Hext)
    as [(i & Hi & E' & [_ Hnone]%free_true & _)|[E' _]];
    rewrite E' in E; [|done].
  injection E as <-. split; [done|]. by exists i.
Qed.

Local Ltac answer_500 Hnot :=
  simpl; repeat split; try done; try (by apply insert_subseteq);
  try (by intros ?%Hnot); try (by do 2 right).

(** X24.  The earlier handler saves what the sanitizer returns without asking the
    validator.  It answers 400 exactly for a request that does not bind or
    has a blank field, 200 or 500 otherwise; 200 means that the generator's
    text, cleaned, is now the content of a file of the directory terraform
    that did not exist before, named by the base name and an index, and is
    the code of the answer, which carries no validation result.  No answer
    changes a file that existed. *)
Theorem GenerateTerraform_saves_unvalidated gen w bound :
  let out := HandlersV1.GenerateTerraform gen w bound in
  let refused :=
    bound.2 ≠ None
    ∨ Strings.TrimSpace (Models.Resource bound.1) = ""
    ∨ Strings.TrimSpace (Models.Specs bound.1) = "" in
  Os.files w ⊆ Os.files out.1
  ∧ (Models.Code out.2 = 400 ↔ refused)
  ∧ (Models.Code out.2 = 200 ∨ Models.Code out.2 = 400
     ∨ Models.Code out.2 = 500)
  ∧ (Models.Code out.2 = 200 →
     ∃ tfCode cleanedCode i,
       Utils.GenerateTerraformCode gen (Models.Resource bound.1)
         (Models.Specs bound.1) = (tfCode, None)
       ∧ Services.CleanTerraformCode tfCode = (cleanedCode, None)
       ∧ 1 ≤ i ≤ 10000
       ∧ Os.files w
         !! Spec.candidate_at "terraform"
              (Services.baseName (Models.Resource bound.1)) ".tf" i = None
       ∧ Os.files out.1
         = <[Spec.candidate_at "terraform"
               (Services.baseName (Models.Resource bound.1)) ".tf" i
             := cleanedCode]> (Os.files w)
       ∧ Models.JSON out.2
         = Models.TerraformResponse "Terraform code generated successfully"
             cleanedCode None).
Proof.
  cbv zeta. unfold HandlersV1.GenerateTerraform.
  cbv [Http.StatusOK Http.StatusBadRequest Http.StatusInternalServerError].
  destruct bound as [req [err|]]; simpl.
  { repeat split; try done; try (by left); by right; left. }
  destruct (decide (Strings.TrimSpace (Models.Resource req) = "")) as [E1|E1].
  { rewrite bool_decide_eq_true_2 by done. simpl.
    repeat split; try done; try (by right; left). }
  rewrite (bool_decide_eq_false_2 _ E1). simpl.
  destruct (decide (Strings.TrimSpace (Models.Specs req) = "")) as [E2|E2].
  { rewrite bool_decide_eq_true_2 by done. simpl.
    repeat split; try done; try (by right; right); by right; left. }
  rewrite (bool_decide_eq_false_2 _ E2). simpl.
  assert (Hnot : ¬ ((None : option error) ≠ None
                    ∨ Strings.TrimSpace (Models.Resource req) = ""
                    ∨ Strings.TrimSpace (Models.Specs req) = "")).
  { by intros [?|[?|?]]. }
  destruct (Utils.GenerateTerraformCode gen _ _) as [tfCode [err|]] eqn:Eg;
    [answer_500 Hnot|].
  case_decide as Eb; [answer_500 Hnot|].
  change (HandlersV1.cleanTerraformCode tfCode)
    with (Services.CleanTerraformCode tfCode).
  destruct (Services.CleanTerraformCode tfCode) as [cleanedCode [err|]] eqn:Ec;
    [answer_500 Hnot|].
  unfold Os.MkdirAll.
  destruct (Os.mkdir_fault w "terraform"); [answer_500 Hnot|].
  destruct (HandlersV1.getNextAvailableFilename w "terraform"
              (Models.Resource req) ".tf") as [filePath [err|]] eqn:En;
    [answer_500 Hnot|].
  apply getNextAvailableFilename_free in En as (Hnone & i & Hi & ->); [|done..].
  unfold Os.WriteFile.
  destruct (Os.write_fault w _) as [[f|n f]|]; simpl.
  - answer_500 Hnot.
  - answer_500 Hnot.
  - split; [by apply insert_subseteq|].
    split; [split; [done|by intros ?%Hnot]|].
    split; [by left|].
    intros _. by exists tfCode, cleanedCode, i.
Qed.
